(** * multi-pacs-query: the federated reconciliation engine

    A shallow embedding of [multi_pacs_query17_exclude_en.py] and the
    properties of its filter policy, date partitioner, per-source
    orchestration, missing-series diff and row emission.

    Conventions of the embedding.
    - Python [str] values are [string]s; [str.upper] is modelled on the
      ASCII repertoire (DICOM code strings and unique identifiers are
      ASCII), bytes outside [a-z] are left unchanged.
    - A Python [set] of strings is a [gset string]; iterating over a set
      is [elements], whose order is unspecified, as in Python.
    - A Python [dict] is an insertion-ordered association list
      ([pydict]), since [dict.items()] is iterated by the program.
    - The protocol layer (association, C-FIND) is the class [Peers]:
      the program reads the attributes of the identifiers it receives,
      and a read may raise. [QueryClient] is the class of the peers
      whose identifiers all convert, so that no read raises. The calls
      made are recorded in a trace.
    - The secondaries, which the program queries in worker threads, are
      run one after the other in the order in which they complete.
    - The report file is the list of the lines written to it: the
      header and the rows handed to the writer, in order. *)

From Stdlib Require Import ZArith Ascii String List Lia.
From stdpp Require Import base decidable option list strings gmap sets sorting.

Local Open Scope string_scope.
Local Open Scope Z_scope.
Local Open Scope list_scope.

(** ** Strings *)

Definition upper_ascii (c : ascii) : ascii :=
  let n := N_of_ascii c in
  if ((97 <=? n) && (n <=? 122))%N then ascii_of_N (n - 32) else c.

(** [str.upper()] *)
Fixpoint upper (s : string) : string :=
  match s with
  | EmptyString => EmptyString
  | String c r => String (upper_ascii c) (upper r)
  end.

(** [sep.join(parts)] *)
Fixpoint join (sep : string) (parts : list string) : string :=
  match parts with
  | [] => ""
  | [p] => p
  | p :: rest => p +:+ sep +:+ join sep rest
  end.

(** [set(m.upper() for m in l)] *)
Definition upper_set (l : list string) : gset string :=
  list_to_set (upper <$> l).

(** [sorted(s)] for a set of strings: code-point order. *)
Definition sorted (s : gset string) : list string :=
  merge_sort String.le (elements s).

(** ** The filter policy *)

Definition modality_list_intersects (modality_list check_list : list string) : bool :=
  negb (bool_decide (upper_set modality_list ## upper_set check_list)).

Definition modality_list_excludes (modality_list exclude_list : list string) : bool :=
  modality_list_intersects modality_list exclude_list.

(** Truth value of an argument that is [None] or a list. *)
Definition truthy_list {A} (o : option (list A)) : bool :=
  match o with
  | Some (_ :: _) => true
  | _ => false
  end.

(** The filter arguments are [None] or a list of strings. Iterating over
    [None] does not occur: where the list is iterated the argument has
    been tested to be a non-empty list, or to differ from [None]. *)
Definition filter_study (study_modalities : list string)
    (modality_include modality_exclude : option (list string)) : bool :=
  if truthy_list modality_exclude
     && bool_decide (modality_exclude ≠ Some ["NONE"])
     && modality_list_excludes study_modalities (default [] modality_exclude)
  then false
  else if bool_decide (modality_include ∈ [None; Some []; Some ["NONE"]; Some ["*"]])
  then true
  else modality_list_intersects study_modalities (default [] modality_include).

(** ** Specification vocabulary for the filter *)

(** Two modality lists intersect case-insensitively. *)
Definition ci_intersects (ms cs : list string) : Prop :=
  ∃ m c, m ∈ ms ∧ c ∈ cs ∧ upper m = upper c.

(** The exclude list is set and is not the sentinel. *)
Definition exclude_in_force (exc : option (list string)) : Prop :=
  ∃ l, exc = Some l ∧ l ≠ [] ∧ l ≠ ["NONE"].

(** The include list is unset, empty, [NONE] or [*]. *)
Definition include_all (inc : option (list string)) : Prop :=
  inc = None ∨ inc = Some [] ∨ inc = Some ["NONE"] ∨ inc = Some ["*"].

(** ** Dates and times

    A [datetime] is a proleptic Gregorian ordinal (as [date.toordinal()])
    and the microsecond of the day; a [timedelta] is a number of
    microseconds. *)

Record datetime := mk_datetime { ordinal : Z; micros : Z }.

Definition day_micros : Z := 86400 * 1000000.

(** [datetime.min.time()] is 00:00:00, [datetime.max.time()] is
    23:59:59.999999. *)
Definition time_min : Z := 0.
Definition time_max : Z := day_micros - 1.

Definition date (d : datetime) : Z := ordinal d.
Definition time (d : datetime) : Z := micros d.
Definition combine (day t : Z) : datetime := mk_datetime day t.

Definition timedelta (hours minutes seconds : Z) : Z :=
  ((hours * 60 + minutes) * 60 + seconds) * 1000000.

(** [d + delta] *)
Definition add_timedelta (d : datetime) (delta : Z) : datetime :=
  let t := micros d + delta in
  mk_datetime (ordinal d + t / day_micros) (t mod day_micros).

(** [date.max.toordinal()]: 9999-12-31. *)
Definition max_ordinal : Z := 3652059.

(** [a > b] *)
Definition datetime_gt (a b : datetime) : bool :=
  (ordinal b <? ordinal a) || ((ordinal a =? ordinal b) && (micros b <? micros a)).

Definition digit_char (d : Z) : ascii := ascii_of_N (48 + Z.to_N (d mod 10)).

Definition two_digits (n : Z) : string :=
  String (digit_char (n / 10)) (String (digit_char n) "").

Definition four_digits (n : Z) : string :=
  two_digits (n / 100) +:+ two_digits n.

Definition hour (d : datetime) : Z := micros d / 3600000000.
Definition minute (d : datetime) : Z := micros d / 60000000 mod 60.
Definition second (d : datetime) : Z := micros d / 1000000 mod 60.

(** Second of the day: what [%H%M%S] retains of a time. *)
Definition second_of_day (d : datetime) : Z := micros d / 1000000.

(** [d.strftime("%H%M%S")] *)
Definition strftime_HMS (d : datetime) : string :=
  two_digits (hour d) +:+ two_digits (minute d) +:+ two_digits (second d).

Definition days_before_month (m : Z) : Z :=
  match m with
  | 1 => 0 | 2 => 31 | 3 => 59 | 4 => 90 | 5 => 120 | 6 => 151
  | 7 => 181 | 8 => 212 | 9 => 243 | 10 => 273 | 11 => 304 | 12 => 334
  | _ => -1
  end.

Definition days_in_month (m : Z) : Z :=
  match m with
  | 1 => 31 | 2 => 28 | 3 => 31 | 4 => 30 | 5 => 31 | 6 => 30
  | 7 => 31 | 8 => 31 | 9 => 30 | 10 => 31 | 11 => 30 | 12 => 31
  | _ => -1
  end.

(** Ordinal to (year, month, day), as the [datetime] module computes it. *)
Definition ord2ymd (n0 : Z) : Z * Z * Z :=
  let n := n0 - 1 in
  let n400 := n / 146097 in
  let n := n mod 146097 in
  let n100 := n / 36524 in
  let n := n mod 36524 in
  let n4 := n / 1461 in
  let n := n mod 1461 in
  let n1 := n / 365 in
  let n := n mod 365 in
  let year := n400 * 400 + 1 + n100 * 100 + n4 * 4 + n1 in
  if (n1 =? 4) || (n100 =? 4) then (year - 1, 12, 31)
  else
    let leapyear := (n1 =? 3) && (negb (n4 =? 24) || (n100 =? 3)) in
    let month := Z.shiftr (n + 50) 5 in
    let preceding :=
      days_before_month month + (if (2 <? month) && leapyear then 1 else 0) in
    if n <? preceding then
      let month := month - 1 in
      let preceding :=
        preceding
        - (days_in_month month + (if (month =? 2) && leapyear then 1 else 0)) in
      (year, month, n - preceding + 1)
    else (year, month, n - preceding + 1).

(** [d.strftime("%Y%m%d")] *)
Definition strftime_Ymd (d : datetime) : string :=
  let '(y, m, dd) := ord2ymd (ordinal d) in
  four_digits y +:+ two_digits m +:+ two_digits dd.

(** ** Python values met at the protocol boundary *)

(** The exceptions met; all are caught by [except Exception]. *)
Inductive exn :=
  | ValueError
  | TypeError
  | OverflowError
  | OtherError (class_name : string).

(** A computation that returns or raises. *)
Inductive py (A : Type) :=
  | Ok (a : A)
  | Raise (e : exn).
Arguments Ok {A} a.
Arguments Raise {A} e.

Definition py_bind {A B} (m : py A) (f : A → py B) : py B :=
  match m with
  | Ok a => f a
  | Raise e => Raise e
  end.

(** [try: m  except Exception: h] *)
Definition try_except {A} (m : py A) (h : py A) : py A :=
  match m with
  | Ok a => Ok a
  | Raise _ => h
  end.

(** A Python [float] or [Decimal]: a finite value, as a ratio of
    integers, an infinity or a NaN. *)
Inductive pyfloat :=
  | Finite (num : Z) (den : positive)
  | Infinite
  | NaN.

(** The value of a count attribute: an integer, a text, a float, or a
    value of a type that [int] does not take (a multi-value, say). *)
Inductive count_value :=
  | CInt (z : Z)
  | CStr (s : string)
  | CFloat (x : pyfloat)
  | COther.

(** The value of [ModalitiesInStudy]: one code or a multi-value. *)
Inductive modality_value :=
  | MSingle (s : string)
  | MMulti (l : list string).

Fixpoint lstrip (s : string) : string :=
  match s with
  | String c r => if Ascii.is_space c then lstrip r else s
  | EmptyString => EmptyString
  end.

Definition strip (s : string) : string :=
  String.rev (lstrip (String.rev (lstrip s))).

(** Digits with single underscores between them. *)
Fixpoint parse_digits (s : string) (acc : Z) (after_digit : bool) : option Z :=
  match s with
  | EmptyString => if after_digit then Some acc else None
  | String c r =>
      match Ascii.is_nat c with
      | Some d => parse_digits r (10 * acc + Z.of_nat d) true
      | None =>
          if bool_decide (c = "_"%char) && after_digit
          then parse_digits r acc false
          else None
      end
  end.

(** [int(s)] for an ASCII text [s] in base ten. *)
Definition parse_int (s : string) : option Z :=
  match strip s with
  | String "+" r => parse_digits r 0 false
  | String "-" r => Z.opp <$> parse_digits r 0 false
  | r => parse_digits r 0 false
  end.

(** [int(x)] for a float: truncation toward zero. *)
Definition float_int (x : pyfloat) : py Z :=
  match x with
  | Finite num den => Ok (num ÷ Z.pos den)
  | Infinite => Raise OverflowError
  | NaN => Raise ValueError
  end.

(** [int(v)] *)
Definition py_int (v : count_value) : py Z :=
  match v with
  | CInt z => Ok z
  | CStr s =>
      match parse_int s with
      | Some z => Ok z
      | None => Raise ValueError
      end
  | CFloat x => float_int x
  | COther => Raise TypeError
  end.

(** Truth value of a string that may be [None]. *)
Definition truthy_str (o : option string) : bool :=
  match o with
  | Some s => negb (bool_decide (s = ""))
  | None => false
  end.

Definition truthy_modality (o : option modality_value) : bool :=
  match o with
  | Some (MSingle s) => negb (bool_decide (s = ""))
  | Some (MMulti l) => negb (bool_decide (l = []))
  | None => false
  end.

(** ** Insertion-ordered dictionaries with string keys *)

Abbreviation pydict V := (list (string * V)).

(** [d.get(k)] *)
Fixpoint dict_get {V} (d : pydict V) (k : string) : option V :=
  match d with
  | [] => None
  | (k', v) :: r => if decide (k' = k) then Some v else dict_get r k
  end.

(** [d[k] = v]: an existing key keeps its position. *)
Fixpoint dict_set {V} (d : pydict V) (k : string) (v : V) : pydict V :=
  match d with
  | [] => [(k, v)]
  | (k', v') :: r =>
      if decide (k' = k) then (k, v) :: r else (k', v') :: dict_set r k v
  end.

(** [d.setdefault(k, []).append(x)] *)
Definition setdefault_append {V} (d : pydict (list V)) (k : string) (x : V)
    : pydict (list V) :=
  dict_set d k (default [] (dict_get d k) ++ [x])%list.

(** [set(d.keys())] *)
Definition key_set {V} (d : pydict V) : gset string := list_to_set (d.*1).

(** ** The query client

    What the program sends and receives through pynetdicom. The peer is
    an arbitrary state machine [W]: each association attempt yields
    [None] (not established) or the sequence of C-FIND responses, a
    response being the truth value of its status and its identifier
    ([None] for an absent or empty identifier). *)

Record server := mk_server {
  ip : string;
  port : Z;
  aet : string;
  max_workers : Z
}.

(** The STUDY-level request; the other attributes of the request are
    empty return keys. *)
Record study_request := mk_study_request {
  rq_StudyDate : string;
  rq_StudyTime : string
}.

(** What [getattr(identifier, name, None)] gives. pydicom converts the
    value of an element when the attribute is read, so a read returns
    the value ([Ok None] when the attribute is absent) or raises. *)
Definition attribute (A : Type) : Type := py (option A).

(** A STUDY-level identifier as received: what reading each of its
    attributes gives. *)
Record study_dataset := mk_study_dataset {
  getattr_StudyInstanceUID : attribute string;
  getattr_NumberOfStudyRelatedInstances : attribute count_value;
  getattr_NumberOfStudyRelatedSeries : attribute count_value;
  getattr_StudyDate : attribute string;
  getattr_AccessionNumber : attribute string;
  getattr_ModalitiesInStudy : attribute modality_value
}.

(** A SERIES-level identifier as received. *)
Record series_dataset := mk_series_dataset {
  getattr_SeriesInstanceUID : attribute string;
  getattr_Modality : attribute string
}.

(** The peers in general: the identifiers they send are read by the
    program, and a read may raise. Exceptions raised by the association
    calls themselves are not modelled. *)
Class Peers (W : Type) := {
  (** associate, send the STUDY-level C-FIND, release *)
  c_find_studies :
    W → string → Z → string → string → study_request →
    option (list (bool * option study_dataset)) * W;
  (** associate, send the SERIES-level C-FIND for a study, release *)
  c_find_series :
    W → string → Z → string → string → string →
    option (list (bool * option series_dataset)) * W
}.

(** Attributes read from a STUDY-level identifier all of whose
    attributes convert ([None]: absent). *)
Record study_identifier := mk_study_identifier {
  id_StudyInstanceUID : option string;
  id_NumberOfStudyRelatedInstances : option count_value;
  id_NumberOfStudyRelatedSeries : option count_value;
  id_StudyDate : option string;
  id_AccessionNumber : option string;
  id_ModalitiesInStudy : option modality_value
}.

(** Attributes read from a SERIES-level identifier all of whose
    attributes convert. *)
Record series_identifier := mk_series_identifier {
  id_SeriesInstanceUID : option string;
  id_Modality : option string
}.

(** Peers all of whose identifiers convert: no read raises. *)
Class QueryClient (W : Type) := {
  (** associate, send the STUDY-level C-FIND, release *)
  find_studies :
    W → string → Z → string → string → study_request →
    option (list (bool * option study_identifier)) * W;
  (** associate, send the SERIES-level C-FIND for a study, release *)
  find_series :
    W → string → Z → string → string → string →
    option (list (bool * option series_identifier)) * W
}.

(** An identifier that converts, as received. *)
Definition converted_study (identifier : study_identifier) : study_dataset :=
  {| getattr_StudyInstanceUID := Ok (id_StudyInstanceUID identifier);
     getattr_NumberOfStudyRelatedInstances :=
       Ok (id_NumberOfStudyRelatedInstances identifier);
     getattr_NumberOfStudyRelatedSeries :=
       Ok (id_NumberOfStudyRelatedSeries identifier);
     getattr_StudyDate := Ok (id_StudyDate identifier);
     getattr_AccessionNumber := Ok (id_AccessionNumber identifier);
     getattr_ModalitiesInStudy := Ok (id_ModalitiesInStudy identifier) |}.

Definition converted_series (identifier : series_identifier) : series_dataset :=
  {| getattr_SeriesInstanceUID := Ok (id_SeriesInstanceUID identifier);
     getattr_Modality := Ok (id_Modality identifier) |}.

Definition converted {A B : Type} (f : A → B)
    (responses : list (bool * option A)) : list (bool * option B) :=
  (λ r : bool * option A, (r.1, f <$> r.2)) <$> responses.

(** Peers whose identifiers convert are peers. *)
#[global] Instance converted_peers {W : Type} `{QueryClient W} : Peers W := {|
  c_find_studies w ip port aet local_aet ds :=
    let '(r, w') := find_studies w ip port aet local_aet ds in
    (converted converted_study <$> r, w');
  c_find_series w ip port aet local_aet study_uid :=
    let '(r, w') := find_series w ip port aet local_aet study_uid in
    (converted converted_series <$> r, w')
|}.

(** The calls made to the query client. *)
Inductive event :=
  | StudyFind (ip : string) (port : Z) (aet local_aet : string) (ds : study_request)
  | SeriesFind (ip : string) (port : Z) (aet local_aet : string) (study_uid : string).

(** State of a run: the peers and the calls made so far, oldest first. *)
Record net (W : Type) := mk_net { world : W; trace : list event }.
Arguments mk_net {W} world trace.
Arguments world {W} n.
Arguments trace {W} n.

(** Computations that talk to the peers and may raise. *)
Definition M (W A : Type) : Type := net W → py A * net W.

Definition ret {W A} (a : A) : M W A := λ s, (Ok a, s).

Definition bind {W A B} (m : M W A) (f : A → M W B) : M W B :=
  λ s, match m s with
       | (Ok a, s') => f a s'
       | (Raise e, s') => (Raise e, s')
       end.

Definition lift_py {W A} (m : py A) : M W A := λ s, (m, s).

Declare Scope run_scope.
Delimit Scope run_scope with run.
Notation "'let!' x ':=' m 'in' k" := (bind m (λ x, k))
  (at level 10, x name, m at level 100, k at level 200) : run_scope.

(** [for x in l: acc = body(acc, x)] *)
Fixpoint for_each {W A B} (l : list A) (acc : B) (body : B → A → M W B) : M W B :=
  match l with
  | [] => ret acc
  | x :: r => bind (body acc x) (λ acc', for_each r acc' body)
  end.

(** The same loop for a body that only may raise. *)
Fixpoint py_for_each {A B} (l : list A) (acc : B) (body : B → A → py B) : py B :=
  match l with
  | [] => Ok acc
  | x :: r => py_bind (body acc x) (λ acc', py_for_each r acc' body)
  end.

(** One entry of the result of [query_server]. *)
Record study_result := mk_study_result {
  StudyDate : option string;
  StudyInstanceUID : option string;
  NumberOfStudyRelatedInstances : Z;
  NumberOfStudyRelatedSeries : Z;
  AccessionNumber : option string;
  ModalityList : list string
}.

(** The request built by [query_server]: [StudyTime] is set only when
    the window is not the whole day. *)
Definition study_request_of (start_datetime end_datetime : datetime) : study_request :=
  {| rq_StudyDate := strftime_Ymd start_datetime;
     rq_StudyTime :=
       if negb (bool_decide (time start_datetime = time_min))
          || negb (bool_decide (time end_datetime = time_max))
       then strftime_HMS start_datetime +:+ "-" +:+ strftime_HMS end_datetime
       else "" |}.

(** [int(x) if x is not None else 0], guarded by [try/except]. *)
Definition count_of (raw : option count_value) : py Z :=
  try_except
    (match raw with
     | Some v => py_int v
     | None => Ok 0
     end)
    (Ok 0).

Definition modalities_list_of (modality_raw : option modality_value) : list string :=
  if truthy_modality modality_raw then
    match modality_raw with
    | Some (MMulti l) => l
    | Some (MSingle s) => [s]
    | None => []
    end
  else [].

(** Body of the response loop of [query_server]: the six attributes
    are read first, outside the [try] blocks of the counts. *)
Definition study_response (results : list study_result)
    (r : bool * option study_dataset) : py (list study_result) :=
  match r with
  | (true, Some identifier) =>
      py_bind (getattr_StudyInstanceUID identifier) (λ study_uid,
      py_bind (getattr_NumberOfStudyRelatedInstances identifier) (λ study_img,
      py_bind (getattr_NumberOfStudyRelatedSeries identifier) (λ study_ser,
      py_bind (getattr_StudyDate identifier) (λ study_date,
      py_bind (getattr_AccessionNumber identifier) (λ accession,
      py_bind (getattr_ModalitiesInStudy identifier) (λ modality_raw,
      py_bind (count_of study_img) (λ study_img,
      py_bind (count_of study_ser) (λ study_ser,
      Ok (results ++
          [ {| StudyDate := study_date;
               StudyInstanceUID := study_uid;
               NumberOfStudyRelatedInstances := study_img;
               NumberOfStudyRelatedSeries := study_ser;
               AccessionNumber := accession;
               ModalityList := modalities_list_of modality_raw |} ])%list))))))))
  | _ => Ok results
  end.

(** Body of the response loop of [query_study_series]. *)
Definition series_response (series_list : list (string * string))
    (r : bool * option series_dataset) : py (list (string * string)) :=
  match r with
  | (true, Some identifier) =>
      py_bind (getattr_SeriesInstanceUID identifier) (λ series_uid,
      py_bind (getattr_Modality identifier) (λ modality,
      Ok (match series_uid, modality with
          | Some series_uid, Some modality =>
              if truthy_str (Some series_uid) && truthy_str (Some modality)
              then (series_list ++ [(series_uid, modality)])%list
              else series_list
          | _, _ => series_list
          end)))
  | _ => Ok series_list
  end.

(** One entry of a day inventory. *)
Record study_data := mk_study_data {
  SeriesCount : Z;
  ImagesCount : Z;
  SeriesList : list (string * string);
  sd_StudyDate : option string;
  sd_AccessionNumber : option string;
  Modalities : list string;
  SourceServerAET : string
}.

(** The arguments of the run that the day's processing reads. *)
Record arguments := mk_arguments {
  arg_modality : list string;
  arg_exclude : list string;
  arg_aet : string
}.

Section Queries.
Context {W : Type} `{Peers W}.
Local Open Scope run_scope.

Definition send_study_find (ip : string) (port : Z) (aet local_aet : string)
    (ds : study_request) : M W (option (list (bool * option study_dataset))) :=
  λ s, let '(r, w) := c_find_studies (world s) ip port aet local_aet ds in
       (Ok r, mk_net w (trace s ++ [StudyFind ip port aet local_aet ds])).

Definition send_series_find (ip : string) (port : Z) (aet local_aet : string)
    (study_uid : string) : M W (option (list (bool * option series_dataset))) :=
  λ s, let '(r, w) := c_find_series (world s) ip port aet local_aet study_uid in
       (Ok r, mk_net w (trace s ++ [SeriesFind ip port aet local_aet study_uid])).

(** C-FIND at STUDY level *)
Definition query_server (ip : string) (port : Z) (aet : string)
    (start_datetime end_datetime : datetime) (local_aet : string)
    : M W (list study_result) :=
  let ds := study_request_of start_datetime end_datetime in
  let! assoc := send_study_find ip port aet local_aet ds in
  match assoc with
  | Some responses => lift_py (py_for_each responses [] study_response)
  | None => ret []
  end.

(** C-FIND at SERIES level *)
Definition query_study_series (ip : string) (port : Z) (aet : string)
    (study_uid : string) (local_aet : string) : M W (list (string * string)) :=
  let! assoc := send_series_find ip port aet local_aet study_uid in
  match assoc with
  | Some responses => lift_py (py_for_each responses [] series_response)
  | None => ret []
  end.

(** The window of block [i]: four hours less one second, clamped. *)
Definition block_window (day_start day_end : datetime) (i : Z) : datetime * datetime :=
  let block_start := add_timedelta day_start (timedelta (4 * i) 0 0) in
  let block_end := add_timedelta block_start (timedelta 3 59 59) in
  let block_end := if datetime_gt block_end day_end then day_end else block_end in
  (block_start, block_end).

(** Split into 4-hour blocks if results count is 500 *)
Definition query_server_with_4h_blocks (ip : string) (port : Z) (aet : string)
    (date_obj : datetime) (local_aet : string) : M W (list study_result) :=
  let day_start := combine (date date_obj) time_min in
  let day_end := combine (date date_obj) time_max in
  let! partial_results := query_server ip port aet day_start day_end local_aet in
  if bool_decide (length partial_results < 500)%nat then ret partial_results
  else
    for_each (seqZ 0 6) [] (λ results i,
      let '(block_start, block_end) := block_window day_start day_end i in
      let! block_results := query_server ip port aet block_start block_end local_aet in
      ret (results ++ block_results)%list).

(** Body of the study loop of [process_server]. *)
Definition process_study (server : server) (args : arguments)
    (studies : pydict study_data) (study : study_result)
    : M W (pydict study_data) :=
  if negb (truthy_str (StudyInstanceUID study)) then ret studies
  else
    let uid := default "" (StudyInstanceUID study) in
    let! series_list :=
      query_study_series (ip server) (port server) (aet server) uid (arg_aet args) in
    ret (dict_set studies uid
           {| SeriesCount := NumberOfStudyRelatedSeries study;
              ImagesCount := NumberOfStudyRelatedInstances study;
              SeriesList := series_list;
              sd_StudyDate := StudyDate study;
              sd_AccessionNumber := AccessionNumber study;
              Modalities := ModalityList study;
              SourceServerAET := aet server |}).

(** Retrieve studies and series from server *)
Definition process_server (server : server) (current_date : datetime)
    (args : arguments) : M W (string * pydict study_data) :=
  let! srv_results :=
    query_server_with_4h_blocks (ip server) (port server) (aet server)
      current_date (arg_aet args) in
  let! studies := for_each srv_results [] (process_study server args) in
  ret (aet server, studies).

End Queries.

(** ** One day of [main]: fan-in, filter, missing series, rows *)

(** Fan-in of the secondaries' inventories, in order of completion. *)
Definition gather_other (completed : list (string * pydict study_data))
    : pydict (list study_data) :=
  foldl (λ other_studies '(_, studies),
           foldl (λ other_studies '(uid, data),
                    setdefault_append other_studies uid data)
                 other_studies studies)
        [] completed.

Definition all_uids (target_studies : pydict study_data)
    (other_studies : pydict (list study_data)) : gset string :=
  key_set target_studies ∪ key_set other_studies.

(** The modalities handed to [filter_study] for one study. *)
Definition study_modalities (target_studies : pydict study_data)
    (other_studies : pydict (list study_data)) (uid : string) : list string :=
  let modalities := [] in
  let modalities :=
    match dict_get target_studies uid with
    | Some st => (modalities ++ Modalities st)%list
    | None => modalities
    end in
  let modalities :=
    match dict_get other_studies uid with
    | Some entries =>
        foldl (λ modalities entry, (modalities ++ Modalities entry)%list)
              modalities entries
    | None => modalities
    end in
  elements (upper_set modalities).

Definition filtered (target_studies : pydict study_data)
    (other_studies : pydict (list study_data)) (args : arguments) : gset string :=
  foldl (λ filtered uid,
           if filter_study (study_modalities target_studies other_studies uid)
                (Some (arg_modality args)) (Some (arg_exclude args))
           then filtered ∪ {[uid]} else filtered)
        ∅ (elements (all_uids target_studies other_studies)).

(** The test applied to one series of a secondary, on its modality. *)
Definition series_passes (args : arguments) (s_mod : string) : bool :=
  (bool_decide (arg_exclude args = ["NONE"])
   || negb (bool_decide (upper s_mod ∈ upper <$> arg_exclude args)))
  && (bool_decide (arg_modality args = ["NONE"])
      || bool_decide (upper s_mod ∈ upper <$> arg_modality args)).

(** The reference set: the primary's series identifiers for the study. *)
Definition tgt_series (target_studies : pydict study_data) (uid : string)
    : gset string :=
  list_to_set
    (match dict_get target_studies uid with
     | Some st => SeriesList st
     | None => []
     end).*1.

(** Innermost loop body: one series of one secondary entry. *)
Definition add_missing_series (args : arguments) (tgt : gset string)
    (uid : string) (entry : study_data)
    (missing_series_map : pydict (list (string * string * string)))
    (s : string * string) : pydict (list (string * string * string)) :=
  let '(s_uid, s_mod) := s in
  if negb (bool_decide (s_uid ∈ tgt)) && series_passes args s_mod
  then setdefault_append missing_series_map uid
         (s_uid, s_mod, SourceServerAET entry)
  else missing_series_map.

(** Loop over the series of one secondary entry. *)
Definition add_missing_entry (args : arguments) (tgt : gset string)
    (uid : string)
    (missing_series_map : pydict (list (string * string * string)))
    (entry : study_data) : pydict (list (string * string * string)) :=
  foldl (add_missing_series args tgt uid entry) missing_series_map
        (SeriesList entry).

(** Loop body for one study of [filtered]. *)
Definition add_missing_study (target_studies : pydict study_data)
    (other_studies : pydict (list study_data)) (args : arguments)
    (missing_series_map : pydict (list (string * string * string)))
    (uid : string) : pydict (list (string * string * string)) :=
  let tgt := tgt_series target_studies uid in
  match dict_get other_studies uid with
  | Some entries =>
      foldl (add_missing_entry args tgt uid) missing_series_map entries
  | None => missing_series_map
  end.

Definition missing_series_map (target_studies : pydict study_data)
    (other_studies : pydict (list study_data)) (args : arguments)
    (filtered : gset string) : pydict (list (string * string * string)) :=
  foldl (add_missing_study target_studies other_studies args)
        [] (elements filtered).

(** One line of the report, as handed to the CSV writer. *)
Record row := mk_row {
  row_StudyDate : option string;
  row_StudyInstanceUID : string;
  row_AccessionNumber : option string;
  row_SeriesCount : Z;
  row_ImagesCount : Z;
  row_Modality : string;
  row_SourceServerAET : string;
  row_MissingSeries : string
}.

(** [f"{s_uid}({s_mod})"] *)
Definition series_token (s_uid s_mod : string) : string :=
  s_uid +:+ "(" +:+ s_mod +:+ ")".

(** The missing series of a study grouped by the server that has them. *)
Definition add_by_srv (by_srv : pydict (list string))
    (x : string * string * string) : pydict (list string) :=
  let '(s_uid, s_mod, s_aet) := x in
  setdefault_append by_srv s_aet (series_token s_uid s_mod).

Definition by_srv (miss : list (string * string * string)) : pydict (list string) :=
  foldl add_by_srv [] miss.

(** The rows written for one study of [filtered]. *)
Definition rows_of (target_studies : pydict study_data)
    (other_studies : pydict (list study_data))
    (missing_series_map : pydict (list (string * string * string)))
    (current_date : datetime) (uid : string) : list row :=
  match dict_get target_studies uid with
  | Some st =>
      let mods := join "," (sorted (upper_set (Modalities st))) in
      let miss := default [] (dict_get missing_series_map uid) in
      if negb (bool_decide (miss = [])) then
        (λ '(s_aet, misslist),
           {| row_StudyDate := sd_StudyDate st;
              row_StudyInstanceUID := uid;
              row_AccessionNumber := sd_AccessionNumber st;
              row_SeriesCount := SeriesCount st;
              row_ImagesCount := ImagesCount st;
              row_Modality := mods;
              row_SourceServerAET := s_aet;
              row_MissingSeries := join ", " misslist |}) <$> by_srv miss
      else
        [ {| row_StudyDate := sd_StudyDate st;
             row_StudyInstanceUID := uid;
             row_AccessionNumber := sd_AccessionNumber st;
             row_SeriesCount := SeriesCount st;
             row_ImagesCount := ImagesCount st;
             row_Modality := mods;
             row_SourceServerAET := SourceServerAET st;
             row_MissingSeries := "" |} ]
  | None =>
      match dict_get other_studies uid with
      | Some entries =>
          let all_mods :=
            foldl (λ all_mods entry, all_mods ∪ upper_set (Modalities entry))
                  (∅ : gset string) entries in
          let mods := join "," (sorted all_mods) in
          let miss := default [] (dict_get missing_series_map uid) in
          (λ '(s_aet, misslist),
             {| row_StudyDate := Some (strftime_Ymd current_date);
                row_StudyInstanceUID := uid;
                row_AccessionNumber := Some "";
                row_SeriesCount := 0;
                row_ImagesCount := 0;
                row_Modality := mods;
                row_SourceServerAET := s_aet;
                row_MissingSeries := join ", " misslist |}) <$> by_srv miss
      | None => []
      end
  end.

(** The rows appended to the report for one day. *)
Definition day_rows (target_studies : pydict study_data)
    (other_studies : pydict (list study_data)) (args : arguments)
    (current_date : datetime) : list row :=
  let filtered := filtered target_studies other_studies args in
  let missing_series_map :=
    missing_series_map target_studies other_studies args filtered in
  foldl (λ rows uid,
           (rows ++ rows_of target_studies other_studies missing_series_map
                      current_date uid)%list)
        [] (elements filtered).

Section Day.
Context {W : Type} `{Peers W}.
Local Open Scope run_scope.

(** One iteration of the loop of [main]. The secondaries are listed in
    the order in which their retrievals complete; when the retrieval of
    one raises, [f.result()] raises it, and the calls that the
    retrievals still running make are not followed. *)
Definition main_day (target_server : server) (other_servers : list server)
    (current_date : datetime) (args : arguments) : M W (list row) :=
  let! target := process_server target_server current_date args in
  let! completed :=
    for_each other_servers []
      (λ done srv,
         let! r := process_server srv current_date args in
         ret (done ++ [r])%list) in
  ret (day_rows target.2 (gather_other completed) args current_date).
End Day.

(** ** Scripted peers for concrete runs *)

Module Scenario.

(** A peer that answers from a fixed table, keyed by the called AE
    title: [None] means the association is not established. *)
Record script := mk_script {
  studies_at : string → option (list (bool * option study_identifier));
  series_at : string → string → option (list (bool * option series_identifier))
}.

#[export] Instance script_client : QueryClient script := {|
  find_studies w _ _ aet _ _ := (studies_at w aet, w);
  find_series w _ _ aet _ uid := (series_at w aet uid, w)
|}.

Definition P : server := mk_server "10.0.0.1" 104 "P" 4.
Definition Q : server := mk_server "10.0.0.2" 104 "Q" 4.

Definition day : datetime := combine 739924 0.

Definition study (uid : string) (mods : list string)
    : bool * option study_identifier :=
  (true, Some (mk_study_identifier (Some uid) (Some (CInt 40)) (Some (CInt 2))
                 (Some "20261104") (Some "ACC1") (Some (MMulti mods)))).

Definition series (uid modality : string) : bool * option series_identifier :=
  (true, Some (mk_series_identifier (Some uid) (Some modality))).

Definition start (w : script) : net script := mk_net w [].

(** P holds study S1 with series s1(CT), s2(CT); Q holds S1 with series
    s1(CT), s3(MR). *)
Definition two_sources : script :=
  mk_script
    (λ aet, if decide (aet = "P") then Some [study "S1" ["CT"]]
            else if decide (aet = "Q") then Some [study "S1" ["CT"; "MR"]]
            else None)
    (λ aet uid,
       if decide (aet = "P") then Some [series "s1" "CT"; series "s2" "CT"]
       else if decide (aet = "Q") then Some [series "s1" "CT"; series "s3" "MR"]
       else None).

(** P holds nothing; Q holds study S2 whose series lookup yields
    nothing. *)
Definition secondary_only_no_series : script :=
  mk_script
    (λ aet, if decide (aet = "Q") then Some [study "S2" ["US"]] else Some [])
    (λ aet uid, Some []).

(** P holds nothing; Q holds study S2 with series s5(US). *)
Definition secondary_only : script :=
  mk_script
    (λ aet, if decide (aet = "Q") then Some [study "S2" ["US"]] else Some [])
    (λ aet uid, if decide (aet = "Q") then Some [series "s5" "US"] else Some []).

Definition no_filter : arguments := mk_arguments ["NONE"] ["NONE"] "MY_AET".
Definition include_star : arguments := mk_arguments ["*"] ["NONE"] "MY_AET".
Definition include_us : arguments := mk_arguments ["US"] ["NONE"] "MY_AET".
Definition exclude_mr : arguments := mk_arguments ["NONE"] ["MR"] "MY_AET".

(** The inventories of P and Q for [two_sources]. *)
Definition target_two : pydict study_data :=
  [("S1", mk_study_data 2 40 [("s1", "CT"); ("s2", "CT")]
            (Some "20261104") (Some "ACC1") ["CT"] "P")].
Definition other_two : pydict (list study_data) :=
  [("S1", [mk_study_data 2 40 [("s1", "CT"); ("s3", "MR")]
             (Some "20261104") (Some "ACC1") ["CT"; "MR"] "Q"])].

(** The inventories of P and Q for [secondary_only_no_series]. *)
Definition target_none : pydict study_data := [].
Definition other_no_series : pydict (list study_data) :=
  [("S2", [mk_study_data 2 40 [] (Some "20261104") (Some "ACC1") ["US"] "Q"])].

(** The inventories of P and Q for [secondary_only]. *)
Definition other_only : pydict (list study_data) :=
  [("S2", [mk_study_data 2 40 [("s5", "US")]
             (Some "20261104") (Some "ACC1") ["US"] "Q"])].

(** A peer whose series answers are replayed from a queue, one per
    lookup; its study answer lists S1 twice. *)
Record replay := mk_replay {
  replay_series : list (list (bool * option series_identifier))
}.

#[export] Instance replay_client : QueryClient replay := {|
  find_studies w _ _ _ _ _ :=
    (Some [study "S1" ["CT"]; study "S1" ["MR"]], w);
  find_series w _ _ _ _ _ :=
    match replay_series w with
    | [] => (None, w)
    | r :: rest => (Some r, mk_replay rest)
    end
|}.

(** The record [query_server] makes from the response [study uid mods]. *)
Definition record (uid : string) (mods : list string) : study_result :=
  mk_study_result (Some "20261104") (Some uid) 40 2 (Some "ACC1") mods.

Definition twice : net replay :=
  mk_net (mk_replay [[series "s1" "CT"]; [series "s1" "CT"; series "s2" "MR"]]) [].

End Scenario.

(** ** The configuration file *)

(** [c.isspace()] on the ASCII repertoire *)
Definition py_isspace (c : ascii) : bool :=
  let n := N_of_ascii c in
  ((9 <=? n) && (n <=? 13) || (28 <=? n) && (n <=? 32))%N.

Fixpoint py_lstrip (s : string) : string :=
  match s with
  | String c r => if py_isspace c then py_lstrip r else s
  | EmptyString => EmptyString
  end.

(** [s.strip()] *)
Definition py_strip (s : string) : string :=
  String.rev (py_lstrip (String.rev (py_lstrip s))).

(** The word read so far, if any, closes when a separator is met. *)
Definition close_word (cur : string) : list string :=
  if bool_decide (cur = "") then [] else [String.rev cur].

Fixpoint split_go (cur : string) (s : string) : list string :=
  match s with
  | EmptyString => close_word cur
  | String c r =>
      if py_isspace c then close_word cur ++ split_go "" r
      else split_go (String c cur) r
  end.

(** [s.split()]: the maximal runs of characters that are not spaces. *)
Definition split (s : string) : list string := split_go "" s.

(** Body of the line loop of [load_servers]. [int] is [py_int]: base
    ten on ASCII digits, with no bound on the number of digits. *)
Definition load_line (servers : list server) (line : string) : py (list server) :=
  let line := py_strip line in
  if negb (bool_decide (line = "")) && negb (String.prefix "#" line) then
    let parts := split line in
    match parts with
    | ip :: port :: aet :: rest =>
        py_bind (match rest with
                 | p3 :: _ => py_int (CStr p3)
                 | [] => Ok 4
                 end) (λ max_workers,
        py_bind (py_int (CStr port)) (λ port,
        Ok (servers ++ [mk_server ip port aet max_workers])))
    | _ => Raise ValueError
    end
  else Ok servers.

(** Load servers from cfg file: ip port aet [max_workers]. The argument
    is the sequence of lines that iterating over the file yields. *)
Definition load_servers (lines : list string) : py (list server) :=
  py_for_each lines [] load_line.

(** ** The run over the date range *)

(** What the report file holds: header lines and data lines. *)
Inductive csv_line :=
  | Header (columns : list string)
  | Data (r : row).

Definition header_columns : list string :=
  ["StudyDate"; "StudyInstanceUID"; "AccessionNumber"; "SeriesCount";
   "ImagesCount"; "Modality"; "SourceServerAET"; "MissingSeries"].

(** The day's writes to the file opened for appending: the header when
    the file is empty ([csvfile.tell() == 0]), then the rows. *)
Definition write_day (sink : list csv_line) (rows : list row) : list csv_line :=
  let sink :=
    if bool_decide (sink = []) then sink ++ [Header header_columns] else sink in
  foldl (λ sink r, sink ++ [Data r]) sink rows.

(** [a <= b] *)
Definition datetime_le (a b : datetime) : bool := negb (datetime_gt a b).

(** [timedelta(days=n)] *)
Definition timedelta_days (n : Z) : Z := n * day_micros.

(** [d + delta] raises [OverflowError] when the date of the result is
    not within [date.min .. date.max]. *)
Definition checked_add_timedelta (d : datetime) (delta : Z) : py datetime :=
  let r := add_timedelta d delta in
  if (1 <=? ordinal r) && (ordinal r <=? max_ordinal) then Ok r
  else Raise OverflowError.

(** What ends a run early: an exception of the queries, of the dates or
    of the configuration, or the [IndexError] of [servers[0]]. *)
Inductive run_exn :=
  | Exn (e : exn)
  | IndexError.

(** How a run ends, with what the report file then holds. *)
Inductive outcome (A : Type) :=
  | Finished (a : A)
  | Aborted (e : run_exn) (a : A)
  | OutOfFuel.
Arguments Finished {A} a.
Arguments Aborted {A} e a.
Arguments OutOfFuel {A}.

Section Run.
Context {W : Type} `{Peers W}.
Local Open Scope run_scope.

(** One pass of the body of the loop of [main], up to the rows. A
    thread pool is made for each secondary before its retrieval is
    submitted, and making a pool of no worker raises [ValueError]; the
    retrievals submitted before the pool that fails are not followed.
    [completed] lists the secondaries in the order in which their
    retrievals complete. *)
Definition main_iteration (target_server : server)
    (other_servers completed : list server) (current_date : datetime)
    (args : arguments) : M W (list row) :=
  if forallb (λ srv, 0 <? max_workers srv) other_servers
  then main_day target_server completed current_date args
  else
    let! target := process_server target_server current_date args in
    lift_py (Raise ValueError).

(** The loop of [main] over the days; [OutOfFuel] when the fuel runs
    out. [order] gives, for each day, the order in which the secondaries
    complete. The rows of a day are written before the date is stepped,
    and stepping the date past the last one there is raises. *)
Fixpoint main_loop (fuel : nat) (target_server : server)
    (other_servers : list server)
    (order : datetime → list server → list server) (args : arguments)
    (current_date end_date : datetime) (sink : list csv_line)
    (s : net W) : outcome (list csv_line) * net W :=
  match fuel with
  | O => (OutOfFuel, s)
  | S fuel' =>
      if datetime_le current_date end_date then
        match main_iteration target_server other_servers
                (order current_date other_servers) current_date args s with
        | (Ok rows, s') =>
            let sink := write_day sink rows in
            match checked_add_timedelta current_date (timedelta_days 1) with
            | Ok current_date =>
                main_loop fuel' target_server other_servers order args
                  current_date end_date sink s'
            | Raise e => (Aborted (Exn e) sink, s')
            end
        | (Raise e, s') => (Aborted (Exn e) sink, s')
        end
      else (Finished sink, s)
  end.

(** [main], from the lines of the configuration file, the days that
    [strptime] reads from the two date arguments (as ordinals; both
    datetimes are at midnight) and the content of the report file. *)
Definition main (fuel : nat) (cfg_lines : list string)
    (order : datetime → list server → list server)
    (start_day end_day : Z) (args : arguments) (sink : list csv_line)
    : net W → outcome (list csv_line) * net W :=
  λ s,
    match load_servers cfg_lines with
    | Raise e => (Aborted (Exn e) sink, s)
    | Ok [] => (Aborted IndexError sink, s)
    | Ok (target_server :: other_servers) =>
        main_loop fuel target_server other_servers order args
          (combine start_day time_min) (combine end_day time_min) sink s
    end.

End Run.

(** ** Concrete configurations and inventories *)

Module Examples.

(** A configuration file with a comment, a blank line, a server with
    the default number of workers and one with its own. *)
Definition cfg_two : list string :=
  ["# primary first"; "10.0.0.1 104 P"; ""; "  10.0.0.2   104 Q 4  "].

(** A configuration whose second server has no worker. *)
Definition cfg_no_worker : list string :=
  ["10.0.0.1 104 P"; "10.0.0.2 104 Q 0"].

(** A configuration that holds only comments and blank lines. *)
Definition cfg_comments : list string := ["# none"; "   "; "#10.0.0.1 104 P"].

(** A server no scripted peer answers. *)
Definition unreachable : server := mk_server "10.0.0.9" 104 "X" 1.

(** Two completed inventories that share study S1. *)
Definition inventory_Q : string * pydict study_data :=
  ("Q", [("S1", mk_study_data 2 40 [("s1", "CT"); ("s3", "MR")]
                  (Some "20261104") (Some "ACC1") ["CT"; "MR"] "Q")]).
Definition inventory_R : string * pydict study_data :=
  ("R", [("S1", mk_study_data 1 12 [("s9", "US")]
                  (Some "20261104") (Some "ACC1") ["US"] "R");
         ("S7", mk_study_data 1 3 [("s7", "CT")]
                  (Some "20261104") (Some "ACC7") ["ct"] "R")]).

(** Peers that answer from a fixed table of identifiers as received,
    keyed by the called AE title. *)
Record raw_script := mk_raw_script {
  raw_studies_at : string → option (list (bool * option study_dataset));
  raw_series_at : string → string → option (list (bool * option series_dataset))
}.

#[export] Instance raw_script_peers : Peers raw_script := {|
  c_find_studies w _ _ aet _ _ := (raw_studies_at w aet, w);
  c_find_series w _ _ aet _ uid := (raw_series_at w aet uid, w)
|}.

(** The primary holds study S1, whose NumberOfStudyRelatedInstances
    is the integer string [inf]: the read of the attribute raises
    [OverflowError]. *)
Definition inf_count : raw_script :=
  mk_raw_script
    (λ aet, Some [(true, Some (mk_study_dataset
                                 (Ok (Some "S1")) (Raise OverflowError)
                                 (Ok (Some (CInt 2))) (Ok (Some "20261104"))
                                 (Ok (Some "ACC1")) (Ok (Some (MSingle "CT")))))])
    (λ aet uid, Some [(true, Some (mk_series_dataset (Ok (Some "s1"))
                                     (Ok (Some "CT"))))]).

(** The same study with counts that are read as values that [int]
    rejects: a text and an infinite float. *)
Definition rejected_counts : Scenario.script :=
  Scenario.mk_script
    (λ aet, Some [(true, Some (mk_study_identifier
                                 (Some "S1") (Some (CStr "inf"))
                                 (Some (CFloat Infinite)) (Some "20261104")
                                 (Some "ACC1") (Some (MSingle "CT"))))])
    (λ aet uid, Some [Scenario.series "s1" "CT"]).

(** The secondaries complete in the order of the configuration. *)
Definition in_order (d : datetime) (l : list server) : list server := l.

End Examples.

(** ** Specification vocabulary for the queries *)

(** The count a record carries for a raw attribute value. *)
Definition coerce_count (raw : option count_value) : Z :=
  match raw with
  | None => 0
  | Some (CInt z) => z
  | Some (CStr s) => default 0 (parse_int s)
  | Some (CFloat (Finite num den)) => num ÷ Z.pos den
  | Some (CFloat _) => 0
  | Some COther => 0
  end.

(** The record made from an identifier. *)
Definition study_record (identifier : study_identifier) : study_result :=
  {| StudyDate := id_StudyDate identifier;
     StudyInstanceUID := id_StudyInstanceUID identifier;
     NumberOfStudyRelatedInstances :=
       coerce_count (id_NumberOfStudyRelatedInstances identifier);
     NumberOfStudyRelatedSeries :=
       coerce_count (id_NumberOfStudyRelatedSeries identifier);
     AccessionNumber := id_AccessionNumber identifier;
     ModalityList := modalities_list_of (id_ModalitiesInStudy identifier) |}.

(** The records made from a sequence of responses: those with a true
    status and an identifier. *)
Definition study_records (responses : list (bool * option study_identifier))
    : list study_result :=
  omap (λ r, match r with
             | (true, Some identifier) => Some (study_record identifier)
             | _ => None
             end) responses.

(** The series kept from a response: status true, an identifier, and
    both attributes present and non-empty. *)
Definition kept_series (r : bool * option series_identifier)
    : option (string * string) :=
  match r with
  | (true, Some identifier) =>
      match id_SeriesInstanceUID identifier, id_Modality identifier with
      | Some series_uid, Some modality =>
          if bool_decide (series_uid ≠ "" ∧ modality ≠ "")
          then Some (series_uid, modality) else None
      | _, _ => None
      end
  | _ => None
  end.

(** A series with both fields non-empty. *)
Definition complete_series (s : string * string) : Prop :=
  s.1 ≠ "" ∧ s.2 ≠ "".

(** The study identifier for which a record triggers a series lookup. *)
Definition lookup_uid (study : study_result) : option string :=
  if truthy_str (StudyInstanceUID study) then StudyInstanceUID study else None.

(** The inventory entry made from a record and a series list. *)
Definition entry_of (server : server) (study : study_result)
    (series_list : list (string * string)) : study_data :=
  {| SeriesCount := NumberOfStudyRelatedSeries study;
     ImagesCount := NumberOfStudyRelatedInstances study;
     SeriesList := series_list;
     sd_StudyDate := StudyDate study;
     sd_AccessionNumber := AccessionNumber study;
     Modalities := ModalityList study;
     SourceServerAET := aet server |}.

(** Window [i] of the six: [4i:00:00, 4i+3:59:59] of day [d]. *)
Definition four_hour_window (d i : Z) : datetime * datetime :=
  (combine d (timedelta (4 * i) 0 0), combine d (timedelta (4 * i + 3) 59 59)).

(** A window covers second [t] of the day, at the resolution of the
    request's [HHMMSS-HHMMSS] range. *)
Definition covers (win : datetime * datetime) (t : Z) : Prop :=
  second_of_day win.1 ≤ t ≤ second_of_day win.2.

(** The series lookup sent to a server for a study. *)
Definition series_event (server : server) (args : arguments) (uid : string) : event :=
  SeriesFind (ip server) (port server) (aet server) (arg_aet args) uid.

Section Answers.
Context {W : Type} `{QueryClient W}.

(** The peer's answer to the STUDY-level query for a window. *)
Definition answer_study (ip : string) (port : Z) (aet local_aet : string)
    (w : W) (win : datetime * datetime) : list study_result * W :=
  let '(r, w') :=
    find_studies w ip port aet local_aet (study_request_of win.1 win.2) in
  (from_option study_records [] r, w').

(** The answers to the queries for a list of windows, in sequence. *)
Fixpoint answer_windows (ip : string) (port : Z) (aet local_aet : string)
    (w : W) (wins : list (datetime * datetime))
    : list (list study_result) * W :=
  match wins with
  | [] => ([], w)
  | win :: rest =>
      let '(res, w1) := answer_study ip port aet local_aet w win in
      let '(ress, w2) := answer_windows ip port aet local_aet w1 rest in
      (res :: ress, w2)
  end.

(** The peer's answer to the SERIES-level query for a study. *)
Definition answer_series (ip : string) (port : Z) (aet local_aet : string)
    (w : W) (study_uid : string) : list (string * string) * W :=
  let '(r, w') := find_series w ip port aet local_aet study_uid in
  (from_option (omap kept_series) [] r, w').

(** What [query_server_with_4h_blocks] returns and the state it
    leaves, from the peer's answers. *)
Definition partition_answer (ip : string) (port : Z) (aet local_aet : string)
    (d : Z) (s : net W) : list study_result * net W :=
  let whole := (combine d time_min, combine d time_max) in
  let blocks := four_hour_window d <$> seqZ 0 6 in
  let ev := λ win : datetime * datetime,
    StudyFind ip port aet local_aet (study_request_of win.1 win.2) in
  let probe := answer_study ip port aet local_aet (world s) whole in
  if bool_decide (length probe.1 < 500)%nat
  then (probe.1, mk_net probe.2 (trace s ++ [ev whole]))
  else
    let subs := answer_windows ip port aet local_aet probe.2 blocks in
    (concat subs.1, mk_net subs.2 (trace s ++ ev whole :: (ev <$> blocks))).

(** The effect of one study record on the inventory and the state. *)
Definition study_step (server : server) (args : arguments)
    (acc : pydict study_data * net W) (study : study_result)
    : pydict study_data * net W :=
  match lookup_uid study with
  | None => acc
  | Some uid =>
      let ans := answer_series (ip server) (port server) (aet server)
                   (arg_aet args) (world acc.2) uid in
      (dict_set acc.1 uid (entry_of server study ans.1),
       mk_net ans.2
         (trace acc.2 ++ [SeriesFind (ip server) (port server) (aet server)
                            (arg_aet args) uid]))
  end.

(** The inventory [process_server] builds and the state it leaves. *)
Definition inventory_answer (server : server) (current_date : datetime)
    (args : arguments) (s : net W) : pydict study_data * net W :=
  let p := partition_answer (ip server) (port server) (aet server)
             (arg_aet args) (date current_date) s in
  foldl (study_step server args) ([], p.2) p.1.

(** The inventories of the secondaries, in order of completion. *)
Definition completed_answer (other_servers : list server)
    (current_date : datetime) (args : arguments)
    (acc : list (string * pydict study_data) * net W)
    : list (string * pydict study_data) * net W :=
  foldl (λ acc srv,
           let inv := inventory_answer srv current_date args acc.2 in
           (acc.1 ++ [(aet srv, inv.1)], inv.2))
        acc other_servers.
End Answers.

(** ** Specification vocabulary for the reads that raise *)

(** The exception a read raises, if it raises. *)
Definition raised {A : Type} (a : py A) : option exn :=
  match a with
  | Raise e => Some e
  | Ok _ => None
  end.

(** The value a read returns, if it returns one. *)
Definition read_value {A : Type} (a : attribute A) : option A :=
  match a with
  | Ok v => v
  | Raise _ => None
  end.

(** The attribute reads that a STUDY-level response undergoes, in the
    order in which they are made: none unless the status is true and
    there is an identifier. *)
Definition study_reads (r : bool * option study_dataset) : list (option exn) :=
  match r with
  | (true, Some identifier) =>
      [raised (getattr_StudyInstanceUID identifier);
       raised (getattr_NumberOfStudyRelatedInstances identifier);
       raised (getattr_NumberOfStudyRelatedSeries identifier);
       raised (getattr_StudyDate identifier);
       raised (getattr_AccessionNumber identifier);
       raised (getattr_ModalitiesInStudy identifier)]
  | _ => []
  end.

(** The exception of the first read that raises, over the responses in
    order. *)
Definition first_read_error (responses : list (bool * option study_dataset))
    : option exn :=
  head (omap id (concat (study_reads <$> responses))).

(** The record made from an identifier whose reads return. *)
Definition dataset_record (identifier : study_dataset) : study_result :=
  {| StudyDate := read_value (getattr_StudyDate identifier);
     StudyInstanceUID := read_value (getattr_StudyInstanceUID identifier);
     NumberOfStudyRelatedInstances :=
       coerce_count (read_value (getattr_NumberOfStudyRelatedInstances identifier));
     NumberOfStudyRelatedSeries :=
       coerce_count (read_value (getattr_NumberOfStudyRelatedSeries identifier));
     AccessionNumber := read_value (getattr_AccessionNumber identifier);
     ModalityList :=
       modalities_list_of (read_value (getattr_ModalitiesInStudy identifier)) |}.

Definition dataset_records (responses : list (bool * option study_dataset))
    : list study_result :=
  omap (λ r, match r with
             | (true, Some identifier) => Some (dataset_record identifier)
             | _ => None
             end) responses.

(** ** Specification vocabulary for the reconciliation *)

(** The series identifiers the primary lists for a study. *)
Definition primary_series_ids (target_studies : pydict study_data)
    (uid : string) : list string :=
  match dict_get target_studies uid with
  | Some st => (SeriesList st).*1
  | None => []
  end.

(** The missing series one secondary entry contributes. *)
Definition missing_of_entry (target_studies : pydict study_data)
    (args : arguments) (uid : string) (entry : study_data)
    : list (string * string * string) :=
  omap (λ s : string * string,
          if bool_decide (s.1 ∉ primary_series_ids target_studies uid)
             && series_passes args s.2
          then Some (s.1, s.2, SourceServerAET entry) else None)
       (SeriesList entry).

(** The missing series of a study, over all secondaries that hold it. *)
Definition miss_of (target_studies : pydict study_data)
    (other_studies : pydict (list study_data)) (args : arguments)
    (uid : string) : list (string * string * string) :=
  concat (missing_of_entry target_studies args uid
            <$> default [] (dict_get other_studies uid)).

(** The tokens of the missing series held by source [a]: for each, its
    identifier followed by its modality in parentheses. *)
Definition tokens_of (miss : list (string * string * string)) (a : string)
    : list string :=
  (λ x : string * string * string, x.1.1 +:+ "(" +:+ x.1.2 +:+ ")")
    <$> filter (λ x : string * string * string, x.2 = a) miss.

(** The rows of the report that are about one study. *)
Definition rows_about (uid : string) (rows : list row) : list row :=
  filter (λ r, row_StudyInstanceUID r = uid) rows.

(** The modality codes every source reported for a study. *)
Definition all_reported_modalities (target_studies : pydict study_data)
    (other_studies : pydict (list study_data)) (uid : string) : list string :=
  match dict_get target_studies uid with
  | Some st => Modalities st
  | None => []
  end ++ concat (Modalities <$> default [] (dict_get other_studies uid)).

(** The modality codes behind the Modality column of a study's rows:
    the primary's when it holds the study, else the secondaries'. *)
Definition column_modalities (target_studies : pydict study_data)
    (other_studies : pydict (list study_data)) (uid : string) : list string :=
  match dict_get target_studies uid with
  | Some st => Modalities st
  | None => concat (Modalities <$> default [] (dict_get other_studies uid))
  end.

(** Every entry of the inventory names [a] as its source. *)
Definition inventory_of (a : string) (studies : pydict study_data) : Prop :=
  Forall (λ kv : string * study_data, SourceServerAET kv.2 = a) studies.

(** ** Specification vocabulary for the configuration and the run *)

(** The study's modality lists carry the same upper-cased codes. *)
Definition same_codes (ms ms' : list string) : Prop :=
  ∀ x, (∃ m, m ∈ ms ∧ x = upper m) ↔ (∃ m, m ∈ ms' ∧ x = upper m).

(** The series test does not reject the modality on the exclude side. *)
Definition not_excluded (args : arguments) (s_mod : string) : Prop :=
  arg_exclude args = ["NONE"] ∨ upper s_mod ∉ upper <$> arg_exclude args.

(** The elements of a list in the order in which they first occur. *)
Definition first_occurrences (l : list string) : list string :=
  foldl (λ acc x, if decide (x ∈ acc) then acc else acc ++ [x]) [] l.

(** A line of the configuration file that describes a server. *)
Definition effective (line : string) : bool :=
  negb (bool_decide (py_strip line = ""))
  && negb (String.prefix "#" (py_strip line)).

(** The STUDY-level call made to a server for a window. *)
Definition study_event (server : server) (args : arguments)
    (win : datetime * datetime) : event :=
  StudyFind (ip server) (port server) (aet server) (arg_aet args)
    (study_request_of win.1 win.2).

Definition is_study_find (e : event) : bool :=
  match e with
  | StudyFind _ _ _ _ _ => true
  | SeriesFind _ _ _ _ _ => false
  end.

Section RunAnswers.
Context {W : Type} `{QueryClient W}.

(** The rows of a day and the state it leaves, from the peers' answers. *)
Definition day_answer (target_server : server) (completed : list server)
    (d : datetime) (args : arguments) (s : net W) : list row * net W :=
  let target := inventory_answer target_server d args s in
  let done := completed_answer completed d args ([], target.2) in
  (day_rows target.1 (gather_other done.1) args d, done.2).

(** The rows of each of the days of a list, in turn. *)
Fixpoint days_rows (target_server : server) (other_servers : list server)
    (order : datetime → list server → list server) (args : arguments)
    (days : list Z) (s : net W) : list (list row) * net W :=
  match days with
  | [] => ([], s)
  | day :: rest =>
      let d := combine day time_min in
      let a := day_answer target_server (order d other_servers) d args s in
      let r := days_rows target_server other_servers order args rest a.2 in
      (a.1 :: r.1, r.2)
  end.

End RunAnswers.

(** Every character of the string passes the test. *)
Fixpoint string_forall (P : ascii → bool) (s : string) : bool :=
  match s with
  | EmptyString => true
  | String c r => P c && string_forall P r
  end.

(** A field: a non-empty string without a space character. *)
Definition field (w : string) : Prop :=
  w ≠ "" ∧ string_forall (λ c, negb (py_isspace c)) w = true.

(** The server a line describes, if its fields allow. *)
Definition line_server (line : string) : option server :=
  match split (py_strip line) with
  | ip :: port :: aet :: rest =>
      match (match rest with
             | p3 :: _ => parse_int p3
             | [] => Some 4
             end), parse_int port with
      | Some w, Some p => Some (mk_server ip p aet w)
      | _, _ => None
      end
  | _ => None
  end.

(** What is wrong with a line that describes no server: fewer than
    three fields, a port that is not an integer, or a fourth field that
    is not an integer. *)
Definition malformed (line : string) : Prop :=
  (length (split (py_strip line)) < 3)%nat
  ∨ (∃ ip port aet rest,
       split (py_strip line) = ip :: port :: aet :: rest
       ∧ (parse_int port = None
          ∨ ∃ p3 more, rest = p3 :: more ∧ parse_int p3 = None)).

(** The ordinal of 1000-01-01: from that day on [strftime] writes the
    year with four digits on every platform. *)
Definition year_1000 : Z := 364878.

(** The header a day writes to a file that holds [sink]. *)
Definition header_if_empty (sink : list csv_line) : list csv_line :=
  if bool_decide (sink = []) then [Header header_columns] else [].

(** ** Proof automation *)

(** Settle a decidable proposition on closed terms by evaluation. *)
Ltac decide_by_compute :=
  apply (bool_decide_unpack _); vm_compute; exact I.

Lemma elem_of_upper_set x l : x ∈ upper_set l ↔ ∃ m, m ∈ l ∧ x = upper m.
Proof.
  unfold upper_set. rewrite elem_of_list_to_set, list_elem_of_fmap.
  split; intros (m & ? & ?); eauto.
Qed.

Lemma modality_list_intersects_spec ms cs :
  modality_list_intersects ms cs = true ↔ ci_intersects ms cs.
Proof.
  unfold modality_list_intersects, ci_intersects.
  rewrite negb_true_iff, bool_decide_eq_false. split.
  - intros Hnd.
    destruct (set_choose_or_empty (upper_set ms ∩ upper_set cs)) as [[x Hx]|He].
    + apply elem_of_intersection in Hx as [Hm Hc].
      apply elem_of_upper_set in Hm as (m & ? & ->).
      apply elem_of_upper_set in Hc as (c & ? & ?). eauto.
    + destruct Hnd. intros x Hm Hc.
      assert (x ∈ upper_set ms ∩ upper_set cs) as Hx
        by (apply elem_of_intersection; done).
      rewrite He in Hx. by apply not_elem_of_empty in Hx.
  - intros (m & c & Hm & Hc & Heq) Hd.
    apply (Hd (upper m)); apply elem_of_upper_set; eauto.
Qed.

Lemma truthy_list_spec {A} (o : option (list A)) :
  truthy_list o = true ↔ ∃ l, o = Some l ∧ l ≠ [].
Proof.
  destruct o as [[|x l]|]; simpl; split; try done.
  - intros (l & [= <-] & ?). done.
  - intros _. by eexists.
  - by intros (l & ? & ?).
Qed.

Lemma exclude_in_force_spec exc :
  truthy_list exc && bool_decide (exc ≠ Some ["NONE"]) = true ↔
  exclude_in_force exc.
Proof.
  unfold exclude_in_force.
  rewrite andb_true_iff, truthy_list_spec, bool_decide_eq_true. split.
  - intros [(l & -> & ?) Hne]. exists l. repeat split; [done|]. congruence.
  - intros (l & -> & ? & ?). split; [eauto|]. congruence.
Qed.

Lemma include_all_spec inc :
  bool_decide (inc ∈ [None; Some []; Some ["NONE"]; Some ["*"]]) = true ↔
  include_all inc.
Proof.
  unfold include_all. rewrite bool_decide_eq_true.
  rewrite !elem_of_cons, elem_of_nil. tauto.
Qed.

(** The filter policy, as a condition on the lists. *)
Lemma filter_study_spec ms inc exc :
  filter_study ms inc exc = true ↔
    ¬ (exclude_in_force exc ∧ ci_intersects ms (default [] exc)) ∧
    (include_all inc ∨ ci_intersects ms (default [] inc)).
Proof.
  unfold filter_study, modality_list_excludes.
  rewrite <- exclude_in_force_spec, <- include_all_spec,
    <- !modality_list_intersects_spec.
  destruct (truthy_list exc && bool_decide (exc ≠ Some ["NONE"]));
    destruct (modality_list_intersects ms (default [] exc)); simpl;
    destruct (bool_decide (inc ∈ [None; Some []; Some ["NONE"]; Some ["*"]]));
    destruct (modality_list_intersects ms (default [] inc)); simpl;
    intuition congruence.
Qed.

(** C1. The filter fails a study whenever an exclude list in force (set,
    non-empty, not the NONE sentinel) intersects its modalities
    case-insensitively, whatever the include list holds; otherwise it
    passes the study when the include list is a match-all value (unset,
    empty, NONE or the star), and otherwise passes it exactly when the
    include list intersects the modalities case-insensitively. *)
Theorem filter_study_policy ms inc exc :
  let vetoed := exclude_in_force exc ∧ ci_intersects ms (default [] exc) in
  (vetoed → ∀ inc', filter_study ms inc' exc = false)
  ∧ (¬ vetoed → include_all inc → filter_study ms inc exc = true)
  ∧ (¬ vetoed → ¬ include_all inc →
     (filter_study ms inc exc = true ↔ ci_intersects ms (default [] inc)))
  ∧ (filter_study ms inc exc = true ↔
     ¬ vetoed ∧ (include_all inc ∨ ci_intersects ms (default [] inc))).
Proof.
  intros vetoed. split; [|split; [|split]].
  - intros Hv inc'. apply not_true_is_false.
    rewrite filter_study_spec. intros [Hn _]. by apply Hn.
  - intros Hn Hall. apply filter_study_spec. split; [done|by left].
  - intros Hn Hall. rewrite filter_study_spec. split.
    + intros [_ [?|?]]; [by destruct Hall|done].
    + intros Hci. split; [done|by right].
  - apply filter_study_spec.
Qed.

(** ** Dictionaries *)

Section DictFacts.
Context {V : Type}.
Implicit Types (d : pydict V) (k : string) (v : V).

Lemma dict_get_set_eq d k v : dict_get (dict_set d k v) k = Some v.
Proof.
  induction d as [|[k' v'] d IH]; simpl.
  - by rewrite decide_True.
  - destruct (decide (k' = k)) as [->|Hne]; simpl.
    + by rewrite decide_True.
    + by rewrite decide_False.
Qed.

Lemma dict_get_set_ne d k k' v :
  k ≠ k' → dict_get (dict_set d k v) k' = dict_get d k'.
Proof.
  intros Hne. induction d as [|[k0 v0] d IH]; simpl.
  - by rewrite decide_False.
  - destruct (decide (k0 = k)) as [->|Hne0]; simpl.
    + by rewrite !decide_False.
    + by rewrite IH.
Qed.

Lemma dict_get_set d k k' v :
  dict_get (dict_set d k v) k' = if decide (k = k') then Some v else dict_get d k'.
Proof.
  destruct (decide (k = k')) as [->|Hne];
    [apply dict_get_set_eq|by apply dict_get_set_ne].
Qed.

Lemma dict_get_Some_elem_of d k v : dict_get d k = Some v → (k, v) ∈ d.
Proof.
  induction d as [|[k' v'] d IH]; simpl; [done|].
  destruct (decide (k' = k)) as [->|Hne].
  - intros [= ->]. apply list_elem_of_here.
  - intros Hg. apply list_elem_of_further. auto.
Qed.

Lemma dict_get_None d k : dict_get d k = None ↔ k ∉ d.*1.
Proof.
  induction d as [|[k' v'] d IH]; simpl.
  - split; [intros _; apply not_elem_of_nil|done].
  - rewrite not_elem_of_cons. destruct (decide (k' = k)) as [->|Hne].
    + split; [done|]. intros [? _]. done.
    + rewrite IH. split; [intros ?; split; [congruence|done]|intros [_ ?]; done].
Qed.

Lemma dict_get_is_Some d k : is_Some (dict_get d k) ↔ k ∈ d.*1.
Proof.
  rewrite <- not_eq_None_Some, dict_get_None.
  destruct (decide (k ∈ d.*1)); tauto.
Qed.

Lemma elem_of_dict_get d k v : NoDup d.*1 → (k, v) ∈ d → dict_get d k = Some v.
Proof.
  induction d as [|[k' v'] d IH]; simpl.
  - intros _ Hin. by apply elem_of_nil in Hin.
  - intros [Hk Hnd]%NoDup_cons [[= -> ->]|Hin]%elem_of_cons.
    + by rewrite decide_True.
    + rewrite decide_False; [auto|].
      intros ->. apply Hk. apply list_elem_of_fmap. by exists (k, v).
Qed.

Lemma dict_set_keys d k v :
  (dict_set d k v).*1 = if decide (k ∈ d.*1) then d.*1 else d.*1 ++ [k].
Proof.
  induction d as [|[k' v'] d IH].
  - destruct (decide (k ∈ ([] : pydict V).*1)) as [Hin|_]; [|done].
    by apply elem_of_nil in Hin.
  - cbn [dict_set]. rewrite !fmap_cons. cbn [fst].
    destruct (decide (k' = k)) as [->|Hne].
    + rewrite decide_True; [done|apply list_elem_of_here].
    + rewrite fmap_cons, IH. cbn [fst].
      destruct (decide (k ∈ d.*1)) as [Hin|Hnin].
      * rewrite decide_True; [done|by apply list_elem_of_further].
      * rewrite decide_False; [done|].
        rewrite not_elem_of_cons. split; congruence.
Qed.

Lemma dict_set_NoDup d k v : NoDup d.*1 → NoDup (dict_set d k v).*1.
Proof.
  intros Hnd. rewrite dict_set_keys. case_decide; [done|].
  apply NoDup_app. split; [done|]. split; [|apply NoDup_singleton].
  intros x Hx ->%list_elem_of_singleton. done.
Qed.

Lemma elem_of_key_set d k : k ∈ key_set d ↔ is_Some (dict_get d k).
Proof. unfold key_set. by rewrite elem_of_list_to_set, dict_get_is_Some. Qed.

End DictFacts.

Section AppendFacts.
Context {V : Type}.
Implicit Types (d : pydict (list V)) (k : string) (x : V).

Lemma setdefault_append_get d k k' x :
  default [] (dict_get (setdefault_append d k x) k')
  = if decide (k = k') then default [] (dict_get d k') ++ [x]
    else default [] (dict_get d k').
Proof.
  unfold setdefault_append. rewrite dict_get_set.
  by destruct (decide (k = k')) as [->|Hne].
Qed.

Lemma setdefault_append_is_Some d k k' x :
  is_Some (dict_get (setdefault_append d k x) k')
  ↔ k = k' ∨ is_Some (dict_get d k').
Proof.
  unfold setdefault_append. rewrite dict_get_set.
  destruct (decide (k = k')) as [->|Hne]; [|tauto].
  split; [auto|]. intros _. by eexists.
Qed.

Lemma setdefault_append_NoDup d k x :
  NoDup d.*1 → NoDup (setdefault_append d k x).*1.
Proof. apply dict_set_NoDup. Qed.

End AppendFacts.

(** ** Running the queries

    The lemmas of this section are about the peers all of whose
    identifiers convert. *)

Section QueryFacts.
Context {W : Type} `{QueryClient W}.

Lemma bind_ok {A B} (m : M W A) (f : A → M W B) s a s' :
  m s = (Ok a, s') → bind m f s = f a s'.
Proof. unfold bind. by intros ->. Qed.

Lemma count_of_ok raw : count_of raw = Ok (coerce_count raw).
Proof.
  unfold count_of, coerce_count, py_int.
  destruct raw as [[z|t|[num den| |]|]|]; simpl; try done.
  by destruct (parse_int t).
Qed.

Lemma study_response_ok results r :
  study_response results (r.1, converted_study <$> r.2)
  = Ok (results ++ study_records [r]).
Proof.
  unfold study_response, study_records.
  destruct r as [[] [identifier|]]; simpl; rewrite ?app_nil_r; try done.
  by rewrite !count_of_ok.
Qed.

Lemma study_records_cons r responses :
  study_records (r :: responses) = study_records [r] ++ study_records responses.
Proof. unfold study_records. simpl. by destruct r as [[] [?|]]. Qed.

Lemma py_for_each_study_response responses results :
  py_for_each (converted converted_study responses) results study_response
  = Ok (results ++ study_records responses).
Proof.
  revert results. unfold converted.
  induction responses as [|r responses IH]; intros results;
    cbn [py_for_each fmap list_fmap].
  - by rewrite app_nil_r.
  - rewrite study_response_ok. cbn [py_bind].
    rewrite IH, (study_records_cons r responses). by rewrite app_assoc.
Qed.

(** When the identifiers convert, [query_server] returns the peer's
    answer and makes exactly one call. *)
Lemma query_server_run ip port aet a b local_aet (s : net W) :
  query_server ip port aet a b local_aet s
  = (Ok (answer_study ip port aet local_aet (world s) (a, b)).1,
     mk_net (answer_study ip port aet local_aet (world s) (a, b)).2
            (trace s ++ [StudyFind ip port aet local_aet (study_request_of a b)])).
Proof.
  unfold query_server, bind, send_study_find, answer_study. simpl.
  destruct (find_studies _ _ _ _ _ _) as [[responses|] w]; simpl; [|done].
  unfold lift_py. by rewrite py_for_each_study_response.
Qed.

Lemma series_response_kept series_list r :
  series_response series_list (r.1, converted_series <$> r.2)
  = Ok (series_list ++ omap kept_series [r]).
Proof.
  unfold series_response, kept_series, truthy_str.
  destruct r as [[] [[[u|] [m|]]|]]; simpl; rewrite ?app_nil_r; try done.
  repeat case_bool_decide; simpl; rewrite ?app_nil_r; try done; tauto.
Qed.

Lemma py_for_each_series_response responses series_list :
  py_for_each (converted converted_series responses) series_list series_response
  = Ok (series_list ++ omap kept_series responses).
Proof.
  revert series_list. unfold converted.
  induction responses as [|r responses IH]; intros series_list;
    cbn [py_for_each fmap list_fmap].
  - by rewrite app_nil_r.
  - rewrite series_response_kept. cbn [py_bind]. rewrite IH. simpl.
    destruct (kept_series r); simpl; by rewrite <- ?app_assoc, ?app_nil_r.
Qed.

(** When the identifiers convert, [query_study_series] returns the
    kept series of the peer's answer and makes exactly one call. *)
Lemma query_study_series_run ip port aet uid local_aet (s : net W) :
  query_study_series ip port aet uid local_aet s
  = (Ok (answer_series ip port aet local_aet (world s) uid).1,
     mk_net (answer_series ip port aet local_aet (world s) uid).2
            (trace s ++ [SeriesFind ip port aet local_aet uid])).
Proof.
  unfold query_study_series, bind, send_series_find, answer_series, ret. simpl.
  destruct (find_series _ _ _ _ _ _) as [[responses|] w]; simpl; [|done].
  unfold lift_py. by rewrite py_for_each_series_response.
Qed.

End QueryFacts.

(** ** The date partitioner

    The peers of this section are those whose identifiers all convert. *)

Section Partitioner.
Context {W : Type} `{QueryClient W}.

Lemma block_window_closed d i :
  i ∈ seqZ 0 6 →
  block_window (combine d time_min) (combine d time_max) i = four_hour_window d i.
Proof.
  intros Hi. apply elem_of_seqZ in Hi.
  assert (i = 0 ∨ i = 1 ∨ i = 2 ∨ i = 3 ∨ i = 4 ∨ i = 5) as Hcases by lia.
  unfold block_window, four_hour_window, add_timedelta, datetime_gt, combine.
  destruct Hcases as [->|[->|[->|[->|[->| ->]]]]]; cbn -[Z.add Z.ltb Z.eqb];
    rewrite !Z.add_0_r, Z.ltb_irrefl, Z.eqb_refl; reflexivity.
Qed.

Lemma blocks_closed d :
  block_window (combine d time_min) (combine d time_max) <$> seqZ 0 6
  = four_hour_window d <$> seqZ 0 6.
Proof.
  apply list_fmap_ext. intros ? i Hi%list_elem_of_lookup_2.
  by apply block_window_closed.
Qed.

(** The loop over the blocks: the answers in sequence, concatenated. *)
Lemma for_each_blocks ip port aet local_aet day_start day_end
    (ixs : list Z) (wins : list (datetime * datetime)) results (s : net W) :
  block_window day_start day_end <$> ixs = wins →
  for_each ixs results (λ results i,
      let '(block_start, block_end) := block_window day_start day_end i in
      bind (query_server ip port aet block_start block_end local_aet)
           (λ block_results, ret (results ++ block_results))) s
  = (Ok (results ++ concat (answer_windows ip port aet local_aet (world s) wins).1),
     mk_net (answer_windows ip port aet local_aet (world s) wins).2
            (trace s ++ ((λ win, StudyFind ip port aet local_aet
                                   (study_request_of win.1 win.2)) <$> wins))).
Proof.
  revert wins results s.
  induction ixs as [|i ixs IH]; intros wins results s <-.
  - simpl. rewrite !app_nil_r. by destruct s.
  - cbn [for_each]. rewrite fmap_cons. cbn [answer_windows].
    destruct (block_window day_start day_end i) as [a b] eqn:Hw.
    erewrite bind_ok; [|erewrite bind_ok; [|apply query_server_run]; reflexivity].
    rewrite (IH _ _ _ eq_refl). cbn [world trace].
    destruct (answer_study _ _ _ _ _ _) as [res w1]. cbn [fst snd].
    destruct (answer_windows _ _ _ _ _ _) as [ress w2]. cbn [fst snd concat fmap list_fmap].
    by rewrite <- !app_assoc.
Qed.

Lemma answer_windows_length ip port aet local_aet (w : W) wins :
  length (answer_windows ip port aet local_aet w wins).1 = length wins.
Proof.
  revert w. induction wins as [|win wins IH]; intros w; simpl; [done|].
  destruct (answer_study _ _ _ _ _ _) as [res w1].
  specialize (IH w1). destruct (answer_windows _ _ _ _ _ _) as [ress w2].
  simpl in *. by rewrite IH.
Qed.

Lemma second_of_day_window d i :
  0 ≤ i →
  second_of_day (four_hour_window d i).1 = 14400 * i
  ∧ second_of_day (four_hour_window d i).2 = 14400 * i + 14399.
Proof.
  intros Hi. unfold four_hour_window, second_of_day, timedelta, combine. simpl.
  split.
  - replace ((4 * i * 60 + 0) * 60 + 0) with (14400 * i) by lia.
    by rewrite Z.div_mul.
  - replace (((4 * i + 3) * 60 + 59) * 60 + 59) with (14400 * i + 14399) by lia.
    by rewrite Z.div_mul.
Qed.

(** The run of the partitioner, in closed form. *)
Lemma query_server_with_4h_blocks_run ip port aet date_obj local_aet (s : net W) :
  query_server_with_4h_blocks ip port aet date_obj local_aet s
  = (Ok (partition_answer ip port aet local_aet (date date_obj) s).1,
     (partition_answer ip port aet local_aet (date date_obj) s).2).
Proof.
  unfold query_server_with_4h_blocks, partition_answer.
  erewrite bind_ok; [|apply query_server_run].
  case_bool_decide as Hlt; [done|].
  erewrite for_each_blocks; [|apply blocks_closed]. cbn [world trace fst snd].
  by rewrite <- app_assoc.
Qed.

(** C4. The partitioner issues the whole-day probe; under 500 records
    it returns them and nothing more is sent; from 500 on it sends the
    six four-hour windows in turn, returns the concatenation of their
    answers (the probe's records are dropped), whatever the size of any
    sub-window answer. The windows are [4i:00:00, 4i+3:59:59], the clamp
    to the end of the day leaves them unchanged, and every second of
    the day lies in exactly one of them. *)
Theorem query_server_with_4h_blocks_partition
    ip port aet date_obj local_aet (s : net W) :
  let d := date date_obj in
  let whole := (combine d time_min, combine d time_max) in
  let blocks := four_hour_window d <$> seqZ 0 6 in
  let ev := λ win : datetime * datetime,
    StudyFind ip port aet local_aet (study_request_of win.1 win.2) in
  let probe := answer_study ip port aet local_aet (world s) whole in
  let subs := answer_windows ip port aet local_aet probe.2 blocks in
  query_server_with_4h_blocks ip port aet date_obj local_aet s
  = (if bool_decide (length probe.1 < 500)%nat
     then (Ok probe.1, mk_net probe.2 (trace s ++ [ev whole]))
     else (Ok (concat subs.1),
           mk_net subs.2 (trace s ++ ev whole :: (ev <$> blocks))))
  ∧ length subs.1 = 6%nat
  ∧ block_window whole.1 whole.2 <$> seqZ 0 6 = blocks
  ∧ rq_StudyTime (study_request_of whole.1 whole.2) = ""
  ∧ (λ win, rq_StudyTime (study_request_of win.1 win.2)) <$> blocks
    = ["000000-035959"; "040000-075959"; "080000-115959";
       "120000-155959"; "160000-195959"; "200000-235959"]
  ∧ ∀ t, 0 ≤ t ≤ 86399 →
      ∃ i, 0 ≤ i < 6 ∧
        ∀ j, 0 ≤ j < 6 → (covers (four_hour_window d j) t ↔ j = i).
Proof.
  intros d whole blocks ev probe subs.
  split; [|split; [|split; [apply blocks_closed|split; [done|split; [done|]]]]].
  - rewrite query_server_with_4h_blocks_run. unfold partition_answer.
    fold d whole blocks ev probe. by case_bool_decide.
  - unfold subs. by rewrite answer_windows_length.
  - intros t Ht. exists (t / 14400). split.
    + split; [apply Z.div_pos; lia|apply Z.div_lt_upper_bound; lia].
    + intros j Hj. unfold covers.
      destruct (second_of_day_window d j) as [-> ->]; [lia|].
      pose proof (Z.div_mod t 14400 ltac:(lia)).
      pose proof (Z.mod_pos_bound t 14400 ltac:(lia)). lia.
Qed.

End Partitioner.

(** ** The per-source orchestration *)

Lemma lookup_uid_Some study uid :
  lookup_uid study = Some uid ↔ StudyInstanceUID study = Some uid ∧ uid ≠ "".
Proof.
  unfold lookup_uid, truthy_str.
  destruct (StudyInstanceUID study) as [u|]; [|split; [done|intros [? _]; done]].
  case_bool_decide as Hu; simpl; split.
  - done.
  - intros [[= ->] ?]. done.
  - intros [= ->]. done.
  - intros [[= ->] ?]. done.
Qed.

Lemma kept_series_Some r u m :
  kept_series r = Some (u, m) ↔
  r.1 = true ∧ ∃ identifier, r.2 = Some identifier
    ∧ id_SeriesInstanceUID identifier = Some u ∧ id_Modality identifier = Some m
    ∧ u ≠ "" ∧ m ≠ "".
Proof.
  unfold kept_series. destruct r as [b o]. simpl.
  destruct b; [|split; [done|intros [? _]; done]].
  destruct o as [identifier|]; [|split; [done|intros [_ (? & ? & _)]; done]].
  destruct (id_SeriesInstanceUID identifier) as [u'|] eqn:Hu;
    [|split; [done|intros [_ (? & [= <-] & ? & _)]; congruence]].
  destruct (id_Modality identifier) as [m'|] eqn:Hm;
    [|split; [done|intros [_ (? & [= <-] & _ & ? & _)]; congruence]].
  case_bool_decide as Hc; split.
  - intros [= -> ->]. split; [done|]. exists identifier. tauto.
  - intros [_ (i & [= <-] & Hu' & Hm' & _)]. congruence.
  - done.
  - intros [_ (i & [= <-] & Hu' & Hm' & ? & ?)].
    destruct Hc. split; congruence.
Qed.

Lemma kept_series_complete responses :
  Forall complete_series (omap kept_series responses).
Proof.
  apply Forall_forall. intros [u m] (r & _ & Hr)%list_elem_of_omap.
  apply kept_series_Some in Hr as (_ & ? & _ & _ & _ & ? & ?). by split.
Qed.

(** The peers of this section are those whose identifiers all convert. *)
Section ProcessFacts.
Context {W : Type} `{QueryClient W}.
Context (server : server) (args : arguments).

Lemma answer_series_complete ip port aet local_aet (w : W) uid :
  Forall complete_series (answer_series ip port aet local_aet w uid).1.
Proof.
  unfold answer_series. destruct (find_series _ _ _ _ _ _) as [[r|] w']; simpl.
  - apply kept_series_complete.
  - constructor.
Qed.

Lemma process_study_run studies study (s : net W) :
  process_study server args studies study s
  = (Ok (study_step server args (studies, s) study).1,
     (study_step server args (studies, s) study).2).
Proof.
  unfold process_study, study_step, lookup_uid.
  destruct (truthy_str (StudyInstanceUID study)) eqn:Ht; simpl; [|done].
  destruct (StudyInstanceUID study) as [uid|]; [|done]. simpl.
  erewrite bind_ok; [|apply query_study_series_run]. done.
Qed.

Lemma for_each_process_study l studies (s : net W) :
  for_each l studies (process_study server args) s
  = (Ok (foldl (study_step server args) (studies, s) l).1,
     (foldl (study_step server args) (studies, s) l).2).
Proof.
  revert studies s. induction l as [|study l IH]; intros studies s; simpl.
  - done.
  - erewrite bind_ok; [|apply process_study_run]. rewrite IH.
    by destruct (study_step server args (studies, s) study).
Qed.

Lemma process_server_run d (s : net W) :
  process_server server d args s
  = (Ok (aet server, (inventory_answer server d args s).1),
     (inventory_answer server d args s).2).
Proof.
  unfold process_server, inventory_answer.
  erewrite bind_ok; [|apply query_server_with_4h_blocks_run].
  erewrite bind_ok; [|apply for_each_process_study]. done.
Qed.

(** One series lookup per record that has an identifier, in order. *)
Lemma study_steps_trace l (acc : pydict study_data * net W) :
  trace (foldl (study_step server args) acc l).2
  = trace acc.2 ++ (series_event server args <$> omap lookup_uid l).
Proof.
  revert acc. induction l as [|study l IH]; intros acc; simpl.
  - by rewrite app_nil_r.
  - rewrite IH. unfold study_step, series_event.
    destruct (lookup_uid study) as [uid|]; simpl; [|done].
    by rewrite <- app_assoc.
Qed.

Lemma study_steps_keys l (acc : pydict study_data * net W) k :
  is_Some (dict_get (foldl (study_step server args) acc l).1 k)
  ↔ is_Some (dict_get acc.1 k) ∨ k ∈ omap lookup_uid l.
Proof.
  revert acc. induction l as [|study l IH]; intros acc; simpl.
  - rewrite elem_of_nil. tauto.
  - rewrite IH. unfold study_step.
    destruct (lookup_uid study) as [uid|]; simpl; [|tauto].
    rewrite dict_get_set, elem_of_cons.
    destruct (decide (uid = k)) as [->|Hne].
    + split; [auto|]. intros _. left. by eexists.
    + split; [tauto|]. intros [?|[?|?]]; [tauto|congruence|tauto].
Qed.

(** Where the entries of the inventory come from. *)
Lemma study_steps_entries l (acc : pydict study_data * net W) k st :
  dict_get (foldl (study_step server args) acc l).1 k = Some st →
  dict_get acc.1 k = Some st
  ∨ ∃ study series_list,
      study ∈ l ∧ lookup_uid study = Some k
      ∧ st = entry_of server study series_list
      ∧ Forall complete_series series_list.
Proof.
  revert acc. induction l as [|study l IH]; intros acc; simpl; [auto|].
  intros [Hacc|(study' & sl & ? & ? & ? & ?)]%IH.
  - revert Hacc. unfold study_step.
    destruct (lookup_uid study) as [uid|] eqn:Hu; simpl; [|auto].
    rewrite dict_get_set. destruct (decide (uid = k)) as [->|Hne]; [|auto].
    intros [= <-]. right. eexists study, _.
    split; [apply list_elem_of_here|]. split; [done|]. split; [done|].
    apply answer_series_complete.
  - right. exists study', sl. split; [by apply list_elem_of_further|done].
Qed.

(** Records that come after the last one for [uid] leave its entry. *)
Lemma study_steps_other l (acc : pydict study_data * net W) uid :
  (∀ study, study ∈ l → lookup_uid study ≠ Some uid) →
  dict_get (foldl (study_step server args) acc l).1 uid = dict_get acc.1 uid.
Proof.
  revert acc. induction l as [|study l IH]; intros acc Hl; simpl; [done|].
  rewrite IH.
  - unfold study_step.
    destruct (lookup_uid study) as [u|] eqn:Hu; simpl; [|done].
    apply dict_get_set_ne. intros ->.
    apply (Hl study); [apply list_elem_of_here|done].
  - intros study' Hin. apply Hl. by apply list_elem_of_further.
Qed.

(** The entry kept for [uid] is the one made from its last record. *)
Lemma study_steps_last pre study post (acc : pydict study_data * net W) uid :
  lookup_uid study = Some uid →
  (∀ st, st ∈ post → lookup_uid st ≠ Some uid) →
  dict_get (foldl (study_step server args) acc (pre ++ study :: post)).1 uid
  = Some (entry_of server study
            (answer_series (ip server) (port server) (aet server) (arg_aet args)
               (world (foldl (study_step server args) acc pre).2) uid).1).
Proof.
  intros Hu Hpost. rewrite foldl_app. simpl.
  rewrite study_steps_other by done.
  unfold study_step at 1. rewrite Hu. simpl. apply dict_get_set_eq.
Qed.

Lemma inventory_entries d (s : net W) k st :
  dict_get (inventory_answer server d args s).1 k = Some st →
  SourceServerAET st = aet server ∧ Forall complete_series (SeriesList st).
Proof.
  unfold inventory_answer.
  intros [Hacc|(study & sl & _ & _ & -> & ?)]%study_steps_entries; [done|].
  done.
Qed.

Lemma study_steps_NoDup l (acc : pydict study_data * net W) :
  NoDup acc.1.*1 → NoDup (foldl (study_step server args) acc l).1.*1.
Proof.
  revert acc. induction l as [|study l IH]; intros acc Hnd; simpl; [done|].
  apply IH. unfold study_step. destruct (lookup_uid study); simpl; [|done].
  by apply dict_set_NoDup.
Qed.

End ProcessFacts.

(** The peers of this section are those whose identifiers all convert. *)
Section DayFacts.
Context {W : Type} `{QueryClient W}.

Lemma for_each_process_servers other_servers d args completed (s : net W) :
  for_each other_servers completed
    (λ done srv, bind (process_server srv d args) (λ r, ret (done ++ [r]))) s
  = (Ok (completed_answer other_servers d args (completed, s)).1,
     (completed_answer other_servers d args (completed, s)).2).
Proof.
  unfold completed_answer. revert completed s.
  induction other_servers as [|srv l IH]; intros completed s; simpl; [done|].
  erewrite bind_ok; [|erewrite bind_ok; [|apply process_server_run]; reflexivity].
  by rewrite IH.
Qed.

(** When the identifiers convert, one day of the run returns its rows. *)
Lemma main_day_run target_server other_servers d args (s : net W) :
  let target := inventory_answer target_server d args s in
  let completed := completed_answer other_servers d args ([], target.2) in
  main_day target_server other_servers d args s
  = (Ok (day_rows target.1 (gather_other completed.1) args d), completed.2).
Proof.
  intros target completed. unfold main_day.
  erewrite bind_ok; [|apply process_server_run].
  erewrite bind_ok; [|apply for_each_process_servers]. done.
Qed.

End DayFacts.

(** ** The reconciliation *)

Lemma elem_of_tgt_series target uid x :
  x ∈ tgt_series target uid ↔ x ∈ primary_series_ids target uid.
Proof.
  unfold tgt_series, primary_series_ids. rewrite elem_of_list_to_set.
  by destruct (dict_get target uid).
Qed.

Lemma foldl_filter_add (P : string → bool) l (acc : gset string) uid :
  uid ∈ foldl (λ f u, if P u then f ∪ {[u]} else f) acc l
  ↔ uid ∈ acc ∨ (uid ∈ l ∧ P uid = true).
Proof.
  revert acc. induction l as [|u l IH]; intros acc; simpl.
  - rewrite elem_of_nil. tauto.
  - rewrite IH, elem_of_cons. destruct (P u) eqn:HP.
    + rewrite elem_of_union, elem_of_singleton. split.
      * intros [[?| ->]|[? ?]]; auto.
      * intros [?|[[ ->|?] ?]]; auto.
    + split.
      * intros [?|[? ?]]; auto.
      * intros [?|[[ ->|?] ?]]; [auto|congruence|auto].
Qed.

Lemma elem_of_filtered target other args uid :
  uid ∈ filtered target other args ↔
  uid ∈ all_uids target other
  ∧ filter_study (study_modalities target other uid)
      (Some (arg_modality args)) (Some (arg_exclude args)) = true.
Proof.
  unfold filtered.
  rewrite (foldl_filter_add
             (λ u, filter_study (study_modalities target other u)
                     (Some (arg_modality args)) (Some (arg_exclude args)))).
  rewrite elem_of_elements. split; [|auto].
  intros [Hin|?]; [|done]. by apply not_elem_of_empty in Hin.
Qed.

Lemma elem_of_all_uids target other uid :
  uid ∈ all_uids target other
  ↔ is_Some (dict_get target uid) ∨ is_Some (dict_get other uid).
Proof. unfold all_uids. by rewrite elem_of_union, !elem_of_key_set. Qed.

Lemma elem_of_concat {A} (x : A) (ls : list (list A)) :
  x ∈ concat ls ↔ ∃ l, x ∈ l ∧ l ∈ ls.
Proof.
  induction ls as [|l ls IH]; simpl.
  - rewrite elem_of_nil. split; [done|]. intros (l & _ & Hl).
    by apply elem_of_nil in Hl.
  - rewrite elem_of_app, IH. split.
    + intros [?|(l' & ? & ?)].
      * exists l. split; [done|apply list_elem_of_here].
      * exists l'. split; [done|by apply list_elem_of_further].
    + intros (l' & ? & [->|?]%elem_of_cons); [by left|].
      right. by exists l'.
Qed.

Section MissingFacts.
Context (target : pydict study_data) (other : pydict (list study_data)).
Context (args : arguments).

Lemma add_missing_series_fold uid entry l msm k :
  default [] (dict_get
    (foldl (add_missing_series args (tgt_series target uid) uid entry) msm l) k)
  = default [] (dict_get msm k)
    ++ (if decide (uid = k)
        then omap (λ s : string * string,
               if bool_decide (s.1 ∉ primary_series_ids target uid)
                  && series_passes args s.2
               then Some (s.1, s.2, SourceServerAET entry) else None) l
        else []).
Proof.
  revert msm. induction l as [|[s_uid s_mod] l IH]; intros msm.
  - simpl. case_decide; by rewrite app_nil_r.
  - cbn [foldl]. rewrite IH. cbn [omap list_omap fst snd].
    unfold add_missing_series.
    rewrite (bool_decide_ext (s_uid ∈ tgt_series target uid)
               (s_uid ∈ primary_series_ids target uid))
      by apply elem_of_tgt_series.
    rewrite <- bool_decide_not.
    destruct (bool_decide (s_uid ∉ primary_series_ids target uid)
              && series_passes args s_mod).
    + rewrite setdefault_append_get.
      destruct (decide (uid = k)); [|done]. by rewrite <- app_assoc.
    + done.
Qed.

Lemma add_missing_entry_get uid msm entry k :
  default [] (dict_get
    (add_missing_entry args (tgt_series target uid) uid msm entry) k)
  = default [] (dict_get msm k)
    ++ (if decide (uid = k) then missing_of_entry target args uid entry else []).
Proof. apply add_missing_series_fold. Qed.

Lemma add_missing_entries_get uid entries msm k :
  default [] (dict_get
    (foldl (add_missing_entry args (tgt_series target uid) uid) msm entries) k)
  = default [] (dict_get msm k)
    ++ (if decide (uid = k)
        then concat (missing_of_entry target args uid <$> entries) else []).
Proof.
  revert msm. induction entries as [|entry entries IH]; intros msm.
  - simpl. case_decide; by rewrite app_nil_r.
  - cbn [foldl]. rewrite IH, add_missing_entry_get.
    destruct (decide (uid = k)); [|by rewrite !app_nil_r].
    rewrite fmap_cons. cbn [concat]. by rewrite <- app_assoc.
Qed.

Lemma add_missing_study_get msm uid k :
  default [] (dict_get (add_missing_study target other args msm uid) k)
  = default [] (dict_get msm k)
    ++ (if decide (uid = k) then miss_of target other args uid else []).
Proof.
  unfold add_missing_study, miss_of.
  destruct (dict_get other uid) as [entries|]; simpl.
  - apply add_missing_entries_get.
  - case_decide; by rewrite app_nil_r.
Qed.

Lemma add_missing_studies_get l msm k :
  NoDup l →
  default [] (dict_get (foldl (add_missing_study target other args) msm l) k)
  = default [] (dict_get msm k)
    ++ (if decide (k ∈ l) then miss_of target other args k else []).
Proof.
  revert msm. induction l as [|uid l IH]; intros msm Hnd.
  - cbn [foldl]. destruct (decide (k ∈ [])) as [Hin|_];
      [by apply elem_of_nil in Hin|by rewrite app_nil_r].
  - apply NoDup_cons in Hnd as [Hnin Hnd]. cbn [foldl].
    rewrite IH, add_missing_study_get by done.
    destruct (decide (uid = k)) as [->|Hne].
    + rewrite decide_False by done.
      rewrite decide_True by apply list_elem_of_here. by rewrite app_nil_r.
    + rewrite app_nil_r. destruct (decide (k ∈ l)) as [Hin|Hnin'].
      * rewrite decide_True; [done|by apply list_elem_of_further].
      * rewrite decide_False; [done|].
        rewrite not_elem_of_cons. split; congruence.
Qed.

(** The missing series recorded for a study are those of [miss_of],
    for the studies of the set and for no other. *)
Lemma missing_series_map_get (F : gset string) k :
  default [] (dict_get (missing_series_map target other args F) k)
  = if decide (k ∈ F) then miss_of target other args k else [].
Proof.
  unfold missing_series_map.
  rewrite add_missing_studies_get by apply NoDup_elements. simpl.
  destruct (decide (k ∈ elements F)) as [Hin|Hnin];
    rewrite elem_of_elements in *; [by rewrite decide_True|by rewrite decide_False].
Qed.

Lemma elem_of_missing_of_entry uid entry u m a :
  (u, m, a) ∈ missing_of_entry target args uid entry ↔
  (u, m) ∈ SeriesList entry ∧ a = SourceServerAET entry
  ∧ (u ∉ primary_series_ids target uid) ∧ series_passes args m = true.
Proof.
  unfold missing_of_entry. rewrite list_elem_of_omap. split.
  - intros ([u' m'] & Hin & Hs). simpl in Hs.
    destruct (bool_decide _ && _) eqn:Hc; [|done].
    injection Hs as -> -> <-.
    apply andb_true_iff in Hc as [Hn%bool_decide_eq_true ?]. done.
  - intros (Hin & -> & Hn & Hp). exists (u, m). split; [done|]. simpl.
    rewrite Hp, bool_decide_true by done. done.
Qed.

Lemma elem_of_miss_of uid u m a :
  (u, m, a) ∈ miss_of target other args uid ↔
  ∃ entry, entry ∈ default [] (dict_get other uid)
    ∧ (u, m) ∈ SeriesList entry ∧ a = SourceServerAET entry
    ∧ (u ∉ primary_series_ids target uid) ∧ series_passes args m = true.
Proof.
  unfold miss_of. rewrite elem_of_concat. split.
  - intros (l & Hin & (entry & -> & He)%list_elem_of_fmap).
    exists entry. split; [done|]. by apply elem_of_missing_of_entry.
  - intros (entry & He & Hrest). exists (missing_of_entry target args uid entry).
    split; [by apply elem_of_missing_of_entry|].
    apply list_elem_of_fmap. by exists entry.
Qed.

End MissingFacts.

(** ** Grouping by source *)

Lemma tokens_of_cons x miss a :
  tokens_of (x :: miss) a
  = (if decide (x.2 = a) then [x.1.1 +:+ "(" +:+ x.1.2 +:+ ")"] else [])
    ++ tokens_of miss a.
Proof.
  unfold tokens_of. rewrite filter_cons. by destruct (decide (x.2 = a)).
Qed.

Lemma add_by_srv_fold_get miss (acc : pydict (list string)) a :
  default [] (dict_get (foldl add_by_srv acc miss) a)
  = default [] (dict_get acc a) ++ tokens_of miss a.
Proof.
  revert acc. induction miss as [|[[u m] a'] miss IH]; intros acc.
  - simpl. by rewrite app_nil_r.
  - cbn [foldl]. rewrite IH, tokens_of_cons. unfold add_by_srv.
    rewrite setdefault_append_get. cbn [fst snd].
    destruct (decide (a' = a)); [by rewrite <- app_assoc|done].
Qed.

Lemma add_by_srv_fold_keys miss (acc : pydict (list string)) a :
  a ∈ (foldl add_by_srv acc miss).*1 ↔ a ∈ acc.*1 ∨ a ∈ miss.*2.
Proof.
  revert acc. induction miss as [|[[u m] a'] miss IH]; intros acc.
  - simpl. rewrite elem_of_nil. tauto.
  - cbn [foldl]. rewrite IH, fmap_cons, elem_of_cons. unfold add_by_srv.
    rewrite <- !dict_get_is_Some, setdefault_append_is_Some. cbn [snd].
    split; [intros [[?|?]|?]|intros [?|[?|?]]]; auto.
Qed.

Lemma add_by_srv_fold_NoDup miss (acc : pydict (list string)) :
  NoDup acc.*1 → NoDup (foldl add_by_srv acc miss).*1.
Proof.
  revert acc. induction miss as [|[[u m] a'] miss IH]; intros acc Hnd; [done|].
  cbn [foldl]. apply IH. by apply setdefault_append_NoDup.
Qed.

Lemma dict_by_keys {V} (d : pydict V) (f : string → V) :
  (∀ k v, (k, v) ∈ d → v = f k) → d = (λ k, (k, f k)) <$> d.*1.
Proof.
  induction d as [|[k v] d IH]; intros Hd; [done|].
  rewrite !fmap_cons. cbn [fst]. f_equal.
  - f_equal. apply Hd, list_elem_of_here.
  - apply IH. intros k' v' Hin. by apply Hd, list_elem_of_further.
Qed.

(** The grouping has one key per distinct source, with that source's
    tokens in order. *)
Lemma by_srv_spec miss :
  NoDup (by_srv miss).*1
  ∧ (∀ a, a ∈ (by_srv miss).*1 ↔ a ∈ miss.*2)
  ∧ by_srv miss = (λ a, (a, tokens_of miss a)) <$> (by_srv miss).*1.
Proof.
  assert (NoDup (by_srv miss).*1) as Hnd.
  { apply add_by_srv_fold_NoDup. constructor. }
  split; [done|]. split.
  - intros a. unfold by_srv. rewrite add_by_srv_fold_keys. simpl.
    rewrite elem_of_nil. tauto.
  - apply dict_by_keys. intros a v Hin.
    apply elem_of_dict_get in Hin; [|done].
    pose proof (add_by_srv_fold_get miss [] a) as Hg.
    fold (by_srv miss) in Hg. rewrite Hin in Hg. done.
Qed.

Lemma by_srv_nil_iff miss : by_srv miss = [] ↔ miss = [].
Proof.
  split; [|by intros ->].
  destruct miss as [|x miss]; [done|]. intros Hb.
  destruct (by_srv_spec (x :: miss)) as (_ & Hk & _).
  specialize (Hk x.2). rewrite Hb in Hk.
  assert (x.2 ∈ ([] : pydict (list string)).*1) as Hin.
  { apply Hk. rewrite fmap_cons. apply list_elem_of_here. }
  by apply elem_of_nil in Hin.
Qed.

(** ** The rows of a day *)

Lemma foldl_app_concat {A B} (f : A → list B) l acc :
  foldl (λ rows x, rows ++ f x) acc l = acc ++ concat (f <$> l).
Proof.
  revert acc. induction l as [|x l IH]; intros acc; simpl.
  - by rewrite app_nil_r.
  - by rewrite IH, <- app_assoc.
Qed.

Lemma day_rows_concat target other args d :
  day_rows target other args d
  = concat (rows_of target other
              (missing_series_map target other args (filtered target other args)) d
            <$> elements (filtered target other args)).
Proof. unfold day_rows. by rewrite foldl_app_concat. Qed.

Lemma rows_of_uid target other msm d uid r :
  r ∈ rows_of target other msm d uid → row_StudyInstanceUID r = uid.
Proof.
  unfold rows_of. destruct (dict_get target uid) as [st|].
  - case_bool_decide; simpl.
    + intros ->%list_elem_of_singleton. done.
    + intros ([a l] & -> & _)%list_elem_of_fmap. done.
  - destruct (dict_get other uid) as [entries|].
    + intros ([a l] & -> & _)%list_elem_of_fmap. done.
    + intros Hin. by apply elem_of_nil in Hin.
Qed.

Lemma filter_all {A} (P : A → Prop) `{∀ x, Decision (P x)} (l : list A) :
  Forall P l → filter P l = l.
Proof.
  induction 1 as [|x l Hx _ IH]; [done|].
  by rewrite filter_cons_True, IH.
Qed.

Lemma filter_none {A} (P : A → Prop) `{∀ x, Decision (P x)} (l : list A) :
  Forall (λ x, ¬ P x) l → filter P l = [].
Proof.
  induction 1 as [|x l Hx _ IH]; [done|].
  by rewrite filter_cons_False.
Qed.

Lemma rows_about_concat (f : string → list row) uid l :
  (∀ u r, r ∈ f u → row_StudyInstanceUID r = u) →
  NoDup l →
  rows_about uid (concat (f <$> l)) = if decide (uid ∈ l) then f uid else [].
Proof.
  intros Hf. unfold rows_about.
  induction l as [|u l IH]; intros Hnd.
  - simpl. by destruct (decide (uid ∈ [])) as [Hin%elem_of_nil|].
  - apply NoDup_cons in Hnd as [Hnin Hnd]. rewrite fmap_cons. cbn [concat].
    rewrite filter_app, IH by done.
    destruct (decide (u = uid)) as [->|Hne].
    + rewrite decide_False by done. rewrite decide_True by apply list_elem_of_here.
      rewrite app_nil_r. apply filter_all.
      apply Forall_forall. intros r Hr. by apply Hf.
    + replace (filter (λ r, row_StudyInstanceUID r = uid) (f u)) with (@nil row).
      * simpl. destruct (decide (uid ∈ l)) as [Hin|Hnin'].
        -- rewrite decide_True; [done|by apply list_elem_of_further].
        -- rewrite decide_False; [done|].
           rewrite not_elem_of_cons. split; congruence.
      * symmetry. apply filter_none.
        apply Forall_forall. intros r Hr Heq. apply Hne.
        rewrite <- Heq. symmetry. by apply Hf.
Qed.

(** The rows about a study are those its iteration writes. *)
Lemma rows_about_day target other args d uid :
  rows_about uid (day_rows target other args d)
  = if decide (uid ∈ filtered target other args)
    then rows_of target other
           (missing_series_map target other args (filtered target other args)) d uid
    else [].
Proof.
  rewrite day_rows_concat, rows_about_concat.
  - destruct (decide (uid ∈ elements (filtered target other args))) as [Hin|Hnin];
      rewrite elem_of_elements in *;
      [by rewrite decide_True|by rewrite decide_False].
  - intros u r. apply rows_of_uid.
  - apply NoDup_elements.
Qed.

Lemma elem_of_day_rows target other args d r :
  r ∈ day_rows target other args d ↔
  row_StudyInstanceUID r ∈ filtered target other args
  ∧ r ∈ rows_of target other
          (missing_series_map target other args (filtered target other args)) d
          (row_StudyInstanceUID r).
Proof.
  rewrite day_rows_concat, elem_of_concat. split.
  - intros (l & Hr & (uid & -> & Hu)%list_elem_of_fmap).
    pose proof (rows_of_uid _ _ _ _ _ _ Hr) as ->.
    by apply elem_of_elements in Hu.
  - intros [Hu Hr]. eexists. split; [exact Hr|].
    apply list_elem_of_fmap. eexists. split; [done|]. by apply elem_of_elements.
Qed.

(** ** Properties of the orchestration *)

Lemma raised_read_value {A B} (a : attribute A) (f : option A → py B) :
  py_bind a f = match raised a with
                | Some e => Raise e
                | None => f (read_value a)
                end.
Proof. by destruct a. Qed.

(** The response loop of [query_server]: the exception of the first
    read that raises, else the records. *)
Lemma py_for_each_study_reads responses results :
  py_for_each responses results study_response
  = match first_read_error responses with
    | Some e => Raise e
    | None => Ok (results ++ dataset_records responses)
    end.
Proof.
  revert results. unfold first_read_error, dataset_records.
  induction responses as [|r responses IH]; intros results;
    cbn [py_for_each fmap list_fmap concat].
  - simpl. by rewrite app_nil_r.
  - destruct r as [[] [identifier|]]; cbn [study_response study_reads];
      try (cbn [py_bind app omap list_omap]; apply IH).
    rewrite !raised_read_value, !count_of_ok.
    destruct (raised (getattr_StudyInstanceUID identifier)); [done|].
    destruct (raised (getattr_NumberOfStudyRelatedInstances identifier)); [done|].
    destruct (raised (getattr_NumberOfStudyRelatedSeries identifier)); [done|].
    destruct (raised (getattr_StudyDate identifier)); [done|].
    destruct (raised (getattr_AccessionNumber identifier)); [done|].
    destruct (raised (getattr_ModalitiesInStudy identifier)); [done|].
    cbn [py_bind app omap list_omap id]. rewrite IH.
    destruct (head _); [done|]. by rewrite <- app_assoc.
Qed.

Section ReadErrors.
Context {W : Type} `{Peers W}.

(** What [query_server] returns for any peers: the empty list without
    an association, the exception of the first attribute read that
    raises, and else the records, a count that [int] rejects being
    zero. *)
Lemma query_server_outcome ip port aet a b local_aet (s : net W) :
  let r := c_find_studies (world s) ip port aet local_aet (study_request_of a b) in
  query_server ip port aet a b local_aet s
  = (match r.1 with
     | None => Ok []
     | Some responses =>
         match first_read_error responses with
         | Some e => Raise e
         | None => Ok (dataset_records responses)
         end
     end,
     mk_net r.2 (trace s ++ [StudyFind ip port aet local_aet (study_request_of a b)])).
Proof.
  unfold query_server, bind, send_study_find. simpl.
  destruct (c_find_studies _ _ _ _ _ _) as [[responses|] w]; simpl; [|done].
  unfold lift_py. by rewrite py_for_each_study_reads.
Qed.

(** C8. Where the program departs from the claim. The attributes of
    an identifier are read before the [try] blocks that guard the
    counts, and nothing between the read and [main] catches: when, in
    the answer of the primary to the whole-day query of the first day,
    a read raises, be it the read of a count, [query_server] raises that
    exception, and so do [process_server] and the day of [main]; the
    run stops there, after that single call, with the report file as it
    was. *)
Theorem read_error_aborts_run fuel cfg_lines order start_day end_day args sink
    target_server other_servers (s : net W) responses e :
  let d := combine start_day time_min in
  let whole := (combine start_day time_min, combine start_day time_max) in
  let probe :=
    c_find_studies (world s) (ip target_server) (port target_server)
      (aet target_server) (arg_aet args) (study_request_of whole.1 whole.2) in
  let s1 := mk_net probe.2 (trace s ++ [study_event target_server args whole]) in
  load_servers cfg_lines = Ok (target_server :: other_servers) →
  start_day ≤ end_day →
  (0 < fuel)%nat →
  probe.1 = Some responses →
  first_read_error responses = Some e →
  query_server (ip target_server) (port target_server) (aet target_server)
    whole.1 whole.2 (arg_aet args) s = (Raise e, s1)
  ∧ process_server target_server d args s = (Raise e, s1)
  ∧ main_day target_server (order d other_servers) d args s = (Raise e, s1)
  ∧ main fuel cfg_lines order start_day end_day args sink s
    = (Aborted (Exn e) sink, s1).
Proof.
  intros d whole probe s1 Hcfg Hle Hfuel Hprobe He.
  assert (query_server (ip target_server) (port target_server)
            (aet target_server) whole.1 whole.2 (arg_aet args) s
          = (Raise e, s1)) as Hq.
  { rewrite query_server_outcome. fold probe. by rewrite Hprobe, He. }
  assert (process_server target_server d args s = (Raise e, s1)) as Hp.
  { unfold process_server, query_server_with_4h_blocks.
    unfold bind at 1. unfold bind at 1.
    change (combine (date d) time_min) with whole.1.
    change (combine (date d) time_max) with whole.2.
    by rewrite Hq. }
  assert (∀ completed,
            main_day target_server completed d args s = (Raise e, s1)) as Hd.
  { intros completed. unfold main_day. unfold bind at 1. by rewrite Hp. }
  split; [done|]. split; [done|]. split; [done|].
  unfold main. rewrite Hcfg. destruct fuel as [|fuel]; [lia|].
  cbn [main_loop].
  assert (datetime_le (combine start_day time_min) (combine end_day time_min)
          = true) as ->.
  { unfold datetime_le, datetime_gt, combine, time_min. simpl.
    rewrite Z.ltb_irrefl, andb_false_r, orb_false_r.
    apply negb_true_iff, Z.ltb_ge. lia. }
  fold d. unfold main_iteration.
  destruct (forallb _ other_servers).
  - by rewrite Hd.
  - unfold bind at 1. by rewrite Hp.
Qed.

End ReadErrors.

(** The peers of this section are those whose identifiers all convert. *)
Section OrchestrationClaims.
Context {W : Type} `{QueryClient W}.

(** C9. When the study records of a source hold the same identifier
    more than once, one series lookup is sent per occurrence, and the
    inventory keeps, for that identifier, the metadata of the last
    record together with the series list returned by the lookup made
    for that last record. *)
Theorem process_server_duplicates (server : server) (d : datetime)
    (args : arguments) (s s1 : net W) pre study post uid :
  query_server_with_4h_blocks (ip server) (port server) (aet server)
    d (arg_aet args) s = (Ok (pre ++ study :: post), s1) →
  StudyInstanceUID study = Some uid →
  uid ≠ "" →
  (∀ later, later ∈ post → StudyInstanceUID later ≠ Some uid) →
  ∃ studies s2 before s_before series_list s_after,
    process_server server d args s = (Ok (aet server, studies), s2)
    ∧ for_each pre [] (process_study server args) s1 = (Ok before, s_before)
    ∧ query_study_series (ip server) (port server) (aet server) uid
        (arg_aet args) s_before = (Ok series_list, s_after)
    ∧ dict_get studies uid = Some (entry_of server study series_list)
    ∧ trace s2 = trace s1 ++ (series_event server args
                                <$> omap lookup_uid (pre ++ study :: post)).
Proof.
  intros Hq Hu Hne Hpost.
  rewrite query_server_with_4h_blocks_run in Hq.
  injection Hq as Hres Hs1.
  eexists _, _, _, _, _, _.
  split; [apply process_server_run|].
  split; [apply for_each_process_study|].
  split; [apply query_study_series_run|].
  unfold inventory_answer. rewrite Hres, Hs1. split.
  - apply study_steps_last; [by apply lookup_uid_Some|].
    intros later Hin [? ?]%lookup_uid_Some. by apply (Hpost later).
  - by rewrite study_steps_trace.
Qed.

(** C10. The series lookup keeps exactly the responses that have a
    true status, an identifier, and a series identifier and a modality
    both present and non-empty; a response lacking either adds nothing.
    So every series of an inventory has both, and the reference set and
    the missing series of the reconciliation, which are drawn from the
    series lists, hold no dropped series. *)
Theorem incomplete_series_dropped (server : server) (d : datetime)
    (args : arguments) host portno called uid local_aet (s : net W)
    (target : pydict study_data) (other : pydict (list study_data))
    (F : gset string) :
  (query_study_series host portno called uid local_aet s).1
  = Ok (omap kept_series
          (default [] (find_series (world s) host portno called local_aet uid).1))
  ∧ (∀ r u m,
       kept_series r = Some (u, m) ↔
       r.1 = true ∧ ∃ identifier, r.2 = Some identifier
         ∧ id_SeriesInstanceUID identifier = Some u
         ∧ id_Modality identifier = Some m ∧ u ≠ "" ∧ m ≠ "")
  ∧ (∃ studies s',
       process_server server d args s = (Ok (aet server, studies), s')
       ∧ ∀ k st, dict_get studies k = Some st →
                 Forall complete_series (SeriesList st))
  ∧ (∀ k x, x ∈ tgt_series target k →
            ∃ st m, dict_get target k = Some st ∧ (x, m) ∈ SeriesList st)
  ∧ (∀ k u m a,
       (u, m, a) ∈ default [] (dict_get (missing_series_map target other args F) k) →
       ∃ entry, entry ∈ default [] (dict_get other k)
                ∧ (u, m) ∈ SeriesList entry).
Proof.
  split; [|split; [|split; [|split]]].
  - rewrite query_study_series_run. unfold answer_series. simpl.
    by destruct (find_series _ _ _ _ _ _) as [[?|] ?].
  - apply kept_series_Some.
  - eexists _, _. split; [apply process_server_run|].
    intros k st Hst. by apply inventory_entries in Hst as [_ ?].
  - intros k x Hx%elem_of_tgt_series. unfold primary_series_ids in Hx.
    destruct (dict_get target k) as [st|]; [|by apply elem_of_nil in Hx].
    apply list_elem_of_fmap in Hx as ([x' m] & -> & Hin). eauto.
  - intros k u m a. rewrite missing_series_map_get.
    case_decide; [|by intros ?%elem_of_nil].
    intros (entry & ? & ? & _)%elem_of_miss_of. eauto.
Qed.

End OrchestrationClaims.

(** ** Properties of the reconciliation and of the report *)

Lemma sorted_spec (X : gset string) :
  StronglySorted String.le (sorted X) ∧ NoDup (sorted X)
  ∧ ∀ x, x ∈ sorted X ↔ x ∈ X.
Proof.
  unfold sorted. split; [apply StronglySorted_merge_sort; apply _|]. split.
  - rewrite merge_sort_Permutation. apply NoDup_elements.
  - intros x. rewrite merge_sort_Permutation. apply elem_of_elements.
Qed.

Lemma elem_of_all_mods entries (acc : gset string) x :
  x ∈ foldl (λ all_mods entry, all_mods ∪ upper_set (Modalities entry)) acc entries
  ↔ x ∈ acc ∨ ∃ m, m ∈ concat (Modalities <$> entries) ∧ x = upper m.
Proof.
  revert acc. induction entries as [|entry entries IH]; intros acc.
  - simpl. split; [auto|]. intros [?|(m & Hm%elem_of_nil & _)]; done.
  - cbn [foldl]. rewrite IH, elem_of_union, elem_of_upper_set, fmap_cons.
    cbn [concat]. split.
    + intros [[?|(m & ? & ->)]|(m & ? & ->)]; [by left|right..];
        exists m; (split; [|done]); apply elem_of_app; auto.
    + intros [?|(m & [?|?]%elem_of_app & ->)]; [by left; left|left; right|right];
        exists m; done.
Qed.

(** The rows made from the grouping, one per source. *)
Lemma by_srv_rows (mk : string → string → row) miss :
  ∃ sources,
    NoDup sources ∧ (∀ a, a ∈ sources ↔ a ∈ miss.*2)
    ∧ (λ '(s_aet, misslist), mk s_aet (join ", " misslist)) <$> by_srv miss
      = (λ a, mk a (join ", " (tokens_of miss a))) <$> sources.
Proof.
  destruct (by_srv_spec miss) as (Hnd & Hk & Heq).
  exists (by_srv miss).*1. split; [done|]. split; [done|].
  rewrite Heq at 1. by rewrite <- list_fmap_compose.
Qed.

Lemma inventory_of_get a studies uid st :
  inventory_of a studies → dict_get studies uid = Some st → SourceServerAET st = a.
Proof.
  intros Hinv Hg%dict_get_Some_elem_of.
  by apply (proj1 (Forall_forall _ _) Hinv (uid, st)).
Qed.

(** The series test agrees with the study-level policy applied to the
    one modality of the series, for the lists the argument parser
    yields, unless the include list is the star. *)
Lemma series_passes_filter_study args s_mod :
  arg_modality args ≠ [] → arg_exclude args ≠ [] →
  arg_modality args ≠ ["*"] →
  series_passes args s_mod
  = filter_study [s_mod] (Some (arg_modality args)) (Some (arg_exclude args)).
Proof.
  intros Hm He Hstar. apply eq_true_iff_eq.
  rewrite filter_study_spec. unfold series_passes.
  rewrite andb_true_iff, !orb_true_iff, negb_true_iff, !bool_decide_eq_true,
    bool_decide_eq_false. simpl.
  assert (∀ l, ci_intersects [s_mod] l ↔ upper s_mod ∈ upper <$> l) as Hci.
  { intros l. unfold ci_intersects. rewrite list_elem_of_fmap. split.
    - intros (m & c & ->%list_elem_of_singleton & ? & ?). eauto.
    - intros (c & ? & ?). exists s_mod, c.
      split; [apply list_elem_of_here|done]. }
  rewrite !Hci. unfold exclude_in_force, include_all. split.
  - intros [Hex Hin]. split.
    + intros [(l & [= <-] & _ & Hns) Hx]. destruct Hex; done.
    + destruct Hin as [->|?]; auto.
  - intros [Hex Hin]. split.
    + destruct (decide (arg_exclude args = ["NONE"])); [by left|right].
      intros Hx. apply Hex. split; [|done]. eexists. eauto.
    + destruct Hin as [[?|[[= ?]|[[= ?]|[= ?]]]]|?]; try done; auto.
Qed.

Section ReportClaims.
Context (target : pydict study_data) (other : pydict (list study_data)).
Context (args : arguments) (d : datetime).

(** What the loop records as missing for a study of the filtered set:
    the series of the secondaries whose identifier the primary does not
    list and whose modality passes the series test. *)
Lemma recorded_missing_iff uid u m a :
  uid ∈ filtered target other args →
  (u, m, a) ∈ default [] (dict_get (missing_series_map target other args
                                      (filtered target other args)) uid)
  ↔ ∃ entry, entry ∈ default [] (dict_get other uid)
      ∧ (u, m) ∈ SeriesList entry ∧ a = SourceServerAET entry
      ∧ (u ∉ primary_series_ids target uid) ∧ series_passes args m = true.
Proof.
  intros Hin. rewrite missing_series_map_get, decide_True by done.
  apply elem_of_miss_of.
Qed.

Lemma rows_about_filtered uid :
  uid ∈ filtered target other args →
  rows_about uid (day_rows target other args d)
  = rows_of target other
      (missing_series_map target other args (filtered target other args)) d uid.
Proof. intros Hin. rewrite rows_about_day. by rewrite decide_True. Qed.

(** C5. For a study that passes the filter and that the primary
    holds: when no missing series is recorded for it, the report has
    exactly one row about it, which names the primary as source and has
    an empty MissingSeries; when some are, it has exactly one row per
    distinct secondary source (AE title) that has some, and that row
    names the source and lists, joined by a comma and a space, the
    tokens of that source's missing series only, in the order in which
    they are recorded, the token of a series being its identifier
    followed by its modality in parentheses. *)
Theorem rows_of_primary_study primary uid st :
  inventory_of primary target →
  uid ∈ filtered target other args →
  dict_get target uid = Some st →
  let recorded :=
    default [] (dict_get (missing_series_map target other args
                            (filtered target other args)) uid) in
  let mods := join "," (sorted (upper_set (Modalities st))) in
  let rows := rows_about uid (day_rows target other args d) in
  let token := λ x : string * string * string,
    x.1.1 +:+ "(" +:+ x.1.2 +:+ ")" in
  (recorded = [] →
     rows = [mk_row (sd_StudyDate st) uid (sd_AccessionNumber st)
               (SeriesCount st) (ImagesCount st) mods primary ""])
  ∧ (recorded ≠ [] →
       ∃ sources,
         NoDup sources ∧ (∀ a, a ∈ sources ↔ a ∈ recorded.*2)
         ∧ rows = (λ a, mk_row (sd_StudyDate st) uid (sd_AccessionNumber st)
                          (SeriesCount st) (ImagesCount st) mods a
                          (join ", "
                             (token <$> filter (λ x, x.2 = a) recorded)))
                  <$> sources).
Proof.
  intros Hinv Hin Hst recorded mods rows token. unfold rows.
  rewrite rows_about_filtered by done. unfold rows_of.
  rewrite Hst. fold recorded. fold mods. split.
  - intros ->. simpl. by rewrite (inventory_of_get _ _ _ _ Hinv Hst).
  - intros Hne. rewrite bool_decide_false by done. simpl.
    apply (by_srv_rows
             (λ a l, mk_row (sd_StudyDate st) uid (sd_AccessionNumber st)
                       (SeriesCount st) (ImagesCount st) mods a l)).
Qed.

(** C6, as the program has it. For a study that passes the filter and
    that only secondaries hold, the report has one row per distinct
    secondary source for which a missing series is recorded, with a
    blank accession number and zero series and image counts; so it has
    a row about the study exactly when a missing series is recorded for
    it. *)
Theorem rows_of_secondary_only_study uid :
  uid ∈ filtered target other args →
  dict_get target uid = None →
  let recorded :=
    default [] (dict_get (missing_series_map target other args
                            (filtered target other args)) uid) in
  let mods := join "," (sorted (upper_set (column_modalities target other uid))) in
  let rows := rows_about uid (day_rows target other args d) in
  (∃ sources,
     NoDup sources ∧ (∀ a, a ∈ sources ↔ a ∈ recorded.*2)
     ∧ rows = (λ a, mk_row (Some (strftime_Ymd d)) uid (Some "") 0 0 mods a
                      (join ", " (tokens_of recorded a))) <$> sources)
  ∧ (rows ≠ [] ↔ recorded ≠ [])
  ∧ (∀ r, r ∈ rows →
          row_AccessionNumber r = Some "" ∧ row_SeriesCount r = 0
          ∧ row_ImagesCount r = 0).
Proof.
  intros Hin Hst recorded mods rows.
  assert (∃ entries, dict_get other uid = Some entries) as [entries Ho].
  { apply elem_of_filtered in Hin as [[[? Ht]|Ho]%elem_of_all_uids _];
      [congruence|done]. }
  assert (rows = (λ '(s_aet, misslist),
                    mk_row (Some (strftime_Ymd d)) uid (Some "") 0 0 mods s_aet
                      (join ", " misslist)) <$> by_srv recorded) as Hrows.
  { unfold rows. rewrite rows_about_filtered by done. unfold rows_of.
    rewrite Hst, Ho. fold recorded.
    unfold mods, column_modalities. rewrite Hst, Ho. simpl.
    replace (foldl (λ all_mods entry, all_mods ∪ upper_set (Modalities entry))
               ∅ entries)
      with (upper_set (concat (Modalities <$> entries))); [done|].
    apply set_eq. intros x.
    rewrite elem_of_all_mods, elem_of_upper_set, elem_of_empty. tauto. }
  split; [|split].
  - rewrite Hrows.
    apply (by_srv_rows (λ a l, mk_row (Some (strftime_Ymd d)) uid (Some "")
                                 0 0 mods a l)).
  - assert (rows = [] ↔ recorded = []) as ->; [|done].
    rewrite Hrows. split; [|by intros ->].
    intros Heq%fmap_nil_inv. by apply by_srv_nil_iff.
  - intros r. rewrite Hrows. by intros ([a l] & -> & _)%list_elem_of_fmap.
Qed.

(** C3, as the program has it. The Modality column of every row is the
    comma-joined list, sorted, without duplicates, of the upper-cased
    modality codes the primary reported for the study when the primary
    holds it, and of those the secondaries reported when it does not. *)
Theorem modality_column r :
  r ∈ day_rows target other args d →
  ∃ codes,
    row_Modality r = join "," codes
    ∧ StronglySorted String.le codes ∧ NoDup codes
    ∧ ∀ x, x ∈ codes ↔
           ∃ m, m ∈ column_modalities target other (row_StudyInstanceUID r)
                ∧ x = upper m.
Proof.
  intros [Hin Hr]%elem_of_day_rows. revert Hin Hr.
  generalize (row_StudyInstanceUID r). intros uid Hin.
  unfold rows_of, column_modalities.
  destruct (dict_get target uid) as [st|] eqn:Hst.
  - intros Hr. exists (sorted (upper_set (Modalities st))).
    destruct (sorted_spec (upper_set (Modalities st))) as (? & ? & Hel).
    split; [|split; [done|split; [done|]]].
    + revert Hr. case_bool_decide; simpl.
      * intros ->%list_elem_of_singleton. done.
      * intros ([a l] & -> & _)%list_elem_of_fmap. done.
    + intros x. by rewrite Hel, elem_of_upper_set.
  - destruct (dict_get other uid) as [entries|] eqn:Ho;
      [|by intros ?%elem_of_nil].
    intros ([a l] & -> & _)%list_elem_of_fmap. simpl.
    eexists. split; [done|].
    destruct (sorted_spec
      (foldl (λ all_mods entry, all_mods ∪ upper_set (Modalities entry))
         ∅ entries)) as (? & ? & Hel).
    split; [done|split; [done|]].
    intros x. rewrite Hel, elem_of_all_mods, elem_of_empty. tauto.
Qed.

(** C7. A series of a secondary whose identifier is in the primary's
    series list for the study is not recorded as missing, whatever the
    modalities on either side; and the MissingSeries column of every
    row about the study is made of recorded missing series, none of
    which has that identifier. *)
Theorem shared_series_never_missing uid st s_uid :
  dict_get target uid = Some st →
  s_uid ∈ (SeriesList st).*1 →
  let recorded :=
    default [] (dict_get (missing_series_map target other args
                            (filtered target other args)) uid) in
  (∀ s_mod a, (s_uid, s_mod, a) ∉ recorded)
  ∧ ∀ r, r ∈ rows_about uid (day_rows target other args d) →
      ∃ reported,
        row_MissingSeries r
        = join ", " ((λ x : string * string * string,
                        series_token x.1.1 x.1.2) <$> reported)
        ∧ ∀ x, x ∈ reported → x ∈ recorded ∧ x.1.1 ≠ s_uid.
Proof.
  intros Hst Hs recorded.
  assert (∀ x, x ∈ recorded → x.1.1 ≠ s_uid) as Hrec.
  { intros [[u m] a]. unfold recorded. rewrite missing_series_map_get.
    case_decide; [|by intros ?%elem_of_nil].
    intros (entry & _ & _ & _ & Hn & _)%elem_of_miss_of. simpl. intros Heq.
    apply Hn. unfold primary_series_ids. by rewrite Hst, Heq. }
  split.
  - intros s_mod a Hx. by apply (Hrec _ Hx).
  - intros r. rewrite rows_about_day.
    case_decide; [|by intros ?%elem_of_nil].
    unfold rows_of. rewrite Hst. fold recorded.
    case_bool_decide as Hm; simpl.
    + intros ->%list_elem_of_singleton. exists []. split; [done|].
      by intros x ?%elem_of_nil.
    + destruct (by_srv_spec recorded) as (_ & _ & ->).
      rewrite <- list_fmap_compose.
      intros (a & -> & _)%list_elem_of_fmap. simpl.
      exists (filter (λ x : string * string * string, x.2 = a) recorded).
      split; [done|].
      intros x [_ Hx]%list_elem_of_filter. split; [done|by apply Hrec].
Qed.

End ReportClaims.

(** ** Concrete runs *)

Section Concrete.
Import Scenario Examples.

(** The scripted peers yield the inventories named in [Scenario]. *)
Example two_sources_inventories :
  (inventory_answer P day no_filter (start two_sources)).1 = target_two
  ∧ gather_other (completed_answer [Q] day no_filter
                    ([], start two_sources)).1 = other_two.
Proof. split; vm_compute; reflexivity. Qed.

Example secondary_only_inventories :
  (inventory_answer P day no_filter (start secondary_only_no_series)).1
  = target_none
  ∧ gather_other (completed_answer [Q] day no_filter
                    ([], start secondary_only_no_series)).1 = other_no_series
  ∧ gather_other (completed_answer [Q] day no_filter
                    ([], start secondary_only)).1 = other_only.
Proof. repeat split; vm_compute; reflexivity. Qed.

(** The three end-to-end scenarios, as the program runs them. *)
Example scenario_missing_series :
  (main_day P [Q] day no_filter (start two_sources)).1
  = Ok [mk_row (Some "20261104") "S1" (Some "ACC1") 2 40 "CT" "Q" "s3(MR)"].
Proof. vm_compute. reflexivity. Qed.

Example scenario_excluded :
  (main_day P [Q] day exclude_mr (start two_sources)).1 = Ok [].
Proof. vm_compute. reflexivity. Qed.

Example scenario_secondary_only :
  (main_day P [Q] day include_us (start secondary_only)).1
  = Ok [mk_row (Some "20261104") "S2" (Some "") 0 0 "US" "Q" "s5(US)"].
Proof. vm_compute. reflexivity. Qed.

Example process_server_twice :
  (process_server P day no_filter twice).1
  = Ok ("P", [("S1", entry_of P (record "S1" ["MR"])
                       [("s1", "CT"); ("s2", "MR")])]).
Proof. vm_compute. reflexivity. Qed.

(** Counts that are read as values that [int] rejects, a text and an
    infinite float, are zero in the row. *)
Example rejected_counts_coerced :
  (main_day P [] day no_filter (start rejected_counts)).1
  = Ok [mk_row (Some "20261104") "S1" (Some "ACC1") 0 0 "CT" "P" ""].
Proof. vm_compute. reflexivity. Qed.

(** C2. With the include list [*], study S1 passes the study-level
    filter, series s3 of the secondary is not in the primary's series
    list and the filter policy passes its modality MR, yet the series
    test of the missing-series loop rejects it: no missing series is
    recorded and the only row names the primary. *)
Theorem series_filter_ignores_star :
  "S1" ∈ filtered target_two other_two include_star
  ∧ ("s3", "MR") ∈ SeriesList (mk_study_data 2 40 [("s1", "CT"); ("s3", "MR")]
                                 (Some "20261104") (Some "ACC1") ["CT"; "MR"] "Q")
  ∧ ("s3" ∉ primary_series_ids target_two "S1")
  ∧ filter_study ["MR"] (Some (arg_modality include_star))
      (Some (arg_exclude include_star)) = true
  ∧ series_passes include_star "MR" = false
  ∧ miss_of target_two other_two include_star "S1" = []
  ∧ day_rows target_two other_two include_star day
    = [mk_row (Some "20261104") "S1" (Some "ACC1") 2 40 "CT" "P" ""]
  ∧ (main_day P [Q] day include_star (start two_sources)).1
    = Ok [mk_row (Some "20261104") "S1" (Some "ACC1") 2 40 "CT" "P" ""].
Proof.
  split; [decide_by_compute|].
  split; [by apply list_elem_of_further, list_elem_of_here|].
  split; [decide_by_compute|].
  repeat split; vm_compute; reflexivity.
Qed.

(** Counterexample to C3 as stated: the primary reports CT and the
    secondary CT and MR for study S1; the row about S1 has the Modality
    column CT, not the union CT,MR. *)
Lemma modality_column_not_union :
  (main_day P [Q] day no_filter (start two_sources)).1
  = Ok (day_rows target_two other_two no_filter day)
  ∧ ∃ r, r ∈ day_rows target_two other_two no_filter day
      ∧ row_Modality r = "CT"
      ∧ join "," (sorted (upper_set
          (all_reported_modalities target_two other_two
             (row_StudyInstanceUID r)))) = "CT,MR"
      ∧ row_Modality r
        ≠ join "," (sorted (upper_set
            (all_reported_modalities target_two other_two
               (row_StudyInstanceUID r)))).
Proof.
  split; [vm_compute; reflexivity|].
  exists (mk_row (Some "20261104") "S1" (Some "ACC1") 2 40 "CT" "Q" "s3(MR)").
  split; [vm_compute; apply list_elem_of_here|].
  split; [reflexivity|]. split; [vm_compute; reflexivity|].
  vm_compute. discriminate.
Qed.

(** Counterexample to C6 as stated: study S2 is held by the secondary
    only and passes the filter, its series lookup yields nothing, and
    the report has no row about it. *)
Lemma secondary_only_study_without_row :
  "S2" ∈ filtered target_none other_no_series no_filter
  ∧ dict_get target_none "S2" = None
  ∧ is_Some (dict_get other_no_series "S2")
  ∧ (¬ ∃ r, r ∈ day_rows target_none other_no_series no_filter day
            ∧ row_StudyInstanceUID r = "S2")
  ∧ (main_day P [Q] day no_filter (start secondary_only_no_series)).1 = Ok [].
Proof.
  split; [decide_by_compute|].
  split; [reflexivity|]. split; [by eexists|]. split.
  - intros (r & Hr & _). vm_compute in Hr. by apply elem_of_nil in Hr.
  - vm_compute. reflexivity.
Qed.

(** Instances of the theorems that have hypotheses. *)

Lemma rows_of_primary_study_witness :
  let recorded :=
    default [] (dict_get (missing_series_map target_two other_two no_filter
                            (filtered target_two other_two no_filter)) "S1") in
  let rows := rows_about "S1" (day_rows target_two other_two no_filter day) in
  let token := λ x : string * string * string,
    x.1.1 +:+ "(" +:+ x.1.2 +:+ ")" in
  (recorded = [] →
     rows = [mk_row (Some "20261104") "S1" (Some "ACC1") 2 40 "CT" "P" ""])
  ∧ (recorded ≠ [] →
       ∃ sources,
         NoDup sources ∧ (∀ a, a ∈ sources ↔ a ∈ recorded.*2)
         ∧ rows = (λ a, mk_row (Some "20261104") "S1" (Some "ACC1") 2 40 "CT" a
                          (join ", "
                             (token <$> filter (λ x, x.2 = a) recorded)))
                  <$> sources).
Proof.
  apply (rows_of_primary_study target_two other_two no_filter day "P" "S1"
           (mk_study_data 2 40 [("s1", "CT"); ("s2", "CT")]
              (Some "20261104") (Some "ACC1") ["CT"] "P")).
  - repeat constructor.
  - decide_by_compute.
  - reflexivity.
Defined.

Lemma rows_of_secondary_only_study_witness :
  let recorded :=
    default [] (dict_get (missing_series_map target_none other_only include_us
                            (filtered target_none other_only include_us)) "S2") in
  let rows := rows_about "S2" (day_rows target_none other_only include_us day) in
  (∃ sources,
     NoDup sources ∧ (∀ a, a ∈ sources ↔ a ∈ recorded.*2)
     ∧ rows = (λ a, mk_row (Some "20261104") "S2" (Some "") 0 0 "US" a
                      (join ", " (tokens_of recorded a))) <$> sources)
  ∧ (rows ≠ [] ↔ recorded ≠ [])
  ∧ (∀ r, r ∈ rows →
          row_AccessionNumber r = Some "" ∧ row_SeriesCount r = 0
          ∧ row_ImagesCount r = 0).
Proof.
  apply (rows_of_secondary_only_study target_none other_only include_us day "S2").
  - decide_by_compute.
  - reflexivity.
Defined.

Lemma modality_column_witness :
  ∃ codes,
    "CT" = join "," codes
    ∧ StronglySorted String.le codes ∧ NoDup codes
    ∧ ∀ x, x ∈ codes ↔
           ∃ m, m ∈ column_modalities target_two other_two "S1" ∧ x = upper m.
Proof.
  apply (modality_column target_two other_two no_filter day
           (mk_row (Some "20261104") "S1" (Some "ACC1") 2 40 "CT" "Q" "s3(MR)")).
  vm_compute. apply list_elem_of_here.
Defined.

Lemma shared_series_never_missing_witness :
  let recorded :=
    default [] (dict_get (missing_series_map target_two other_two no_filter
                            (filtered target_two other_two no_filter)) "S1") in
  (∀ s_mod a, ("s1", s_mod, a) ∉ recorded)
  ∧ ∀ r, r ∈ rows_about "S1" (day_rows target_two other_two no_filter day) →
      ∃ reported,
        row_MissingSeries r
        = join ", " ((λ x : string * string * string,
                        series_token x.1.1 x.1.2) <$> reported)
        ∧ ∀ x, x ∈ reported → x ∈ recorded ∧ x.1.1 ≠ "s1".
Proof.
  apply (shared_series_never_missing target_two other_two no_filter day "S1"
           (mk_study_data 2 40 [("s1", "CT"); ("s2", "CT")]
              (Some "20261104") (Some "ACC1") ["CT"] "P") "s1").
  - reflexivity.
  - apply list_elem_of_here.
Defined.

Lemma read_error_aborts_run_witness :
  let whole := (combine 739924 time_min, combine 739924 time_max) in
  let s0 := mk_net inf_count [] in
  let s1 := mk_net inf_count [study_event P no_filter whole] in
  query_server (ip P) (port P) (aet P) whole.1 whole.2 (arg_aet no_filter) s0
  = (Raise OverflowError, s1)
  ∧ process_server P (combine 739924 time_min) no_filter s0
    = (Raise OverflowError, s1)
  ∧ main_day P [Q] (combine 739924 time_min) no_filter s0
    = (Raise OverflowError, s1)
  ∧ main 1 cfg_two in_order 739924 739925 no_filter [] s0
    = (Aborted (Exn OverflowError) [], s1).
Proof.
  exact (read_error_aborts_run 1 cfg_two in_order 739924 739925 no_filter []
           P [Q] (mk_net inf_count [])
           [(true, Some (mk_study_dataset
                           (Ok (Some "S1")) (Raise OverflowError)
                           (Ok (Some (CInt 2))) (Ok (Some "20261104"))
                           (Ok (Some "ACC1")) (Ok (Some (MSingle "CT")))))]
           OverflowError
           ltac:(vm_compute; reflexivity) ltac:(lia) ltac:(lia)
           ltac:(reflexivity) ltac:(reflexivity)).
Defined.

Lemma process_server_duplicates_witness :
  let s1 := (query_server_with_4h_blocks (ip P) (port P) (aet P) day
               (arg_aet no_filter) twice).2 in
  ∃ studies s2 before s_before series_list s_after,
    process_server P day no_filter twice = (Ok (aet P, studies), s2)
    ∧ for_each [record "S1" ["CT"]] [] (process_study P no_filter) s1
      = (Ok before, s_before)
    ∧ query_study_series (ip P) (port P) (aet P) "S1" (arg_aet no_filter)
        s_before = (Ok series_list, s_after)
    ∧ dict_get studies "S1"
      = Some (entry_of P (record "S1" ["MR"]) series_list)
    ∧ trace s2
      = trace s1 ++ (series_event P no_filter
                       <$> omap lookup_uid
                             ([record "S1" ["CT"]] ++ record "S1" ["MR"] :: [])).
Proof.
  apply (process_server_duplicates P day no_filter twice _
           [record "S1" ["CT"]] (record "S1" ["MR"]) [] "S1").
  - vm_compute. reflexivity.
  - reflexivity.
  - discriminate.
  - intros later Hin. by apply elem_of_nil in Hin.
Defined.

End Concrete.

(** ** Further properties: the filter *)

Lemma upper_ascii_idemp c : upper_ascii (upper_ascii c) = upper_ascii c.
Proof. by destruct c as [[] [] [] [] [] [] [] []]. Qed.

Lemma upper_idemp s : upper (upper s) = upper s.
Proof. induction s as [|c s IH]; simpl; [done|]. by rewrite upper_ascii_idemp, IH. Qed.

Lemma upper_set_eq ms ms' : same_codes ms ms' → upper_set ms = upper_set ms'.
Proof.
  intros Hs. apply set_eq. intros x. rewrite !elem_of_upper_set. apply Hs.
Qed.

Lemma same_codes_elements ms : same_codes (elements (upper_set ms)) ms.
Proof.
  intros x. split.
  - intros (m & Hm%elem_of_elements%elem_of_upper_set & ->).
    destruct Hm as (m' & ? & ->). exists m'. by rewrite upper_idemp.
  - intros (m & Hm & ->). exists (upper m). rewrite upper_idemp. split; [|done].
    apply elem_of_elements, elem_of_upper_set. eauto.
Qed.

Lemma filter_study_upper_set ms ms' inc exc :
  upper_set ms = upper_set ms' → filter_study ms inc exc = filter_study ms' inc exc.
Proof.
  intros Heq. unfold filter_study, modality_list_excludes, modality_list_intersects.
  by rewrite Heq.
Qed.

(** X1. The outcome of the filter depends on the study's modality list
    only through its set of upper-cased codes: order, repetitions and
    letter case of the codes do not matter. In particular the list that
    [main] passes, made from a set in no fixed order, gives the outcome
    of the plain concatenation of the sources' lists. *)
Theorem filter_study_same_codes ms ms' inc exc :
  same_codes ms ms' →
  filter_study ms inc exc = filter_study ms' inc exc
  ∧ filter_study (elements (upper_set ms)) inc exc = filter_study ms' inc exc
  ∧ filter_study (upper <$> ms) inc exc = filter_study ms' inc exc
  ∧ filter_study (ms ++ ms') inc exc = filter_study ms' inc exc.
Proof.
  intros Hs. split; [|split; [|split]]; apply filter_study_upper_set, upper_set_eq.
  - done.
  - intros x. rewrite (same_codes_elements ms x). apply Hs.
  - intros x. rewrite <- (Hs x). split.
    + intros (m & (m' & -> & ?)%list_elem_of_fmap & ->).
      exists m'. by rewrite upper_idemp.
    + intros (m & ? & ->). exists (upper m). rewrite upper_idemp.
      split; [|done]. apply list_elem_of_fmap. eauto.
  - intros x. split.
    + intros (m & [Hm|Hm]%elem_of_app & ->); [|eauto].
      apply Hs. eauto.
    + intros (m & Hm & ->). exists m. split; [|done].
      apply elem_of_app. by right.
Qed.

(** X2. A study that reports no modality code is never vetoed by the
    exclude list, and passes exactly when the include list is a
    match-all value: with any other include list it is dropped. *)
Theorem filter_study_no_modality inc exc :
  filter_study [] inc exc = true ↔ include_all inc.
Proof.
  rewrite filter_study_spec.
  assert (∀ l, ¬ ci_intersects [] l) as Hno.
  { intros l (m & c & Hm%elem_of_nil & _). done. }
  split.
  - intros [_ [?|Hci]]; [done|]. by apply Hno in Hci.
  - intros Hall. split; [|by left]. intros [_ Hci]. by apply Hno in Hci.
Qed.

(** X3. The intersection test is symmetric in its two lists, is false
    as soon as one of them is empty, and a list intersects itself
    exactly when it is not empty. *)
Theorem modality_list_intersects_sym ms cs :
  modality_list_intersects ms cs = modality_list_intersects cs ms
  ∧ modality_list_intersects [] cs = false
  ∧ modality_list_intersects ms [] = false
  ∧ (modality_list_intersects ms ms = true ↔ ms ≠ []).
Proof.
  assert (∀ a b, modality_list_intersects a b = true
                 → modality_list_intersects b a = true) as Hsym.
  { intros a b (m & c & ? & ? & ?)%modality_list_intersects_spec.
    apply modality_list_intersects_spec. exists c, m. done. }
  assert (∀ l, modality_list_intersects [] l = false) as Hnil.
  { intros l. apply not_true_is_false.
    intros (m & c & Hm%elem_of_nil & _)%modality_list_intersects_spec. done. }
  split; [|split; [|split]].
  - destruct (modality_list_intersects ms cs) eqn:H1;
      destruct (modality_list_intersects cs ms) eqn:H2; try done.
    + apply Hsym in H1. congruence.
    + apply Hsym in H2. congruence.
  - apply Hnil.
  - apply not_true_is_false. intros Ht%Hsym. by rewrite Hnil in Ht.
  - rewrite modality_list_intersects_spec. split.
    + intros (m & _ & Hm & _) ->. by apply elem_of_nil in Hm.
    + destruct ms as [|m ms']; [done|]. intros _.
      exists m, m. split; [apply list_elem_of_here|].
      split; [apply list_elem_of_here|done].
Qed.

(** X4. For the lists the argument parser yields (both non-empty), the
    test applied to a series in the missing-series loop gives the
    outcome of [filter_study] on that one modality, except in one case:
    the include list is the star, the modality is not excluded and is
    not itself the star. *)
Theorem series_test_and_policy args s_mod :
  arg_modality args ≠ [] →
  arg_exclude args ≠ [] →
  (series_passes args s_mod
   = filter_study [s_mod] (Some (arg_modality args)) (Some (arg_exclude args))
   ↔ ¬ (arg_modality args = ["*"] ∧ not_excluded args s_mod
        ∧ upper s_mod ≠ "*")).
Proof.
  intros Hm He.
  destruct (decide (arg_modality args = ["*"])) as [Hstar|Hstar].
  - assert (filter_study [s_mod] (Some (arg_modality args))
              (Some (arg_exclude args)) = true ↔ not_excluded args s_mod) as Hf.
    { rewrite filter_study_spec, Hstar. unfold not_excluded, exclude_in_force.
      simpl. split.
      - intros [Hn _]. destruct (decide (arg_exclude args = ["NONE"])); [by left|].
        right. intros (c & Hc & Hin)%list_elem_of_fmap. apply Hn.
        split; [eauto|]. exists s_mod, c.
        split; [apply list_elem_of_here|done].
      - intros Hne. split; [|left; unfold include_all; auto].
        intros [(l & [= <-] & _ & Hns) (m & c & ->%list_elem_of_singleton & ? & Hu)].
        destruct Hne as [?|Hnin]; [done|]. apply Hnin.
        apply list_elem_of_fmap. eauto. }
    assert (series_passes args s_mod = true
            ↔ not_excluded args s_mod ∧ upper s_mod = "*") as Hs.
    { unfold series_passes, not_excluded. rewrite Hstar.
      rewrite andb_true_iff, !orb_true_iff, negb_true_iff, !bool_decide_eq_true,
        bool_decide_eq_false. simpl. rewrite list_elem_of_singleton.
      split; [intros [? [[=]|?]]; done|intros [? ?]; auto]. }
    split.
    + intros Heq (_ & Hne & Hu).
      apply Hf in Hne. rewrite <- Heq in Hne. apply Hs in Hne as [_ ?]. done.
    + intros Hn. apply eq_true_iff_eq. rewrite Hf, Hs. split; [by intros [? _]|].
      intros Hne. split; [done|].
      destruct (decide (upper s_mod = "*")); [done|]. destruct Hn. done.
  - split; [intros _ [? _]; done|]. intros _.
    by apply series_passes_filter_study.
Qed.

(** ** Further properties: one source, one day *)

Lemma first_occurrences_step (l : list string) acc :
  NoDup acc →
  NoDup (foldl (λ acc x, if decide (x ∈ acc) then acc else acc ++ [x]) acc l)
  ∧ ∀ x, x ∈ foldl (λ acc x, if decide (x ∈ acc) then acc else acc ++ [x]) acc l
         ↔ x ∈ acc ∨ x ∈ l.
Proof.
  revert acc. induction l as [|y l IH]; intros acc Hnd; simpl.
  - split; [done|]. intros x. rewrite elem_of_nil. tauto.
  - destruct (decide (y ∈ acc)) as [Hin|Hnin].
    + destruct (IH acc Hnd) as [? Hel]. split; [done|].
      intros x. rewrite Hel, elem_of_cons. split; [tauto|].
      intros [?|[->|?]]; auto.
    + assert (NoDup (acc ++ [y])) as Hnd'.
      { apply NoDup_app. split; [done|]. split; [|apply NoDup_singleton].
        intros x Hx ->%list_elem_of_singleton. done. }
      destruct (IH _ Hnd') as [? Hel]. split; [done|].
      intros x. rewrite Hel, elem_of_app, list_elem_of_singleton, elem_of_cons.
      tauto.
Qed.

(** The peers of this section are those whose identifiers all convert. *)
Section ProcessExtras.
Context {W : Type} `{QueryClient W}.

Lemma study_steps_key_order (server : server) args l
    (acc : pydict study_data * net W) :
  (foldl (study_step server args) acc l).1.*1
  = foldl (λ keys x, if decide (x ∈ keys) then keys else keys ++ [x])
          acc.1.*1 (omap lookup_uid l).
Proof.
  revert acc. induction l as [|study l IH]; intros acc; simpl; [done|].
  rewrite IH. unfold study_step.
  destruct (lookup_uid study) as [uid|]; simpl; [|done].
  by rewrite dict_set_keys.
Qed.

(** X5. In the retrieval of one source for one day, the study-level
    calls (one, or seven when the probe saturates) all carry the date of
    that day whatever the time of day of the argument, and they all come
    before the series-level calls, which are made for the non-empty
    study identifiers in the order of the records. *)
Theorem process_server_call_order (server : server) (d : datetime)
    (args : arguments) (s : net W) :
  ∃ windows srv_results studies s1 s2,
    query_server_with_4h_blocks (ip server) (port server) (aet server)
      d (arg_aet args) s = (Ok srv_results, s1)
    ∧ process_server server d args s = (Ok (aet server, studies), s2)
    ∧ trace s2 = trace s ++ (study_event server args <$> windows)
                   ++ (series_event server args <$> omap lookup_uid srv_results)
    ∧ (length windows = 1 ∨ length windows = 7)%nat
    ∧ Forall (λ win, rq_StudyDate (study_request_of win.1 win.2) = strftime_Ymd d)
        windows.
Proof.
  set (whole := (combine (date d) time_min, combine (date d) time_max)).
  set (blocks := four_hour_window (date d) <$> seqZ 0 6).
  set (probe := answer_study (ip server) (port server) (aet server)
                  (arg_aet args) (world s) whole).
  exists (if bool_decide (length probe.1 < 500)%nat then [whole]
          else whole :: blocks).
  eexists _, _, _, _.
  split; [apply query_server_with_4h_blocks_run|].
  split; [apply process_server_run|].
  unfold inventory_answer. rewrite study_steps_trace. simpl.
  unfold partition_answer. fold whole blocks probe.
  case_bool_decide; simpl.
  - split; [by rewrite <- app_assoc|]. split; [by left|].
    by repeat constructor.
  - split; [by rewrite <- app_assoc|]. split; [by right|].
    by repeat constructor.
Qed.

(** X6. When no association is established for the whole-day probe of a
    source, its retrieval returns the empty inventory after that single
    call: no sub-window is tried and no series lookup is made. *)
Theorem process_server_outage (server : server) (d : datetime)
    (args : arguments) (s : net W) :
  let whole := (combine (date d) time_min, combine (date d) time_max) in
  let r := find_studies (world s) (ip server) (port server) (aet server)
             (arg_aet args) (study_request_of whole.1 whole.2) in
  r.1 = None →
  process_server server d args s
  = (Ok (aet server, []), mk_net r.2 (trace s ++ [study_event server args whole])).
Proof.
  intros whole r Hr. rewrite process_server_run.
  unfold inventory_answer, partition_answer, answer_study.
  fold whole. cbn [fst snd world]. fold r.
  destruct r as [[responses|] w]; [done|].
  cbn [from_option fst snd]. rewrite bool_decide_true by (simpl; lia). done.
Qed.

(** X7. The inventory of a source has one entry for each distinct
    non-empty study identifier among the records, in the order in which
    the identifiers first occur, and every entry names the source. *)
Theorem process_server_inventory (server : server) (d : datetime)
    (args : arguments) (s : net W) :
  ∃ srv_results s1 studies s2,
    query_server_with_4h_blocks (ip server) (port server) (aet server)
      d (arg_aet args) s = (Ok srv_results, s1)
    ∧ process_server server d args s = (Ok (aet server, studies), s2)
    ∧ studies.*1 = first_occurrences (omap lookup_uid srv_results)
    ∧ NoDup studies.*1
    ∧ inventory_of (aet server) studies.
Proof.
  eexists _, _, _, _.
  split; [apply query_server_with_4h_blocks_run|].
  split; [apply process_server_run|].
  split; [apply study_steps_key_order|].
  split; [apply study_steps_NoDup; constructor|].
  apply Forall_forall. intros [k st] Hin. simpl.
  apply elem_of_dict_get in Hin; [|apply study_steps_NoDup; constructor].
  by apply inventory_entries in Hin as [? _].
Qed.

End ProcessExtras.

(** ** Further properties: fan-in, filter and rows *)

Lemma gather_inventory_get (studies : pydict study_data)
    (acc : pydict (list study_data)) uid :
  NoDup studies.*1 →
  default [] (dict_get
    (foldl (λ other_studies '(uid, data),
              setdefault_append other_studies uid data) acc studies) uid)
  = default [] (dict_get acc uid) ++ option_list (dict_get studies uid).
Proof.
  revert acc. induction studies as [|[k v] studies IH]; intros acc Hnd.
  - simpl. by rewrite app_nil_r.
  - rewrite fmap_cons in Hnd. cbn [fst] in Hnd.
    apply NoDup_cons in Hnd as [Hk Hnd].
    cbn [foldl]. rewrite IH by done. rewrite setdefault_append_get.
    cbn [dict_get]. destruct (decide (k = uid)) as [->|Hne].
    + apply dict_get_None in Hk. rewrite Hk. simpl. by rewrite app_nil_r.
    + done.
Qed.

Lemma gather_inventory_keys (studies : pydict study_data)
    (acc : pydict (list study_data)) uid :
  is_Some (dict_get
    (foldl (λ other_studies '(uid, data),
              setdefault_append other_studies uid data) acc studies) uid)
  ↔ is_Some (dict_get acc uid) ∨ uid ∈ studies.*1.
Proof.
  revert acc. induction studies as [|[k v] studies IH]; intros acc.
  - simpl. rewrite elem_of_nil. tauto.
  - cbn [foldl]. rewrite IH, setdefault_append_is_Some, fmap_cons, elem_of_cons.
    cbn [fst]. split; [intros [[?|?]|?]|intros [?|[?|?]]]; auto.
Qed.

Lemma gather_fold_get (completed : list (string * pydict study_data))
    (acc : pydict (list study_data)) uid :
  Forall (λ c, NoDup c.2.*1) completed →
  default [] (dict_get
    (foldl (λ other_studies '(_, studies),
              foldl (λ other_studies '(uid, data),
                       setdefault_append other_studies uid data)
                    other_studies studies) acc completed) uid)
  = default [] (dict_get acc uid) ++ omap (λ c, dict_get c.2 uid) completed.
Proof.
  revert acc. induction completed as [|[a studies] completed IH]; intros acc Hnd.
  - simpl. by rewrite app_nil_r.
  - apply Forall_cons in Hnd as [Hs Hnd]. cbn [foldl].
    rewrite IH, gather_inventory_get by done. cbn [omap list_omap snd].
    rewrite <- app_assoc. by destruct (dict_get studies uid).
Qed.

Lemma gather_fold_keys (completed : list (string * pydict study_data))
    (acc : pydict (list study_data)) uid :
  is_Some (dict_get
    (foldl (λ other_studies '(_, studies),
              foldl (λ other_studies '(uid, data),
                       setdefault_append other_studies uid data)
                    other_studies studies) acc completed) uid)
  ↔ is_Some (dict_get acc uid)
    ∨ ∃ c, c ∈ completed ∧ is_Some (dict_get c.2 uid).
Proof.
  revert acc. induction completed as [|[a studies] completed IH]; intros acc.
  - simpl. split; [auto|]. intros [?|(c & Hc%elem_of_nil & _)]; done.
  - cbn [foldl]. rewrite IH, gather_inventory_keys, <- dict_get_is_Some. split.
    + intros [[?|?]|(c & ? & ?)]; [by left|right..].
      * exists (a, studies). split; [apply list_elem_of_here|done].
      * exists c. split; [by apply list_elem_of_further|done].
    + intros [?|(c & [->|?]%elem_of_cons & ?)]; [by left; left|by left; right|].
      right. by exists c.
Qed.

(** X8. The fan-in of the secondaries' inventories gives each study the
    entries of the inventories that hold it, one per inventory, in the
    order of completion; a study is a key of the result exactly when
    some inventory holds it. *)
Theorem gather_other_entries (completed : list (string * pydict study_data)) uid :
  Forall (λ c, NoDup c.2.*1) completed →
  default [] (dict_get (gather_other completed) uid)
  = omap (λ c, dict_get c.2 uid) completed
  ∧ (is_Some (dict_get (gather_other completed) uid)
     ↔ ∃ c, c ∈ completed ∧ is_Some (dict_get c.2 uid)).
Proof.
  intros Hnd. unfold gather_other. split.
  - by rewrite gather_fold_get.
  - rewrite gather_fold_keys. simpl. split; [|auto].
    intros [[? [=]]|?]; done.
Qed.

Lemma study_modalities_reported target other uid :
  study_modalities target other uid
  = elements (upper_set (all_reported_modalities target other uid)).
Proof.
  unfold study_modalities, all_reported_modalities.
  destruct (dict_get other uid) as [entries|]; simpl.
  - by rewrite foldl_app_concat.
  - by rewrite app_nil_r.
Qed.

Lemma filter_study_reported target other uid inc exc :
  filter_study (study_modalities target other uid) inc exc
  = filter_study (all_reported_modalities target other uid) inc exc.
Proof.
  rewrite study_modalities_reported.
  apply filter_study_upper_set, upper_set_eq, same_codes_elements.
Qed.

(** X9. The set of studies that pass the filter does not depend on the
    order in which the secondaries complete. *)
Theorem filtered_completion_order target args
    (completed completed' : list (string * pydict study_data)) :
  completed ≡ₚ completed' →
  Forall (λ c, NoDup c.2.*1) completed →
  filtered target (gather_other completed) args
  = filtered target (gather_other completed') args.
Proof.
  intros Hp Hnd.
  assert (Forall (λ c, NoDup c.2.*1) completed') as Hnd' by by rewrite <- Hp.
  assert (∀ uid, default [] (dict_get (gather_other completed) uid)
                 ≡ₚ default [] (dict_get (gather_other completed') uid)) as He.
  { intros uid.
    unfold gather_other. rewrite !gather_fold_get by done. simpl.
    by rewrite Hp. }
  assert (∀ uid, is_Some (dict_get (gather_other completed) uid)
                 ↔ is_Some (dict_get (gather_other completed') uid)) as Hk.
  { intros uid.
    unfold gather_other. rewrite !gather_fold_keys.
    split; (intros [?|(c & Hc & ?)]; [by left|right]); exists c;
      (split; [|done]).
    - by rewrite <- Hp.
    - by rewrite Hp. }
  apply set_eq. intros uid.
  rewrite !elem_of_filtered, !elem_of_all_uids, !filter_study_reported, Hk.
  assert (upper_set (all_reported_modalities target (gather_other completed) uid)
          = upper_set (all_reported_modalities target (gather_other completed') uid))
    as Hu.
  { apply upper_set_eq. intros x. unfold all_reported_modalities.
    split; intros (m & Hm & ->); exists m; (split; [|done]);
      revert Hm; rewrite !elem_of_app, !elem_of_concat;
      (intros [?|(l & ? & (e & -> & He')%list_elem_of_fmap)]; [by left|right]);
      exists (Modalities e); (split; [done|]); apply list_elem_of_fmap;
      exists e; (split; [done|]).
    - by rewrite <- (He uid).
    - by rewrite (He uid). }
  by rewrite (filter_study_upper_set _ _ _ _ Hu).
Qed.

(** X10. Every row of the report is about a study held by some source
    and whose modality codes, taken over all the sources that hold it,
    pass the filter policy; so no row is written for a study one of
    whose sources reports a modality of an exclude list in force. *)
Theorem rows_only_for_passing_studies target other args d r :
  r ∈ day_rows target other args d →
  let uid := row_StudyInstanceUID r in
  let reported := all_reported_modalities target other uid in
  filter_study reported (Some (arg_modality args)) (Some (arg_exclude args)) = true
  ∧ (is_Some (dict_get target uid) ∨ is_Some (dict_get other uid))
  ∧ ¬ (exclude_in_force (Some (arg_exclude args))
       ∧ ci_intersects reported (arg_exclude args)).
Proof.
  intros [Hin _]%elem_of_day_rows uid reported.
  apply elem_of_filtered in Hin as [Hall Hf]. fold uid in Hall, Hf.
  rewrite filter_study_reported in Hf. fold reported in Hf.
  split; [done|]. split; [by apply elem_of_all_uids|].
  by apply filter_study_spec in Hf as [? _].
Qed.

Lemma series_token_nonempty u m : series_token u m ≠ "".
Proof. unfold series_token. by destruct u. Qed.

Lemma join_nonempty sep t ts : t ≠ "" → join sep (t :: ts) ≠ "".
Proof. intros Ht. destruct ts; simpl; [done|]. by destruct t. Qed.

Lemma tokens_of_source miss a :
  a ∈ miss.*2 → join ", " (tokens_of miss a) ≠ "".
Proof.
  intros ([[u m] a'] & -> & Hin)%list_elem_of_fmap. unfold tokens_of. simpl.
  destruct (filter (λ x : string * string * string, x.2 = a') miss)
    as [|x l] eqn:Hf.
  - assert ((u, m, a') ∈ filter (λ x : string * string * string, x.2 = a') miss)
      as Hx by (by apply list_elem_of_filter).
    rewrite Hf in Hx. by apply elem_of_nil in Hx.
  - rewrite fmap_cons. apply join_nonempty, series_token_nonempty.
Qed.

Lemma by_srv_row_source miss a l :
  (a, l) ∈ by_srv miss → a ∈ miss.*2 ∧ l = tokens_of miss a.
Proof.
  destruct (by_srv_spec miss) as (_ & Hk & Heq). rewrite Heq.
  intros (a' & [= -> ->] & Ha)%list_elem_of_fmap. split; [by apply Hk|done].
Qed.

Lemma by_srv_row_facts (mk : string → string → row) miss r :
  (∀ a l, row_MissingSeries (mk a l) = l) →
  (∀ a l, row_SourceServerAET (mk a l) = a) →
  r ∈ (λ '(s_aet, misslist), mk s_aet (join ", " misslist)) <$> by_srv miss →
  miss ≠ [] ∧ row_MissingSeries r ≠ "" ∧ row_SourceServerAET r ∈ miss.*2.
Proof.
  intros Hm Hs ([a l] & Hr & [Ha Hl]%by_srv_row_source)%list_elem_of_fmap.
  rewrite Hr, Hm, Hs, Hl. split; [|split; [by apply tokens_of_source|done]].
  intros Hnil. rewrite Hnil in Ha. by apply elem_of_nil in Ha.
Qed.

(** X11. A row of the report has an empty MissingSeries exactly when no
    missing series is recorded for its study; the row then names the
    source recorded in the primary's entry. Every other row names a
    source for which a missing series of the study is recorded. *)
Theorem row_missing_series_empty target other args d r :
  r ∈ day_rows target other args d →
  let uid := row_StudyInstanceUID r in
  let recorded :=
    default [] (dict_get (missing_series_map target other args
                            (filtered target other args)) uid) in
  (recorded = [] ∧ row_MissingSeries r = ""
   ∧ ∃ st, dict_get target uid = Some st
           ∧ row_SourceServerAET r = SourceServerAET st)
  ∨ (recorded ≠ [] ∧ row_MissingSeries r ≠ ""
     ∧ row_SourceServerAET r ∈ recorded.*2).
Proof.
  intros [_ Hr]%elem_of_day_rows. cbv zeta. revert Hr.
  generalize (row_StudyInstanceUID r). intros uid.
  set (recorded := default [] (dict_get (missing_series_map target other args
                                           (filtered target other args)) uid)).
  unfold rows_of. fold recorded.
  destruct (dict_get target uid) as [st|].
  - case_bool_decide as Hrec; simpl.
    + intros ->%list_elem_of_singleton. left. simpl. eauto.
    + intros Hr. right.
      by apply (by_srv_row_facts
                  (λ a l, mk_row (sd_StudyDate st) uid (sd_AccessionNumber st)
                            (SeriesCount st) (ImagesCount st)
                            (join "," (sorted (upper_set (Modalities st)))) a l)).
  - destruct (dict_get other uid) as [entries|]; [|by intros ?%elem_of_nil].
    intros Hr. right. cbv zeta in Hr.
    set (mods := join "," _) in Hr.
    by apply (by_srv_row_facts
                (λ a l, mk_row (Some (strftime_Ymd d)) uid (Some "") 0 0 mods a l)).
Qed.

Lemma setdefault_append_values {V} (dct : pydict (list V)) k (x : V) :
  concat (setdefault_append dct k x).*2 ≡ₚ concat dct.*2 ++ [x].
Proof.
  unfold setdefault_append. induction dct as [|[k' v'] dct IH]; [done|].
  cbn [dict_get dict_set]. destruct (decide (k' = k)) as [->|Hne].
  - rewrite !fmap_cons. simpl. rewrite <- !app_assoc.
    apply Permutation_app_head, Permutation_app_comm.
  - rewrite !fmap_cons. cbn [snd concat]. rewrite IH. by rewrite app_assoc.
Qed.

(** X12. Grouping the missing series of a study by source neither loses
    nor repeats one: the tokens of all the groups together are a
    rearrangement of the tokens of the recorded series, the groups have
    distinct sources, and none is empty. *)
Theorem by_srv_conserves (miss : list (string * string * string)) :
  concat (by_srv miss).*2
  ≡ₚ (λ x : string * string * string, series_token x.1.1 x.1.2) <$> miss
  ∧ NoDup (by_srv miss).*1
  ∧ Forall (λ g : string * list string, g.2 ≠ []) (by_srv miss).
Proof.
  split; [|split].
  - unfold by_srv.
    assert (∀ acc : pydict (list string),
              concat (foldl add_by_srv acc miss).*2
              ≡ₚ concat acc.*2
                 ++ ((λ x : string * string * string, series_token x.1.1 x.1.2)
                       <$> miss)) as Hgen.
    { induction miss as [|[[u m] a] miss IH]; intros acc.
      - simpl. by rewrite app_nil_r.
      - cbn [foldl]. rewrite IH. unfold add_by_srv.
        rewrite setdefault_append_values, fmap_cons. cbn [fst snd].
        by rewrite <- app_assoc. }
    by rewrite Hgen.
  - apply by_srv_spec.
  - apply Forall_forall. intros [a l] [Ha ->]%by_srv_row_source. simpl.
    intros Hnil. apply (tokens_of_source miss a Ha). by rewrite Hnil.
Qed.

(** ** Further properties: the configuration file *)

Lemma load_line_server servers line :
  load_line servers line
  = if effective line then
      match line_server line with
      | Some srv => Ok (servers ++ [srv])
      | None => Raise ValueError
      end
    else Ok servers.
Proof.
  unfold load_line, effective, line_server.
  destruct (negb (bool_decide (py_strip line = ""))
            && negb (String.prefix "#" (py_strip line))); [|done].
  destruct (split (py_strip line)) as [|ip [|port [|aet rest]]]; try done.
  unfold py_int.
  destruct rest as [|p3 more]; simpl.
  - by destruct (parse_int port).
  - destruct (parse_int p3); simpl; [|done]. by destruct (parse_int port).
Qed.

Lemma py_for_each_load_line lines servers :
  py_for_each lines servers load_line
  = match mapM line_server (filter (λ l, effective l = true) lines) with
    | Some more => Ok (servers ++ more)
    | None => Raise ValueError
    end.
Proof.
  revert servers. induction lines as [|line lines IH]; intros servers.
  - simpl. by rewrite app_nil_r.
  - cbn [py_for_each]. rewrite load_line_server.
    destruct (effective line) eqn:He.
    + rewrite filter_cons_True by done. cbn [mapM].
      destruct (line_server line) as [srv|]; simpl; [|done].
      rewrite IH.
      destruct (mapM line_server (filter (λ l, effective l = true) lines));
        simpl; [|done].
      by rewrite <- app_assoc.
    + rewrite filter_cons_False by (by rewrite He). simpl. apply IH.
Qed.

Lemma load_servers_closed lines :
  load_servers lines
  = match mapM line_server (filter (λ l, effective l = true) lines) with
    | Some servers => Ok servers
    | None => Raise ValueError
    end.
Proof. unfold load_servers. by rewrite py_for_each_load_line. Qed.

Lemma malformed_no_server line : malformed line → line_server line = None.
Proof.
  unfold malformed, line_server.
  intros [Hlen|(ip & port & aet & rest & -> & [Hp|(p3 & more & -> & Hw)])].
  - destruct (split (py_strip line)) as [|? [|? [|? ?]]]; simpl in *; [done..|lia].
  - rewrite Hp. destruct rest as [|p3 more]; [done|].
    by destruct (parse_int p3).
  - by rewrite Hw.
Qed.

(** X13. Loading the configuration keeps, in file order, one server per
    line that is neither blank nor a comment, and raises as soon as one
    of these lines describes no server; a blank or comment line may be
    added or removed anywhere without changing the result, and loading
    two files one after the other amounts to loading their lines
    together. *)
Theorem load_servers_lines lines :
  load_servers lines
  = match mapM line_server (filter (λ l, effective l = true) lines) with
    | Some servers => Ok servers
    | None => Raise ValueError
    end
  ∧ (∀ before c after,
       lines = before ++ c :: after → effective c = false →
       load_servers lines = load_servers (before ++ after))
  ∧ (∀ l1 l2 s1 s2,
       lines = l1 ++ l2 → load_servers l1 = Ok s1 → load_servers l2 = Ok s2 →
       load_servers lines = Ok (s1 ++ s2)).
Proof.
  split; [apply load_servers_closed|]. split.
  - intros before c after -> Hc. rewrite !load_servers_closed, !filter_app.
    rewrite filter_cons_False; [done|]. by rewrite Hc.
  - intros l1 l2 s1 s2 -> H1 H2. unfold load_servers in *.
    rewrite py_for_each_load_line in *. rewrite filter_app.
    destruct (mapM line_server (filter (λ l, effective l = true) l1))
      as [k1|] eqn:E1; [|done].
    destruct (mapM line_server (filter (λ l, effective l = true) l2))
      as [k2|] eqn:E2; [|done].
    simpl in H1, H2. injection H1 as <-. injection H2 as <-.
    apply mapM_Some in E1, E2.
    rewrite (proj2 (mapM_Some _ _ (k1 ++ k2))); [done|].
    by apply Forall2_app.
Qed.

(** X14. A line that is neither blank nor a comment and that has fewer
    than three fields, or a port or a fourth field that is not an
    integer, makes the load raise, wherever the line stands and whatever
    the other lines are: no partial list of servers is returned. *)
Theorem load_servers_malformed before line after :
  effective line = true →
  malformed line →
  load_servers (before ++ line :: after) = Raise ValueError.
Proof.
  intros He Hm%malformed_no_server. rewrite load_servers_closed.
  rewrite (proj2 (mapM_None line_server _)); [done|].
  apply Exists_exists. exists line. split; [|done].
  apply list_elem_of_filter. split; [done|].
  apply elem_of_app. right. apply list_elem_of_here.
Qed.

Lemma rev_app_nonempty s1 s2 : s2 ≠ "" → String.rev_app s1 s2 ≠ "".
Proof.
  revert s2. induction s1 as [|c s1 IH]; intros s2 Hs; simpl; [done|].
  by apply IH.
Qed.

Lemma string_forall_rev_app P s1 s2 :
  string_forall P (String.rev_app s1 s2)
  = string_forall P s1 && string_forall P s2.
Proof.
  revert s2. induction s1 as [|c s1 IH]; intros s2; simpl; [done|].
  rewrite IH. simpl. by destruct (P c), (string_forall P s1).
Qed.

Lemma close_word_fields cur :
  string_forall (λ c, negb (py_isspace c)) cur = true →
  Forall field (close_word cur).
Proof.
  intros Hc. unfold close_word. case_bool_decide as He; [constructor|].
  repeat constructor.
  - unfold String.rev. destruct cur as [|c cur]; [done|]. simpl.
    by apply rev_app_nonempty.
  - unfold String.rev. rewrite string_forall_rev_app, Hc. done.
Qed.

Lemma split_go_fields cur s :
  string_forall (λ c, negb (py_isspace c)) cur = true →
  Forall field (split_go cur s).
Proof.
  revert cur. induction s as [|c s IH]; intros cur Hc; simpl.
  - by apply close_word_fields.
  - destruct (py_isspace c) eqn:Hsp.
    + apply Forall_app. split; [by apply close_word_fields|by apply IH].
    + apply IH. simpl. by rewrite Hsp.
Qed.

(** X15. Every server of a loaded configuration has an address and an
    AE title that are non-empty and hold no space character. *)
Theorem load_servers_fields lines servers :
  load_servers lines = Ok servers →
  Forall (λ srv, field (ip srv) ∧ field (aet srv)) servers.
Proof.
  rewrite load_servers_closed.
  destruct (mapM line_server (filter (λ l, effective l = true) lines))
    as [k|] eqn:E; [|done].
  intros [= <-]. apply mapM_Some in E.
  apply Forall_forall. intros srv Hsrv.
  apply list_elem_of_lookup in Hsrv as [i Hi].
  destruct (Forall2_lookup_r _ _ _ _ _ E Hi) as (line & _ & Hl).
  unfold line_server in Hl.
  pose proof (split_go_fields "" (py_strip line) eq_refl) as Hf.
  fold (split (py_strip line)) in Hf.
  destruct (split (py_strip line)) as [|a [|p [|t rest]]]; try done.
  apply Forall_cons in Hf as [Ha Hf]. apply Forall_cons in Hf as [_ Hf].
  apply Forall_cons in Hf as [Ht _].
  destruct (match rest with [] => _ | _ => _ end); [|done].
  destruct (parse_int p); [|done]. by injection Hl as <-.
Qed.

(** ** Further properties: the run over the date range *)

Lemma write_day_closed sink rows :
  write_day sink rows = sink ++ header_if_empty sink ++ (Data <$> rows).
Proof.
  unfold write_day, header_if_empty.
  assert (∀ acc, foldl (λ sink r, sink ++ [Data r]) acc rows
                 = acc ++ (Data <$> rows)) as Hf.
  { induction rows as [|r rows IH]; intros acc; simpl.
    - by rewrite app_nil_r.
    - by rewrite IH, <- app_assoc. }
  rewrite Hf. case_bool_decide; by rewrite <- ?app_assoc.
Qed.

Lemma header_if_empty_nonempty sink : sink ≠ [] → header_if_empty sink = [].
Proof. intros Hs. unfold header_if_empty. by rewrite bool_decide_false. Qed.

Lemma write_days_closed sink (rows : list (list row)) :
  foldl write_day sink rows
  = sink ++ (if bool_decide (rows = []) then [] else header_if_empty sink)
         ++ (Data <$> concat rows).
Proof.
  revert sink. induction rows as [|r rows IH]; intros sink.
  - simpl. by rewrite app_nil_r.
  - cbn [foldl]. rewrite IH, write_day_closed.
    rewrite (bool_decide_false (r :: rows = [])) by done.
    cbn [concat]. rewrite fmap_app.
    assert (header_if_empty (sink ++ header_if_empty sink ++ (Data <$> r)) = [])
      as Hh.
    { apply header_if_empty_nonempty. by destruct sink. }
    rewrite Hh. destruct (bool_decide (rows = [])); by rewrite <- !app_assoc.
Qed.

Lemma datetime_le_midnight a b :
  datetime_le (combine a time_min) (combine b time_min) = bool_decide (a ≤ b).
Proof.
  unfold datetime_le, datetime_gt, combine, time_min. simpl.
  rewrite Z.ltb_irrefl, andb_false_r, orb_false_r.
  case_bool_decide; [rewrite (proj2 (Z.ltb_ge _ _))|rewrite (proj2 (Z.ltb_lt _ _))];
    simpl; try done; lia.
Qed.

Lemma next_day_midnight a :
  0 ≤ a →
  checked_add_timedelta (combine a time_min) (timedelta_days 1)
  = if bool_decide (a < max_ordinal) then Ok (combine (Z.succ a) time_min)
    else Raise OverflowError.
Proof.
  intros Ha. unfold checked_add_timedelta.
  change (add_timedelta (combine a time_min) (timedelta_days 1))
    with (combine (Z.succ a) time_min).
  cbn [ordinal combine].
  rewrite (proj2 (Z.leb_le 1 (Z.succ a))) by lia. cbn [andb].
  case_bool_decide.
  - by rewrite (proj2 (Z.leb_le _ _)) by lia.
  - by rewrite (proj2 (Z.leb_gt _ _)) by lia.
Qed.

Lemma workers_forallb (servers : list server) :
  forallb (λ srv, 0 <? max_workers srv) servers = true
  ↔ Forall (λ srv, 0 < max_workers srv) servers.
Proof.
  rewrite forallb_forall, Forall_forall.
  split; intros Hall srv Hin.
  - apply Z.ltb_lt, Hall. by apply list_elem_of_In.
  - apply Z.ltb_lt, Hall. by apply list_elem_of_In.
Qed.

Example ord2ymd_bounds :
  ord2ymd year_1000 = (1000, 1, 1) ∧ ord2ymd max_ordinal = (9999, 12, 31).
Proof. split; vm_compute; reflexivity. Qed.

(** The peers of this section are any. *)
Section RunAny.
Context {W : Type} `{Peers W}.

(** X17. When the last day is before the first, [main] asks no server
    anything and leaves the file as it was, even if a secondary is
    configured without workers. *)
Theorem main_empty_range fuel cfg_lines order start_day end_day args sink
    target_server other_servers (s : net W) :
  load_servers cfg_lines = Ok (target_server :: other_servers) →
  end_day < start_day →
  (0 < fuel)%nat →
  main fuel cfg_lines order start_day end_day args sink s = (Finished sink, s).
Proof.
  intros Hcfg Hlt Hfuel. unfold main. rewrite Hcfg.
  destruct fuel as [|fuel]; [lia|]. cbn [main_loop].
  rewrite datetime_le_midnight, bool_decide_false by lia. done.
Qed.

(** X18. When the configuration holds no line that describes a server,
    [main] stops on the index error of the empty server list, whatever
    the dates: no server is called and nothing is written. *)
Theorem main_no_server fuel cfg_lines order start_day end_day args sink
    (s : net W) :
  Forall (λ l, effective l = false) cfg_lines →
  main fuel cfg_lines order start_day end_day args sink s
  = (Aborted IndexError sink, s).
Proof.
  intros Hno. unfold main. rewrite load_servers_closed.
  assert (filter (λ l, effective l = true) cfg_lines = []) as ->; [|done].
  apply filter_none. eapply Forall_impl; [exact Hno|].
  intros l Hl. by rewrite Hl.
Qed.

End RunAny.

(** The peers of this section are those whose identifiers all convert. *)
Section RunExtras.
Context {W : Type} `{QueryClient W}.

Lemma main_iteration_run target_server other_servers completed d args (s : net W) :
  forallb (λ srv, 0 <? max_workers srv) other_servers = true →
  main_iteration target_server other_servers completed d args s
  = ((Ok (day_answer target_server completed d args s).1),
     (day_answer target_server completed d args s).2).
Proof.
  intros Hw. unfold main_iteration. rewrite Hw. apply main_day_run.
Qed.

(** The loop over the days: the rows of the days in turn, and the
    overflow of the date when the last day is the last there is. *)
Lemma main_loop_run fuel target_server other_servers order args
    start_day end_day sink (s : net W) :
  forallb (λ srv, 0 <? max_workers srv) other_servers = true →
  (Z.to_nat (end_day - start_day + 1) < fuel)%nat →
  0 ≤ start_day → end_day ≤ max_ordinal →
  let r := days_rows target_server other_servers order args
             (seqZ start_day (end_day - start_day + 1)) s in
  main_loop fuel target_server other_servers order args
    (combine start_day time_min) (combine end_day time_min) sink s
  = (if bool_decide (start_day ≤ end_day ∧ end_day = max_ordinal)
     then Aborted (Exn OverflowError) (foldl write_day sink r.1)
     else Finished (foldl write_day sink r.1),
     r.2).
Proof.
  intros Hw. revert start_day sink s.
  induction fuel as [|fuel IH]; intros start_day sink s Hfuel Hlo Hhi; [lia|].
  cbn zeta. cbn [main_loop]. rewrite datetime_le_midnight.
  case_bool_decide as Hle.
  - rewrite seqZ_cons by lia. cbn [days_rows].
    rewrite main_iteration_run by done.
    rewrite next_day_midnight by done.
    case_bool_decide as Hmax.
    + rewrite IH by lia.
      replace (Z.pred (end_day - start_day + 1))
        with (end_day - Z.succ start_day + 1) by lia.
      cbn [fst snd foldl].
      destruct (decide (end_day = max_ordinal)) as [Heq|Hne].
      * rewrite !bool_decide_true by lia. done.
      * rewrite !bool_decide_false by (intros [_ ?]; done). done.
    + assert (start_day = end_day) as -> by lia.
      rewrite bool_decide_true by lia.
      replace (Z.pred (end_day - end_day + 1)) with 0 by lia.
      rewrite seqZ_nil by lia. done.
  - rewrite seqZ_nil by lia. rewrite bool_decide_false by (intros [? _]; done).
    done.
Qed.

(** X16. For peers all of whose identifiers convert, a configuration
    that gives a first server and secondaries whose pools have at least
    one worker, and days of the years 1000 to 9999, [main] ends, given
    fuel for one pass more than the days of the range: it handles the
    days from the first to the last in order, each once, and leaves in
    the file what it held, then the header when it held nothing and at
    least one day was handled, then the rows of the days in order. It
    returns, unless the last day is 9999-12-31 and is handled: then
    stepping the date raises [OverflowError], after the rows of that
    day are written. *)
Theorem main_run fuel cfg_lines order start_day end_day args sink
    target_server other_servers (s : net W) :
  load_servers cfg_lines = Ok (target_server :: other_servers) →
  Forall (λ srv, 0 < max_workers srv) other_servers →
  (Z.to_nat (end_day - start_day + 1) < fuel)%nat →
  year_1000 ≤ start_day →
  end_day ≤ max_ordinal →
  let days := seqZ start_day (end_day - start_day + 1) in
  let r := days_rows target_server other_servers order args days s in
  let file :=
    sink ++ (if bool_decide (start_day ≤ end_day)
             then header_if_empty sink else [])
         ++ (Data <$> concat r.1) in
  main fuel cfg_lines order start_day end_day args sink s
  = (if bool_decide (start_day ≤ end_day ∧ end_day = max_ordinal)
     then Aborted (Exn OverflowError) file
     else Finished file,
     r.2)
  ∧ length r.1 = length days.
Proof.
  intros Hcfg Hw Hfuel Hlo Hhi days r file. split.
  - unfold main. rewrite Hcfg, main_loop_run; [|by apply workers_forallb|done|..].
    + fold days. fold r.
      assert (foldl write_day sink r.1 = file) as ->; [|done].
      rewrite write_days_closed. unfold file. do 2 f_equal.
      assert (r.1 = [] ↔ ¬ start_day ≤ end_day) as Hr.
      { unfold r, days. destruct (decide (start_day ≤ end_day)).
        - rewrite seqZ_cons by lia. simpl. split; [done|tauto].
        - rewrite seqZ_nil by lia. simpl. tauto. }
      do 2 case_bool_decide; tauto.
    + unfold year_1000 in Hlo. lia.
    + done.
  - unfold r. clear. generalize s. induction days as [|day days IH]; intros s'.
    + done.
    + simpl. by rewrite IH.
Qed.

(** X19. When a secondary is configured with no worker (zero or less)
    and the range holds a day, [main] stops on a value error in its
    first pass, before any row is written: the file is as it was. *)
Theorem main_no_worker fuel cfg_lines order start_day end_day args sink
    target_server other_servers (s : net W) :
  load_servers cfg_lines = Ok (target_server :: other_servers) →
  Exists (λ srv, max_workers srv ≤ 0) other_servers →
  start_day ≤ end_day →
  (0 < fuel)%nat →
  (main fuel cfg_lines order start_day end_day args sink s).1
  = Aborted (Exn ValueError) sink.
Proof.
  intros Hcfg Hbad Hle Hfuel. unfold main. rewrite Hcfg.
  destruct fuel as [|fuel]; [lia|]. cbn [main_loop].
  rewrite datetime_le_midnight, bool_decide_true by done.
  assert (forallb (λ srv, 0 <? max_workers srv) other_servers = false) as Hf.
  { apply not_true_is_false. intros Ht%workers_forallb.
    apply Exists_exists in Hbad as (srv & Hin & Hsrv).
    apply (proj1 (Forall_forall _ _) Ht) in Hin. lia. }
  unfold main_iteration. rewrite Hf.
  unfold bind at 1. rewrite process_server_run. done.
Qed.

End RunExtras.

(** ** Further properties: missing series and the single-source run *)

Lemma same_codes_of_sets ms ms' : upper_set ms = upper_set ms' → same_codes ms ms'.
Proof. intros Heq x. by rewrite <- !elem_of_upper_set, Heq. Qed.

(** X20. The missing series recorded for a study of the filtered set
    are, in the order of completion of the secondaries and then in the
    order of each series list, the series whose identifier the primary
    does not list and whose modality passes the series test, repeated
    as often as they are listed; for a study outside the filtered set
    nothing is recorded and the map has no key. *)
Theorem missing_series_recorded target other args (F : gset string) uid :
  default [] (dict_get (missing_series_map target other args F) uid)
  = (if decide (uid ∈ F) then
       concat ((λ entry,
                  omap (λ s : string * string,
                          if bool_decide (s.1 ∉ primary_series_ids target uid)
                             && series_passes args s.2
                          then Some (s.1, s.2, SourceServerAET entry) else None)
                       (SeriesList entry))
               <$> default [] (dict_get other uid))
     else [])
  ∧ (uid ∉ F → dict_get (missing_series_map target other args F) uid = None).
Proof.
  split; [apply missing_series_map_get|].
  intros Hnin. unfold missing_series_map.
  assert (∀ l msm, uid ∉ l → dict_get msm uid = None →
            dict_get (foldl (add_missing_study target other args) msm l) uid = None)
    as Hgen.
  { induction l as [|u l IH]; intros msm Hl Hm; [done|].
    apply not_elem_of_cons in Hl as [Hne Hl]. cbn [foldl]. apply IH; [done|].
    unfold add_missing_study. destruct (dict_get other u) as [entries|]; [|done].
    clear IH. revert msm Hm. induction entries as [|e entries IHe]; intros msm Hm;
      [done|].
    cbn [foldl]. apply IHe. unfold add_missing_entry.
    generalize (SeriesList e). intros sl. revert msm Hm.
    induction sl as [|[su sm] sl IHs]; intros msm Hm; [done|].
    cbn [foldl]. apply IHs. unfold add_missing_series.
    destruct (negb _ && _); [|done].
    unfold setdefault_append. by rewrite dict_get_set_ne. }
  apply Hgen; [|done]. by rewrite elem_of_elements.
Qed.

Lemma concat_fmap_Permutation {A B} (f : A → list B) l k :
  l ≡ₚ k → concat (f <$> l) ≡ₚ concat (f <$> k).
Proof.
  induction 1 as [|x l k _ IH|x y l|l k m _ IH1 _ IH2]; simpl.
  - done.
  - by rewrite IH.
  - rewrite !app_assoc. apply Permutation_app_tail, Permutation_app_comm.
  - by rewrite IH1.
Qed.

(** X21. With no secondary, the report of a day has exactly the rows of
    the primary's studies whose own modality codes pass the filter: a
    row is in the report exactly when it is the row of such a study,
    with the primary's metadata and an empty MissingSeries; and, the
    keys of the inventory being distinct, the report is these rows, one
    for each such study and no row twice, in the order in which the set
    of the studies is gone through. *)
Theorem single_source_rows target args d :
  let primary_row := λ kv : string * study_data,
    mk_row (sd_StudyDate kv.2) kv.1 (sd_AccessionNumber kv.2)
      (SeriesCount kv.2) (ImagesCount kv.2)
      (join "," (sorted (upper_set (Modalities kv.2))))
      (SourceServerAET kv.2) "" in
  (∀ r, r ∈ day_rows target (gather_other []) args d
        ↔ ∃ uid st,
            dict_get target uid = Some st
            ∧ filter_study (Modalities st) (Some (arg_modality args))
                (Some (arg_exclude args)) = true
            ∧ r = primary_row (uid, st))
  ∧ (NoDup target.*1 →
     day_rows target (gather_other []) args d
     ≡ₚ omap (λ kv : string * study_data,
                if filter_study (Modalities kv.2) (Some (arg_modality args))
                     (Some (arg_exclude args))
                then Some (primary_row kv) else None) target).
Proof.
  intros primary_row.
  change (gather_other []) with ([] : pydict (list study_data)).
  set (passes := λ kv : string * study_data,
         filter_study (Modalities kv.2) (Some (arg_modality args))
           (Some (arg_exclude args)) = true).
  assert (∀ uid st, dict_get target uid = Some st →
            (uid ∈ filtered target [] args ↔ passes (uid, st))) as Hf.
  { intros uid st Hst. rewrite elem_of_filtered, elem_of_all_uids,
      filter_study_reported.
    unfold all_reported_modalities, passes. rewrite Hst. simpl. rewrite app_nil_r.
    split; [by intros [_ ?]|]. intros ?. split; [|done]. left. by eexists. }
  assert (∀ uid, default [] (dict_get (missing_series_map target [] args
                                         (filtered target [] args)) uid) = [])
    as Hm.
  { intros uid. rewrite missing_series_map_get. case_decide; [|done].
    unfold miss_of. done. }
  split.
  - intros r. rewrite elem_of_day_rows. unfold rows_of. rewrite Hm. simpl. split.
    + intros [Hin Hr]. destruct (dict_get target (row_StudyInstanceUID r))
        as [st|] eqn:Hst; [|by apply elem_of_nil in Hr].
      apply list_elem_of_singleton in Hr.
      exists (row_StudyInstanceUID r), st. split; [done|].
      split; [by apply (Hf _ _ Hst)|done].
    + intros (uid & st & Hst & Hpass & ->). simpl. rewrite Hst.
      split; [by apply (Hf _ _ Hst)|apply list_elem_of_here].
  - intros Hnd. rewrite day_rows_concat.
    assert (elements (filtered target [] args) ≡ₚ (filter passes target).*1)
      as Hp.
    { apply NoDup_Permutation.
      - apply NoDup_elements.
      - apply (sublist_NoDup _ target.*1); [exact Hnd|].
        apply fmap_sublist, sublist_filter.
      - intros uid. rewrite elem_of_elements, list_elem_of_fmap. split.
        + intros Hin.
          assert (is_Some (dict_get target uid)) as [st Hst].
          { apply elem_of_filtered in Hin
              as [[?|[? ?]]%elem_of_all_uids _]; done. }
          exists (uid, st). split; [done|]. apply list_elem_of_filter.
          split; [by apply (Hf _ _ Hst)|by apply dict_get_Some_elem_of].
        + intros ([k st] & -> & [Hpass Hin]%list_elem_of_filter). simpl.
          apply (Hf k st); [by apply elem_of_dict_get|done]. }
    rewrite (concat_fmap_Permutation _ _ _ Hp).
    assert (∀ l, (∀ kv, kv ∈ l → dict_get target kv.1 = Some kv.2) →
       concat (rows_of target []
                 (missing_series_map target [] args (filtered target [] args)) d
               <$> (filter passes l).*1)
       = omap (λ kv : string * study_data,
                 if filter_study (Modalities kv.2) (Some (arg_modality args))
                      (Some (arg_exclude args))
                 then Some (primary_row kv) else None) l) as Heq.
    { induction l as [|[k st] l IH]; intros Hl; [done|].
      cbn [omap list_omap fst snd].
      destruct (filter_study (Modalities st) _ _) eqn:Hpass.
      - rewrite filter_cons_True by done. rewrite !fmap_cons. cbn [concat fst].
        rewrite IH by (intros kv ?; by apply Hl, list_elem_of_further).
        unfold rows_of at 1.
        pose proof (Hl (k, st) (list_elem_of_here _ _)) as Hk. simpl in Hk.
        rewrite Hk, Hm. done.
      - rewrite filter_cons_False by (unfold passes; simpl; congruence).
        apply IH. intros kv ?. by apply Hl, list_elem_of_further. }
    rewrite Heq; [done|].
    intros [k st] Hin. by apply elem_of_dict_get.
Qed.

(** ** Instances of the further properties *)

Section ExtraInstances.
Import Scenario Examples.

Example cfg_two_loaded : load_servers cfg_two = Ok [P; Q].
Proof. vm_compute. reflexivity. Qed.

Example run_two_days :
  (main 3 cfg_two in_order 739924 739925 no_filter [] (start two_sources)).1
  = Finished
      [Header header_columns;
       Data (mk_row (Some "20261104") "S1" (Some "ACC1") 2 40 "CT" "Q" "s3(MR)");
       Data (mk_row (Some "20261104") "S1" (Some "ACC1") 2 40 "CT" "Q" "s3(MR)")].
Proof. vm_compute. reflexivity. Qed.

(** A run whose last day is 9999-12-31 writes the rows of that day and
    then stops on the overflow of the date. *)
Example run_last_day :
  (main 2 cfg_two in_order max_ordinal max_ordinal no_filter []
     (start two_sources)).1
  = Aborted (Exn OverflowError)
      [Header header_columns;
       Data (mk_row (Some "20261104") "S1" (Some "ACC1") 2 40 "CT" "Q" "s3(MR)")].
Proof. vm_compute. reflexivity. Qed.

Lemma filter_study_same_codes_witness :
  filter_study ["ct"; "MR"; "CT"] (Some ["mr"]) (Some ["NONE"])
  = filter_study ["MR"; "Ct"] (Some ["mr"]) (Some ["NONE"])
  ∧ filter_study (elements (upper_set ["ct"; "MR"; "CT"])) (Some ["mr"])
      (Some ["NONE"])
    = filter_study ["MR"; "Ct"] (Some ["mr"]) (Some ["NONE"])
  ∧ filter_study (upper <$> ["ct"; "MR"; "CT"]) (Some ["mr"]) (Some ["NONE"])
    = filter_study ["MR"; "Ct"] (Some ["mr"]) (Some ["NONE"])
  ∧ filter_study (["ct"; "MR"; "CT"] ++ ["MR"; "Ct"]) (Some ["mr"])
      (Some ["NONE"])
    = filter_study ["MR"; "Ct"] (Some ["mr"]) (Some ["NONE"]).
Proof.
  apply (filter_study_same_codes ["ct"; "MR"; "CT"] ["MR"; "Ct"]).
  apply same_codes_of_sets. decide_by_compute.
Defined.

Lemma series_test_and_policy_witness :
  series_passes include_star "MR"
  = filter_study ["MR"] (Some (arg_modality include_star))
      (Some (arg_exclude include_star))
  ↔ ¬ (arg_modality include_star = ["*"] ∧ not_excluded include_star "MR"
       ∧ upper "MR" ≠ "*").
Proof.
  apply (series_test_and_policy include_star "MR"); discriminate.
Defined.

Lemma process_server_outage_witness :
  let whole := (combine (date day) time_min, combine (date day) time_max) in
  process_server unreachable day no_filter (start two_sources)
  = (Ok (aet unreachable, []),
     mk_net (find_studies (world (start two_sources)) (ip unreachable)
               (port unreachable) (aet unreachable) (arg_aet no_filter)
               (study_request_of whole.1 whole.2)).2
            (trace (start two_sources)
             ++ [study_event unreachable no_filter whole])).
Proof.
  apply (process_server_outage unreachable day no_filter (start two_sources)).
  reflexivity.
Defined.

Lemma gather_other_entries_witness :
  default [] (dict_get (gather_other [inventory_Q; inventory_R]) "S1")
  = omap (λ c : string * pydict study_data, dict_get c.2 "S1")
         [inventory_Q; inventory_R]
  ∧ (is_Some (dict_get (gather_other [inventory_Q; inventory_R]) "S1")
     ↔ ∃ c, c ∈ [inventory_Q; inventory_R] ∧ is_Some (dict_get c.2 "S1")).
Proof.
  apply (gather_other_entries [inventory_Q; inventory_R] "S1").
  decide_by_compute.
Defined.

Lemma filtered_completion_order_witness :
  filtered target_two (gather_other [inventory_Q; inventory_R]) exclude_mr
  = filtered target_two (gather_other [inventory_R; inventory_Q]) exclude_mr.
Proof.
  apply (filtered_completion_order target_two exclude_mr
           [inventory_Q; inventory_R] [inventory_R; inventory_Q]).
  - apply Permutation_swap.
  - decide_by_compute.
Defined.

Lemma rows_only_for_passing_studies_witness :
  let reported := all_reported_modalities target_two other_two "S1" in
  filter_study reported (Some (arg_modality no_filter))
    (Some (arg_exclude no_filter)) = true
  ∧ (is_Some (dict_get target_two "S1") ∨ is_Some (dict_get other_two "S1"))
  ∧ ¬ (exclude_in_force (Some (arg_exclude no_filter))
       ∧ ci_intersects reported (arg_exclude no_filter)).
Proof.
  apply (rows_only_for_passing_studies target_two other_two no_filter day
           (mk_row (Some "20261104") "S1" (Some "ACC1") 2 40 "CT" "Q" "s3(MR)")).
  vm_compute. apply list_elem_of_here.
Defined.

Lemma row_missing_series_empty_witness :
  let recorded :=
    default [] (dict_get (missing_series_map target_two other_two no_filter
                            (filtered target_two other_two no_filter)) "S1") in
  (recorded = [] ∧ "s3(MR)" = ""
   ∧ ∃ st, dict_get target_two "S1" = Some st ∧ "Q" = SourceServerAET st)
  ∨ (recorded ≠ [] ∧ "s3(MR)" ≠ "" ∧ "Q" ∈ recorded.*2).
Proof.
  apply (row_missing_series_empty target_two other_two no_filter day
           (mk_row (Some "20261104") "S1" (Some "ACC1") 2 40 "CT" "Q" "s3(MR)")).
  vm_compute. apply list_elem_of_here.
Defined.

Lemma load_servers_malformed_witness :
  load_servers (["10.0.0.1 104 P"] ++ "10.0.0.2 104" :: ["# end"])
  = Raise ValueError.
Proof.
  apply (load_servers_malformed ["10.0.0.1 104 P"] "10.0.0.2 104" ["# end"]).
  - reflexivity.
  - left. vm_compute. lia.
Defined.

Lemma load_servers_fields_witness :
  Forall (λ srv, field (ip srv) ∧ field (aet srv)) [P; Q].
Proof.
  apply (load_servers_fields cfg_two [P; Q]). vm_compute. reflexivity.
Defined.

Lemma main_run_witness :
  let days := seqZ 739924 (739925 - 739924 + 1) in
  let r := days_rows P [Q] in_order no_filter days (start two_sources) in
  let file :=
    [] ++ (if bool_decide (739924 ≤ 739925) then header_if_empty [] else [])
       ++ (Data <$> concat r.1) in
  main 3 cfg_two in_order 739924 739925 no_filter [] (start two_sources)
  = (if bool_decide (739924 ≤ 739925 ∧ 739925 = max_ordinal)
     then Aborted (Exn OverflowError) file
     else Finished file,
     r.2)
  ∧ length r.1 = length days.
Proof.
  apply (main_run 3 cfg_two in_order 739924 739925 no_filter []
           P [Q] (start two_sources)).
  - vm_compute. reflexivity.
  - repeat constructor.
  - vm_compute. lia.
  - vm_compute. discriminate.
  - vm_compute. discriminate.
Defined.

Lemma single_source_rows_witness :
  let primary_row := λ kv : string * study_data,
    mk_row (sd_StudyDate kv.2) kv.1 (sd_AccessionNumber kv.2)
      (SeriesCount kv.2) (ImagesCount kv.2)
      (join "," (sorted (upper_set (Modalities kv.2))))
      (SourceServerAET kv.2) "" in
  (∀ r, r ∈ day_rows inventory_R.2 (gather_other []) include_us day
        ↔ ∃ uid st,
            dict_get inventory_R.2 uid = Some st
            ∧ filter_study (Modalities st) (Some (arg_modality include_us))
                (Some (arg_exclude include_us)) = true
            ∧ r = primary_row (uid, st))
  ∧ day_rows inventory_R.2 (gather_other []) include_us day
    ≡ₚ [mk_row (Some "20261104") "S1" (Some "ACC1") 1 12 "US" "R" ""].
Proof.
  destruct (single_source_rows inventory_R.2 include_us day) as [Hiff Hperm].
  split; [exact Hiff|]. apply Hperm. decide_by_compute.
Defined.

Lemma main_empty_range_witness :
  main 1 cfg_no_worker in_order 739925 739924 no_filter [] (start two_sources)
  = (Finished [], start two_sources).
Proof.
  apply (main_empty_range 1 cfg_no_worker in_order 739925 739924 no_filter []
           P (mk_server "10.0.0.2" 104 "Q" 0 :: []) (start two_sources)).
  - vm_compute. reflexivity.
  - lia.
  - lia.
Defined.

Lemma main_no_server_witness :
  main 3 cfg_comments in_order 739924 739925 no_filter [] (start two_sources)
  = (Aborted IndexError [], start two_sources).
Proof.
  apply (main_no_server 3 cfg_comments in_order 739924 739925 no_filter []
           (start two_sources)).
  repeat constructor.
Defined.

Lemma main_no_worker_witness :
  (main 3 cfg_no_worker in_order 739924 739925 no_filter []
     (start two_sources)).1
  = Aborted (Exn ValueError) [].
Proof.
  apply (main_no_worker 3 cfg_no_worker in_order 739924 739925 no_filter []
           P (mk_server "10.0.0.2" 104 "Q" 0 :: []) (start two_sources)).
  - vm_compute. reflexivity.
  - apply Exists_cons_hd. simpl. lia.
  - lia.
  - lia.
Defined.

End ExtraInstances.
